(** * The pull-request review webhook (webhook_server/app.py)

    A shallow embedding of the webhook service: signature verification,
    the [CodeReviewer] analysis runner, the [GitHubClient] reporter and
    the [webhook] handler, over an explicit model of the world they talk
    to (external processes, the temporary directory, the comment thread
    of the pull request), followed by the properties of the pipeline.

    Conventions.
    - A Python [str] is a [string]: the sequence of its UTF-8 bytes.
      Header values are the exception, they reach the handler decoded as
      latin-1, one character per byte, which [string] holds as it is.
    - [bytes] are [list byte].
    - A Python value that comes out of JSON is a [pyobj].
    - A [dict] is an association list in insertion order; its keys are
      pairwise different.
    - A call that may raise returns a [result]; code that also acts on
      the world lives in the monad [M]. *)

From Stdlib Require Import List String Ascii ZArith Bool Arith Lia.
From Stdlib.Strings Require Import Byte.
From Stdlib Require Import DecimalString.
Import ListNotations.
Open Scope string_scope.
Open Scope Z_scope.

(* ------------------------------------------------------------------ *)
(** ** Python values and exceptions *)

#[warnings="-register-all"]
Inductive pyobj : Type :=
| PyNone
| PyBool (b : bool)
| PyInt (n : Z)
| PyFloat (lexeme : string)
| PyStr (s : string)
| PyList (l : list pyobj)
| PyDict (d : list (string * pyobj)).

Inductive exn : Type :=
| ValueError
| TypeError
| KeyError (key : string)
| JSONDecodeError
| OSError
| CalledProcessError (cmd : list string) (returncode : Z)
| BadRequest
| UnsupportedMediaType.

Inductive result (A : Type) : Type :=
| Ok (a : A)
| Raise (e : exn).
Arguments Ok {A} a.
Arguments Raise {A} e.

(** Evaluate [r]; go on with its value, or pass its exception on. *)
Definition and_then {A B} (r : result A) (k : A -> result B) : result B :=
  match r with
  | Ok a => k a
  | Raise e => Raise e
  end.

Notation "'let?' x ':=' r 'in' k" := (and_then r (fun x => k))
  (at level 10, x name, r at level 100, k at level 200).

(** [d[key]] on an association list. *)
Fixpoint assoc (key : string) (d : list (string * pyobj)) : option pyobj :=
  match d with
  | [] => None
  | (k, v) :: d' => if String.eqb k key then Some v else assoc key d'
  end.

(** [o[key]] for a string [key]: only a dict can be subscripted by a
    string; a missing key is a [KeyError]. *)
Definition py_getitem (o : pyobj) (key : string) : result pyobj :=
  match o with
  | PyDict d =>
      match assoc key d with
      | Some v => Ok v
      | None => Raise (KeyError key)
      end
  | _ => Raise TypeError
  end.

(** Is the byte a UTF-8 continuation byte (10xxxxxx)? *)
Definition is_continuation (c : ascii) : bool :=
  let n := N_of_ascii c in (128 <=? n)%N && (n <? 192)%N.

(** The characters of a [str], each as a one-character [str]. *)
Fixpoint chars_from (cur : string) (s : string) : list string :=
  match s with
  | EmptyString => [cur]
  | String c s' =>
      if is_continuation c then chars_from (cur ++ String c EmptyString) s'
      else cur :: chars_from (String c EmptyString) s'
  end.

Definition py_chars (s : string) : list string :=
  match s with
  | EmptyString => []
  | String c s' => chars_from (String c EmptyString) s'
  end.

(** [for i in o]: the items the loop visits. *)
Definition py_iter (o : pyobj) : result (list pyobj) :=
  match o with
  | PyList l => Ok l
  | PyDict d => Ok (map (fun kv => PyStr (fst kv)) d)
  | PyStr s => Ok (map PyStr (py_chars s))
  | _ => Raise TypeError
  end.

(** [o == s] for a string literal [s]. *)
Definition py_eq_str (o : pyobj) (s : string) : bool :=
  match o with
  | PyStr t => String.eqb t s
  | _ => false
  end.

(* ------------------------------------------------------------------ *)
(** ** String methods *)

Definition eq_char : ascii := "="%char.

(** [s.split(sep)] for a one-character separator. *)
Fixpoint split_on (sep : ascii) (cur : string) (s : string) : list string :=
  match s with
  | EmptyString => [cur]
  | String c s' =>
      if Ascii.eqb c sep then cur :: split_on sep EmptyString s'
      else split_on sep (cur ++ String c EmptyString) s'
  end.

Definition str_split (s : string) (sep : ascii) : list string :=
  split_on sep EmptyString s.

(** [needle in hay]. *)
Fixpoint contains (needle hay : string) : bool :=
  String.prefix needle hay ||
  match hay with
  | EmptyString => false
  | String _ hay' => contains needle hay'
  end.

Fixpoint rev_string (s : string) : string :=
  match s with
  | EmptyString => EmptyString
  | String c s' => rev_string s' ++ String c EmptyString
  end.

(** [s.endswith(suffix)]. *)
Definition endswith (s suffix : string) : bool :=
  String.prefix (rev_string suffix) (rev_string s).

(** [str(n)] for a length. *)
Definition str_of_nat (n : nat) : string :=
  NilZero.string_of_uint (Nat.to_uint n).

(** [s.splitlines()]: the line boundaries are LF, CR, CRLF, VT, FF, FS,
    GS, RS, NEL (C2 85), LS (E2 80 A8) and PS (E2 80 A9); a boundary at
    the end of the text opens no further line. *)
Definition is_line_break (c : ascii) : bool :=
  let n := N_of_ascii c in
  (n =? 10)%N || (n =? 11)%N || (n =? 12)%N || (n =? 13)%N ||
  (n =? 28)%N || (n =? 29)%N || (n =? 30)%N.

(** The length in bytes of the line boundary [s] starts with, 0 when it
    starts with none. *)
Definition break_len (s : string) : nat :=
  match s with
  | String c1 s1 =>
      let n1 := N_of_ascii c1 in
      match s1 with
      | String c2 s2 =>
          let n2 := N_of_ascii c2 in
          if ((n1 =? 13) && (n2 =? 10))%N then 2%nat
          else if ((n1 =? 194) && (n2 =? 133))%N then 2%nat
          else
            match s2 with
            | String c3 _ =>
                let n3 := N_of_ascii c3 in
                if ((n1 =? 226) && (n2 =? 128) &&
                    ((n3 =? 168) || (n3 =? 169)))%N then 3%nat
                else if is_line_break c1 then 1%nat else 0%nat
            | EmptyString => if is_line_break c1 then 1%nat else 0%nat
            end
      | EmptyString => if is_line_break c1 then 1%nat else 0%nat
      end
  | EmptyString => 0%nat
  end.

(** [skip] counts the bytes of the current boundary still to pass. *)
Fixpoint lines_from (skip : nat) (cur : string) (s : string) : list string :=
  match s with
  | EmptyString => match cur with EmptyString => [] | _ => [cur] end
  | String c s' =>
      match skip with
      | S k => lines_from k cur s'
      | O =>
          match break_len s with
          | O => lines_from 0 (cur ++ String c EmptyString) s'
          | S k => cur :: lines_from k EmptyString s'
          end
      end
  end.

Definition splitlines (s : string) : list string :=
  lines_from 0 EmptyString s.

(** [str(n)] for an integer. *)
Definition str_of_Z (n : Z) : string :=
  NilZero.string_of_int (Z.to_int n).

(** Truth value of a [str]. *)
Definition nonempty (s : string) : bool :=
  match s with EmptyString => false | _ => true end.

(** Does every character of [s] lie in the ASCII range? *)
Fixpoint is_ascii_str (s : string) : bool :=
  match s with
  | EmptyString => true
  | String c s' => (N_of_ascii c <? 128)%N && is_ascii_str s'
  end.

(* ------------------------------------------------------------------ *)
(** ** The Python library

    What the service imports and this development does not look into:
    the keyed hash, the JSON decoder and the rendering of a float or a
    container inside an f-string. *)

Class PythonLib : Type := {
  (** [hmac.new(key, msg=msg, digestmod=hashlib.sha256).digest()] *)
  hmac_sha256 : list byte -> list byte -> list byte;
  (** [json.loads(text)]; [None] stands for [json.JSONDecodeError] *)
  json_loads : string -> option pyobj;
  (** [repr(o)] of a float, a list or a dict *)
  repr_compound : pyobj -> string
}.

Definition hex_digit (n : N) : ascii :=
  match n with
  | 0%N => "0" | 1%N => "1" | 2%N => "2" | 3%N => "3"
  | 4%N => "4" | 5%N => "5" | 6%N => "6" | 7%N => "7"
  | 8%N => "8" | 9%N => "9" | 10%N => "a" | 11%N => "b"
  | 12%N => "c" | 13%N => "d" | 14%N => "e" | _ => "f"
  end%char.

Definition hex_of_byte (b : byte) : string :=
  let n := Byte.to_N b in
  String (hex_digit (n / 16)) (String (hex_digit (n mod 16)) EmptyString).

(** [.hexdigest()] of a digest: two lowercase hex digits a byte. *)
Fixpoint hexlify (bs : list byte) : string :=
  match bs with
  | [] => EmptyString
  | b :: bs' => hex_of_byte b ++ hexlify bs'
  end.

(** [hmac.compare_digest(a, b)] on two [str]: both must be ASCII. *)
Definition compare_digest (a b : string) : result bool :=
  if is_ascii_str a && is_ascii_str b then Ok (String.eqb a b)
  else Raise TypeError.

(** The value an f-string puts in place of [{o}]. *)
Definition py_format `{PythonLib} (o : pyobj) : string :=
  match o with
  | PyStr s => s
  | PyNone => "None"
  | PyBool true => "True"
  | PyBool false => "False"
  | PyInt n => str_of_Z n
  | _ => repr_compound o
  end.

(* ------------------------------------------------------------------ *)
(** ** Signature verification *)

Section Verify.
Context `{PythonLib}.

(** The module-level [WEBHOOK_SECRET], read from the environment when
    the service starts; the empty string when the variable is unset. *)
Variable WEBHOOK_SECRET : string.

Definition verify_signature (payload : list byte)
           (signature_header : string) : result bool :=
  if negb (nonempty WEBHOOK_SECRET) then Ok true
  else if negb (nonempty signature_header) then Ok false
  else
    match str_split signature_header eq_char with
    | [algo; github_sig] =>
        let digest :=
          hexlify (hmac_sha256 (list_byte_of_string WEBHOOK_SECRET)
                               payload) in
        compare_digest digest github_sig
    | _ => Raise ValueError
    end.

(** The hex digest the verifier computes for a payload. *)
Definition expected_digest (secret : string) (payload : list byte) : string :=
  hexlify (hmac_sha256 (list_byte_of_string secret) payload).

End Verify.

(* ------------------------------------------------------------------ *)
(** ** The world of one delivery *)

(** What [subprocess.run] hands back once the process has exited. *)
Record CompletedProcess : Type := {
  returncode : Z;
  stdout : string
}.

(** A comment of the pull request under review, as GitHub lists it. *)
Record Comment : Type := {
  comment_id : Z;
  comment_body : string
}.

(** A finding: the dict the runner appends to [self.errors]. *)
Definition Finding : Type := list (string * pyobj).

(** Everything the handler asks of its collaborators, in the order
    asked.  A directory is named by the number [mkdtemp] gave it. *)
Inductive call : Type :=
| Mkdtemp (dir : nat)
| Rmtree (dir : nat)
| Subprocess (cmd : list string) (cwd : nat)
| SetStatus (repo sha : pyobj) (state description : string)
| ListComments (repo pr : pyobj)
| DeleteComment (repo : pyobj) (id : Z)
| PostComment (repo pr : pyobj) (body : string).

(** The world: how the collaborators answer ([exec], [rmtree_ok]), what
    they hold (temporary directories, the comments and statuses on
    GitHub), the [errors] attribute of the delivery's reviewer, and the
    calls made so far.

    - [exec cmd] is the outcome of running the command line [cmd]:
      [None] when the process cannot be started ([OSError]).
    - GitHub is a store that answers every request: listing returns all
      comments of the pull request, deleting removes the comment with
      that id, posting appends a comment with an unused id. *)
Record World : Type := {
  exec : list string -> option CompletedProcess;
  rmtree_ok : bool;
  tmp_next : nat;
  tmp_live : list nat;
  gh_comments : list Comment;
  gh_next_id : Z;
  gh_statuses : list (pyobj * string * string);
  errors : list Finding;
  trace : list call
}.

Definition set_tmp (next : nat) (live : list nat) (w : World) : World :=
  {| exec := exec w; rmtree_ok := rmtree_ok w;
     tmp_next := next; tmp_live := live;
     gh_comments := gh_comments w; gh_next_id := gh_next_id w;
     gh_statuses := gh_statuses w; errors := errors w; trace := trace w |}.

Definition set_comments (cs : list Comment) (next : Z) (w : World) : World :=
  {| exec := exec w; rmtree_ok := rmtree_ok w;
     tmp_next := tmp_next w; tmp_live := tmp_live w;
     gh_comments := cs; gh_next_id := next;
     gh_statuses := gh_statuses w; errors := errors w; trace := trace w |}.

Definition set_statuses (ss : list (pyobj * string * string)) (w : World)
  : World :=
  {| exec := exec w; rmtree_ok := rmtree_ok w;
     tmp_next := tmp_next w; tmp_live := tmp_live w;
     gh_comments := gh_comments w; gh_next_id := gh_next_id w;
     gh_statuses := ss; errors := errors w; trace := trace w |}.

Definition set_errors (es : list Finding) (w : World) : World :=
  {| exec := exec w; rmtree_ok := rmtree_ok w;
     tmp_next := tmp_next w; tmp_live := tmp_live w;
     gh_comments := gh_comments w; gh_next_id := gh_next_id w;
     gh_statuses := gh_statuses w; errors := es; trace := trace w |}.

Definition set_trace (t : list call) (w : World) : World :=
  {| exec := exec w; rmtree_ok := rmtree_ok w;
     tmp_next := tmp_next w; tmp_live := tmp_live w;
     gh_comments := gh_comments w; gh_next_id := gh_next_id w;
     gh_statuses := gh_statuses w; errors := errors w; trace := t |}.

(* ------------------------------------------------------------------ *)
(** ** The monad of handler code: world passing with exceptions *)

Definition M (A : Type) : Type := World -> result A * World.

Definition ret {A} (a : A) : M A := fun w => (Ok a, w).

Definition raise {A} (e : exn) : M A := fun w => (Raise e, w).

Definition bind {A B} (m : M A) (k : A -> M B) : M B :=
  fun w =>
    match m w with
    | (Ok a, w') => k a w'
    | (Raise e, w') => (Raise e, w')
    end.

Notation "x <- m ;; k" := (bind m (fun x => k))
  (at level 61, m at next level, right associativity).
Notation "m ;; k" := (bind m (fun _ => k))
  (at level 61, right associativity).

(** A pure call that may raise. *)
Definition lift {A} (r : result A) : M A := fun w => (r, w).

Definition get {A} (f : World -> A) : M A := fun w => (Ok (f w), w).

Definition modify (f : World -> World) : M unit := fun w => (Ok tt, f w).

(** Record a call to a collaborator. *)
Definition emit (c : call) : M unit :=
  modify (fun w => set_trace (trace w ++ [c]) w).

(** [for x in l: body(x)] *)
Fixpoint for_each {A} (l : list A) (body : A -> M unit) : M unit :=
  match l with
  | [] => ret tt
  | x :: l' => body x ;; for_each l' body
  end.

(** [try: body / except Exception as e: handler(e)] *)
Definition try_except {A} (body : M A) (handler : exn -> M A) : M A :=
  fun w =>
    match body w with
    | (Ok a, w') => (Ok a, w')
    | (Raise e, w') => handler e w'
    end.

(** [try: body / finally: final]: [final] runs on every way out of
    [body]; an exception of [final] replaces the outcome of [body]. *)
Definition try_finally {A} (body : M A) (final : M unit) : M A :=
  fun w =>
    match body w with
    | (r, w') =>
        match final w' with
        | (Ok _, w'') => (r, w'')
        | (Raise e, w'') => (Raise e, w'')
        end
    end.

(* ------------------------------------------------------------------ *)
(** ** External processes *)

Fixpoint has_nul (s : string) : bool :=
  match s with
  | EmptyString => false
  | String c s' => (N_of_ascii c =? 0)%N || has_nul s'
  end.

(** The argument vector of a command: every item must be a [str]
    ([TypeError] otherwise) without a NUL character ([ValueError]). *)
Fixpoint as_args (cmd : list pyobj) : result (list string) :=
  match cmd with
  | [] => Ok []
  | PyStr s :: cmd' =>
      if has_nul s then Raise ValueError
      else let? args := as_args cmd' in Ok (s :: args)
  | _ :: _ => Raise TypeError
  end.

(** [subprocess.run(cmd, cwd=cwd, capture_output=True, text=True,
    check=check)] *)
Definition subprocess_run (cmd : list pyobj) (cwd : nat) (check : bool)
  : M CompletedProcess :=
  args <- lift (as_args cmd) ;;
  emit (Subprocess args cwd) ;;
  outcome <- get (fun w => exec w args) ;;
  match outcome with
  | None => raise OSError
  | Some proc =>
      if check && negb (returncode proc =? 0)
      then raise (CalledProcessError args (returncode proc))
      else ret proc
  end.

Definition run (cmd : list pyobj) (cwd : nat) : M CompletedProcess :=
  subprocess_run cmd cwd true.

(* ------------------------------------------------------------------ *)
(** ** Configuration *)

Definition nl : string := String "010"%char EmptyString.

Definition BOT_MARKER : string := "<!-- code-review-bot -->".

(* ------------------------------------------------------------------ *)
(** ** GitHub API *)

(** The client of one repository.  Its headers (the token) go with
    every request and are left out of the calls recorded. *)
Record GitHubClient : Type := { repo : pyobj }.

(** POST to the statuses of [sha]; the answer is not looked at. *)
Definition set_status (self : GitHubClient) (sha : pyobj)
           (state description : string) : M unit :=
  emit (SetStatus (repo self) sha state description) ;;
  modify (fun w =>
            set_statuses (gh_statuses w ++ [(sha, state, description)]) w).

(** GET the comments of the pull request; the store has no failure for
    [raise_for_status] to raise. *)
Definition list_pr_comments (self : GitHubClient) (pr_number : pyobj)
  : M (list Comment) :=
  emit (ListComments (repo self) pr_number) ;;
  get gh_comments.

(** DELETE the comment [id]; the answer is not looked at. *)
Definition delete_comment (self : GitHubClient) (id : Z) : M unit :=
  emit (DeleteComment (repo self) id) ;;
  modify (fun w =>
            set_comments
              (filter (fun c => negb (comment_id c =? id)) (gh_comments w))
              (gh_next_id w) w).

(** POST a comment with [body] to the pull request. *)
Definition post_pr_comment (self : GitHubClient) (pr_number : pyobj)
           (body : string) : M unit :=
  emit (PostComment (repo self) pr_number body) ;;
  modify (fun w =>
            set_comments
              (gh_comments w ++
                 [{| comment_id := gh_next_id w; comment_body := body |}])
              (gh_next_id w + 1) w).

(* ------------------------------------------------------------------ *)
(** ** Code reviewer *)

Record CodeReviewer : Type := {
  repo_url : pyobj;
  base_ref : pyobj;
  head_sha : pyobj;
  workdir : nat
}.

Section Reviewer.
Context `{PythonLib}.

(** [CodeReviewer(repo_url, base_ref, head_sha)]: a fresh temporary
    directory ([mkdtemp] is taken to succeed) and an empty [errors]
    list. *)
Definition new_reviewer (url ref sha : pyobj) : M CodeReviewer :=
  dir <- get tmp_next ;;
  modify (fun w => set_tmp (S dir) (dir :: tmp_live w) w) ;;
  emit (Mkdtemp dir) ;;
  modify (set_errors []) ;;
  ret {| repo_url := url; base_ref := ref; head_sha := sha;
         workdir := dir |}.

(** [shutil.rmtree(self.workdir, ignore_errors=True)]: when the tree
    cannot be removed it stays, and nothing is raised. *)
Definition cleanup (self : CodeReviewer) : M unit :=
  emit (Rmtree (workdir self)) ;;
  modify (fun w =>
            if rmtree_ok w
            then set_tmp (tmp_next w)
                   (filter (fun d => negb (Nat.eqb d (workdir self)))
                           (tmp_live w)) w
            else w).

Definition clone_repo (self : CodeReviewer) : M unit :=
  run [PyStr "git"; PyStr "clone"; repo_url self; PyStr "."]
      (workdir self) ;;
  run [PyStr "git"; PyStr "fetch"; PyStr "origin"; base_ref self]
      (workdir self) ;;
  run [PyStr "git"; PyStr "checkout"; head_sha self] (workdir self) ;;
  ret tt.

Definition changed_python_files (self : CodeReviewer) : M (list string) :=
  result <- run [PyStr "git"; PyStr "diff"; PyStr "--name-only";
                 PyStr ("origin/" ++ py_format (base_ref self));
                 head_sha self]
                (workdir self) ;;
  ret (filter (fun f => endswith f ".py") (splitlines (stdout result))).

(** [self.errors.append(e)] *)
Definition append_error (e : Finding) : M unit :=
  modify (fun w => set_errors (errors w ++ [e]) w).

(** The finding [run_ruff] makes of one reported issue. *)
Definition ruff_finding (i : pyobj) : result Finding :=
  let? filename := py_getitem i "filename" in
  let? location := py_getitem i "location" in
  let? row := py_getitem location "row" in
  let? location' := py_getitem i "location" in
  let? column := py_getitem location' "column" in
  let? code := py_getitem i "code" in
  let? message := py_getitem i "message" in
  Ok [("file", filename); ("line", row); ("column", column);
      ("code", code); ("message", message)].

Definition run_ruff (self : CodeReviewer) (files : list string) : M unit :=
  match files with
  | [] => ret tt
  | _ :: _ =>
      proc <- subprocess_run
                (map PyStr
                     (["ruff"; "check"; "--output-format=json"] ++ files))
                (workdir self) false ;;
      if nonempty (stdout proc) then
        issues <- lift (match json_loads (stdout proc) with
                        | Some v => Ok v
                        | None => Raise JSONDecodeError
                        end) ;;
        items <- lift (py_iter issues) ;;
        for_each items
                 (fun i => e <- lift (ruff_finding i) ;; append_error e)
      else ret tt
  end.

(** The finding [run_format_check] makes of one file. *)
Definition format_finding (f : string) : Finding :=
  [("file", PyStr f); ("line", PyInt 1); ("column", PyInt 1);
   ("code", PyStr "FORMAT");
   ("message", PyStr "File is not properly formatted")].

Definition run_format_check (self : CodeReviewer) (files : list string)
  : M unit :=
  match files with
  | [] => ret tt
  | _ :: _ =>
      proc <- subprocess_run
                (map PyStr (["ruff"; "format"; "--check"] ++ files))
                (workdir self) false ;;
      if negb (returncode proc =? 0) then
        for_each files (fun f => append_error (format_finding f))
      else ret tt
  end.

Definition test_finding : Finding :=
  [("file", PyStr "tests/"); ("line", PyInt 1); ("column", PyInt 1);
   ("code", PyStr "TEST"); ("message", PyStr "Tests failed")].

Definition run_pytest (self : CodeReviewer) : M unit :=
  proc <- subprocess_run [PyStr "pytest"; PyStr "-q"] (workdir self)
                         false ;;
  if negb (returncode proc =? 0) then append_error test_finding
  else ret tt.

(** [not self.errors] *)
Definition no_errors (es : list Finding) : bool :=
  match es with [] => true | _ :: _ => false end.

Definition run_all (self : CodeReviewer) : M bool :=
  files <- changed_python_files self ;;
  run_ruff self files ;;
  run_format_check self files ;;
  run_pytest self ;;
  es <- get errors ;;
  ret (no_errors es).

(** One line of the comment: the f-string over [e]. *)
Definition finding_line (e : Finding) : result string :=
  let? file := py_getitem (PyDict e) "file" in
  let? line := py_getitem (PyDict e) "line" in
  let? column := py_getitem (PyDict e) "column" in
  let? code := py_getitem (PyDict e) "code" in
  let? message := py_getitem (PyDict e) "message" in
  Ok ("- `" ++ py_format file ++ "` **" ++ py_format line ++ ":" ++
      py_format column ++ "** `" ++ py_format code ++ "` — " ++
      py_format message ++ nl).

(** The loop of [build_comment]: [body += line] for each finding. *)
Fixpoint add_lines (body : string) (es : list Finding) : result string :=
  match es with
  | [] => Ok body
  | e :: es' =>
      let? line := finding_line e in add_lines (body ++ line) es'
  end.

Definition build_comment (self : CodeReviewer) : M string :=
  es <- get errors ;;
  let body := BOT_MARKER ++ nl ++ "## 🔍 Code Review Results" ++ nl ++ nl in
  if no_errors es then ret (body ++ "✅ All checks passed!")
  else
    let body := body ++ "❌ Found **" ++ str_of_nat (List.length es) ++
                "** issue(s):" ++ nl ++ nl in
    lift (add_lines body es).
End Reviewer.

(* ------------------------------------------------------------------ *)
(** ** Webhook handler *)

(** The request as the handler reads it: the raw body, the two headers
    it looks up (absent is [None]) and the outcome of reading
    [request.json].  Flask decodes the body when the attribute is read:
    the outcome is the decoded document, or the exception the read
    raises, [UnsupportedMediaType] (answered 415) for a delivery whose
    content type is not JSON, such as a form-encoded one, and
    [BadRequest] (answered 400) for a body that is no JSON document. *)
Record Request : Type := {
  data : list byte;
  x_hub_signature_256 : option string;
  x_github_event : option string;
  json : result pyobj
}.

(** [jsonify(body), status] *)
Record Response : Type := {
  body : list (string * pyobj);
  status : Z
}.

Definition invalid_signature : Response :=
  {| body := [("error", PyStr "Invalid signature")]; status := 401 |}.

Definition ignored : Response :=
  {| body := [("message", PyStr "Ignored")]; status := 200 |}.

Definition summary (success : bool) : Response :=
  {| body := [("success", PyBool success)]; status := 200 |}.

(** [headers.get(name, default)] *)
Definition header_or (h : option string) (default : string) : string :=
  match h with Some v => v | None => default end.

(** [event != "pull_request"] *)
Definition not_pull_request (event : option string) : bool :=
  match event with
  | Some e => negb (String.eqb e "pull_request")
  | None => true
  end.

(** The fields of the payload the handler reads, in the order read. *)
Record PullRequestRef : Type := {
  pr_repo : pyobj;
  pr_number : pyobj;
  pr_base_ref : pyobj;
  pr_head_sha : pyobj;
  pr_clone_url : pyobj
}.

Definition pr_fields (payload : pyobj) : result PullRequestRef :=
  let? pr := py_getitem payload "pull_request" in
  let? repository := py_getitem payload "repository" in
  let? repo := py_getitem repository "full_name" in
  let? pr_number := py_getitem pr "number" in
  let? base := py_getitem pr "base" in
  let? base_ref := py_getitem base "ref" in
  let? head := py_getitem pr "head" in
  let? head_sha := py_getitem head "sha" in
  let? repository' := py_getitem payload "repository" in
  let? clone_url := py_getitem repository' "clone_url" in
  Ok {| pr_repo := repo; pr_number := pr_number;
        pr_base_ref := base_ref; pr_head_sha := head_sha;
        pr_clone_url := clone_url |}.

Section Handler.
Context `{PythonLib}.
Variable WEBHOOK_SECRET : string.

(** The [try]/[except]/[finally] block around clone and analysis. *)
Definition guarded_review (gh : GitHubClient) (reviewer : CodeReviewer)
  : M bool :=
  try_finally
    (try_except
       (clone_repo reviewer ;;
        run_all reviewer)
       (fun e =>
          set_status gh (head_sha reviewer) "error" "CI execution failed" ;;
          raise e))
    (cleanup reviewer).

(** Everything after the [try] statement: clean old bot comments, set
    the final status, post the new comment. *)
Definition report (gh : GitHubClient) (reviewer : CodeReviewer)
           (pr_number : pyobj) (success : bool) : M Response :=
  comments <- list_pr_comments gh pr_number ;;
  for_each comments
           (fun c =>
              if contains BOT_MARKER (comment_body c)
              then delete_comment gh (comment_id c)
              else ret tt) ;;
  (if success then
     set_status gh (head_sha reviewer) "success" "All checks passed"
   else
     es <- get errors ;;
     set_status gh (head_sha reviewer) "failure"
                ("Found " ++ str_of_nat (List.length es) ++ " issue(s)") ;;
     comment <- build_comment reviewer ;;
     post_pr_comment gh pr_number comment) ;;
  ret (summary success).

(** The statements between the [try] statement and the field
    extraction: the pending status and the reviewer with its workspace. *)
Definition begin_review (f : PullRequestRef)
  : M (GitHubClient * CodeReviewer) :=
  let gh := {| repo := pr_repo f |} in
  set_status gh (pr_head_sha f) "pending" "Running code quality checks" ;;
  reviewer <- new_reviewer (pr_clone_url f) (pr_base_ref f) (pr_head_sha f) ;;
  ret (gh, reviewer).

(** The part of the handler that runs for an accepted event. *)
Definition review (payload : pyobj) : M Response :=
  f <- lift (pr_fields payload) ;;
  started <- begin_review f ;;
  let '(gh, reviewer) := started in
  success <- guarded_review gh reviewer ;;
  report gh reviewer (pr_number f) success.

(** [webhook()]: [Raise e] is an exception that leaves the handler.
    [request.json] is read once the signature has verified and before
    the event is tested, so an exception of that read leaves the handler
    whatever the event is. *)
Definition webhook (request : Request) : M Response :=
  verified <- lift (verify_signature WEBHOOK_SECRET (data request)
                      (header_or (x_hub_signature_256 request) EmptyString)) ;;
  if negb verified then ret invalid_signature
  else
    let event := x_github_event request in
    payload <- lift (json request) ;;
    if not_pull_request event then ret ignored
    else
      action <- lift (py_getitem payload "action") ;;
      if negb (py_eq_str action "opened" || py_eq_str action "synchronize")
      then ret ignored
      else review payload.

(** The delivery passes the gates of the handler: the signature
    verifies, the body decodes to [payload], the event is
    [pull_request], the action is [opened] or [synchronize]. *)
Definition accepted (request : Request) (payload : pyobj) : Prop :=
  verify_signature WEBHOOK_SECRET (data request)
                   (header_or (x_hub_signature_256 request) EmptyString) = Ok true /\
  json request = Ok payload /\
  x_github_event request = Some "pull_request" /\
  exists action,
    py_getitem payload "action" = Ok action /\
    (py_eq_str action "opened" || py_eq_str action "synchronize") = true.

End Handler.

(* ------------------------------------------------------------------ *)
(** ** A reference Python library

    An instance of [PythonLib] to run the model on concrete deliveries:
    HMAC-SHA256 as FIPS 180-4 and RFC 2104 define it, and a decoder for
    the part of JSON that has no backslash escape. *)

Module Sha256.
Local Open Scope list_scope.

(** 32-bit words are [Z] in 0 .. 2^32 - 1. *)
Definition w32 (x : Z) : Z := Z.land x 0xffffffff.

Definition add32 (x y : Z) : Z := w32 (x + y).

Definition rotr (n x : Z) : Z :=
  Z.lor (Z.shiftr x n) (w32 (Z.shiftl x (32 - n))).

Definition Ch (x y z : Z) : Z :=
  Z.lxor (Z.land x y) (Z.land (Z.lxor x 0xffffffff) z).

Definition Maj (x y z : Z) : Z :=
  Z.lxor (Z.land x y) (Z.lxor (Z.land x z) (Z.land y z)).

Definition Sigma0 (x : Z) : Z :=
  Z.lxor (rotr 2 x) (Z.lxor (rotr 13 x) (rotr 22 x)).

Definition Sigma1 (x : Z) : Z :=
  Z.lxor (rotr 6 x) (Z.lxor (rotr 11 x) (rotr 25 x)).

Definition sigma0 (x : Z) : Z :=
  Z.lxor (rotr 7 x) (Z.lxor (rotr 18 x) (Z.shiftr x 3)).

Definition sigma1 (x : Z) : Z :=
  Z.lxor (rotr 17 x) (Z.lxor (rotr 19 x) (Z.shiftr x 10)).

(** The first [n] primes. *)
Definition is_prime (n : nat) : bool :=
  forallb (fun d => negb (Nat.eqb (n mod d) 0)) (seq 2 (n - 2)).

Definition primes (n : nat) : list Z :=
  map Z.of_nat (firstn n (filter is_prime (seq 2 400))).

(** The integer cube root, a bit at a time from bit [bits - 1] down. *)
Fixpoint cube_root (bits : nat) (n x : Z) : Z :=
  match bits with
  | O => x
  | S bits' =>
      let y := x + Z.shiftl 1 (Z.of_nat bits') in
      cube_root bits' n (if y * y * y <=? n then y else x)
  end.

(** The round constants: the first 32 bits of the fractional part of
    the cube root of each of the first 64 primes. *)
Definition K : list Z :=
  Eval vm_compute in
    map (fun p => w32 (cube_root 40 (Z.shiftl p 96) 0)) (primes 64).

(** The initial hash value: the same of the square roots of the first 8
    primes. *)
Definition H0 : list Z :=
  Eval vm_compute in map (fun p => w32 (Z.sqrt (Z.shiftl p 64))) (primes 8).

(** Big-endian bytes of a value, [n] of them. *)
Fixpoint be_bytes (n : nat) (x : Z) : list Z :=
  match n with
  | O => []
  | S n' => Z.land (Z.shiftr x (8 * Z.of_nat n')) 255 :: be_bytes n' x
  end.

(** Padding: a 1 bit, zeros up to 56 modulo 64, the bit length on 64
    bits. *)
Definition pad (msg : list Z) : list Z :=
  let len := Z.of_nat (List.length msg) in
  let zeros := Z.to_nat ((55 - len) mod 64) in
  msg ++ [128] ++ repeat 0 zeros ++ be_bytes 8 (8 * len).

(** Big-endian 32-bit words of a byte sequence. *)
Fixpoint words (bs : list Z) : list Z :=
  match bs with
  | b0 :: b1 :: b2 :: b3 :: bs' =>
      (b0 * 16777216 + b1 * 65536 + b2 * 256 + b3) :: words bs'
  | _ => []
  end.

(** The message schedule, newest word first: [n] more words. *)
Fixpoint extend (n : nat) (w : list Z) : list Z :=
  match n with
  | O => w
  | S n' =>
      let wt := add32 (add32 (sigma1 (nth 1 w 0)) (nth 6 w 0))
                      (add32 (sigma0 (nth 14 w 0)) (nth 15 w 0)) in
      extend n' (wt :: w)
  end.

Definition schedule (block : list Z) : list Z :=
  rev (extend 48 (rev block)).

Definition regs : Type := (Z * Z * Z * Z * Z * Z * Z * Z)%type.

Definition round (r : regs) (kw : Z * Z) : regs :=
  let '(a, b, c, d, e, f, g, h) := r in
  let t1 := add32 (add32 (add32 h (Sigma1 e)) (Ch e f g))
                  (add32 (fst kw) (snd kw)) in
  let t2 := add32 (Sigma0 a) (Maj a b c) in
  (add32 t1 t2, a, b, c, add32 d t1, e, f, g).

Definition compress (r : regs) (block : list Z) : regs :=
  let '(a, b, c, d, e, f, g, h) := r in
  let '(a', b', c', d', e', f', g', h') :=
    fold_left round (combine K (schedule block)) r in
  (add32 a a', add32 b b', add32 c c', add32 d d',
   add32 e e', add32 f f', add32 g g', add32 h h').

(** Fold [compress] over the 16-word blocks of [ws]. *)
Fixpoint blocks (fuel : nat) (r : regs) (ws : list Z) : regs :=
  match fuel, ws with
  | S fuel', _ :: _ => blocks fuel' (compress r (firstn 16 ws)) (skipn 16 ws)
  | _, _ => r
  end.

Definition initial : regs :=
  (nth 0 H0 0, nth 1 H0 0, nth 2 H0 0, nth 3 H0 0,
   nth 4 H0 0, nth 5 H0 0, nth 6 H0 0, nth 7 H0 0).

Definition sha256 (msg : list Z) : list Z :=
  let ws := words (pad msg) in
  let '(a, b, c, d, e, f, g, h) := blocks (List.length ws) initial ws in
  flat_map (be_bytes 4) [a; b; c; d; e; f; g; h].

(** RFC 2104 with a block of 64 bytes. *)
Definition hmac (key msg : list Z) : list Z :=
  let key := if (64 <? Z.of_nat (List.length key)) then sha256 key else key in
  let key := key ++ repeat 0 (64 - List.length key)%nat in
  sha256 (map (Z.lxor 0x5c) key ++ sha256 (map (Z.lxor 0x36) key ++ msg)).

Definition Z_of_byte (b : byte) : Z := Z.of_N (Byte.to_N b).

Definition byte_of_Z (z : Z) : byte :=
  byte_of_ascii (ascii_of_N (Z.to_N z)).

Definition hmac_sha256 (key msg : list byte) : list byte :=
  map byte_of_Z (hmac (map Z_of_byte key) (map Z_of_byte msg)).

End Sha256.

Module Json.

Definition dquote : ascii := "034"%char.
Definition backslash : ascii := "092"%char.

Definition is_ws (c : ascii) : bool :=
  let n := N_of_ascii c in
  (n =? 32)%N || (n =? 9)%N || (n =? 10)%N || (n =? 13)%N.

Definition is_digit (c : ascii) : bool :=
  let n := N_of_ascii c in (48 <=? n)%N && (n <=? 57)%N.

Fixpoint skip_ws (s : string) : string :=
  match s with
  | String c s' => if is_ws c then skip_ws s' else s
  | EmptyString => s
  end.

(** The longest prefix of digits, and what follows it. *)
Fixpoint take_digits (s : string) : string * string :=
  match s with
  | String c s' =>
      if is_digit c then
        let '(ds, rest) := take_digits s' in (String c ds, rest)
      else (EmptyString, s)
  | EmptyString => (EmptyString, s)
  end.

Fixpoint digits_value (acc : Z) (ds : string) : Z :=
  match ds with
  | String c ds' => digits_value (10 * acc + (Z.of_N (N_of_ascii c) - 48)) ds'
  | EmptyString => acc
  end.

(** The integer part: [0], or a digit from 1 to 9 and more digits. *)
Definition take_int (s : string) : option (string * string) :=
  match s with
  | String c s' =>
      if (N_of_ascii c =? 48)%N then Some (String c EmptyString, s')
      else if is_digit c then
        let '(ds, rest) := take_digits s' in Some (String c ds, rest)
      else None
  | EmptyString => None
  end.

(** An optional fraction: a dot and at least one digit. *)
Definition take_frac (s : string) : string * string :=
  match s with
  | String c s' =>
      if Ascii.eqb c "."%char then
        match take_digits s' with
        | (EmptyString, _) => (EmptyString, s)
        | (ds, rest) => (String c ds, rest)
        end
      else (EmptyString, s)
  | EmptyString => (EmptyString, s)
  end.

(** An optional exponent: [e] or [E], an optional sign, digits. *)
Definition take_exp (s : string) : string * string :=
  match s with
  | String c s' =>
      if Ascii.eqb c "e"%char || Ascii.eqb c "E"%char then
        let '(sign, s'') :=
          match s' with
          | String d t =>
              if Ascii.eqb d "+"%char || Ascii.eqb d "-"%char
              then (String d EmptyString, t) else (EmptyString, s')
          | EmptyString => (EmptyString, s')
          end in
        match take_digits s'' with
        | (EmptyString, _) => (EmptyString, s)
        | (ds, rest) => (String c (sign ++ ds), rest)
        end
      else (EmptyString, s)
  | EmptyString => (EmptyString, s)
  end.

Definition parse_number (s : string) : option (pyobj * string) :=
  let '(neg, s1) :=
    match s with
    | String c s' => if Ascii.eqb c "-"%char then (true, s') else (false, s)
    | EmptyString => (false, s)
    end in
  match take_int s1 with
  | None => None
  | Some (int, s2) =>
      let '(frac, s3) := take_frac s2 in
      let '(exp, s4) := take_exp s3 in
      match frac, exp with
      | EmptyString, EmptyString =>
          let v := digits_value 0 int in
          Some (PyInt (if neg then - v else v), s4)
      | _, _ =>
          Some (PyFloat ((if neg then "-" else EmptyString) ++ int ++ frac ++ exp), s4)
      end
  end.

(** The text of a string, after its opening quote: up to the closing
    quote; control characters are refused, and so is the backslash. *)
Fixpoint scan_string (acc : string) (s : string) : option (string * string) :=
  match s with
  | EmptyString => None
  | String c s' =>
      if Ascii.eqb c dquote then Some (acc, s')
      else if Ascii.eqb c backslash then None
      else if (N_of_ascii c <? 32)%N then None
      else scan_string (acc ++ String c EmptyString) s'
  end.

(** [d[k] = v] while the dict is built: a repeated key keeps its place
    and takes the later value. *)
Fixpoint dict_set (k : string) (v : pyobj) (d : list (string * pyobj))
  : list (string * pyobj) :=
  match d with
  | [] => [(k, v)]
  | (k', v') :: d' =>
      if String.eqb k' k then (k', v) :: d' else (k', v') :: dict_set k v d'
  end.

Definition literal (word : string) (v : pyobj) (s : string)
  : option (pyobj * string) :=
  if String.prefix word s
  then Some (v, String.substring (String.length word)
                                 (String.length s - String.length word) s)
  else None.

Fixpoint parse_value (fuel : nat) (s : string) : option (pyobj * string) :=
  match fuel with
  | O => None
  | S fuel' =>
      match skip_ws s with
      | EmptyString => None
      | String c s' as t =>
          if Ascii.eqb c "n"%char then literal "null" PyNone t
          else if Ascii.eqb c "t"%char then literal "true" (PyBool true) t
          else if Ascii.eqb c "f"%char then literal "false" (PyBool false) t
          else if Ascii.eqb c dquote then
            match scan_string EmptyString s' with
            | Some (str, rest) => Some (PyStr str, rest)
            | None => None
            end
          else if Ascii.eqb c "["%char then
            match skip_ws s' with
            | String d rest as t' =>
                if Ascii.eqb d "]"%char then Some (PyList [], rest)
                else parse_elems fuel' [] t'
            | EmptyString => None
            end
          else if Ascii.eqb c "{"%char then
            match skip_ws s' with
            | String d rest as t' =>
                if Ascii.eqb d "}"%char then Some (PyDict [], rest)
                else parse_members fuel' [] t'
            | EmptyString => None
            end
          else parse_number t
      end
  end
with parse_elems (fuel : nat) (acc : list pyobj) (s : string)
  : option (pyobj * string) :=
  match fuel with
  | O => None
  | S fuel' =>
      match parse_value fuel' s with
      | None => None
      | Some (v, rest) =>
          match skip_ws rest with
          | String c rest' =>
              if Ascii.eqb c ","%char
              then parse_elems fuel' (acc ++ [v])%list rest'
              else if Ascii.eqb c "]"%char
              then Some (PyList (acc ++ [v])%list, rest')
              else None
          | EmptyString => None
          end
      end
  end
with parse_members (fuel : nat) (acc : list (string * pyobj)) (s : string)
  : option (pyobj * string) :=
  match fuel with
  | O => None
  | S fuel' =>
      match skip_ws s with
      | String q s1 =>
          if Ascii.eqb q dquote then
            match scan_string EmptyString s1 with
            | None => None
            | Some (k, s2) =>
                match skip_ws s2 with
                | String c s3 =>
                    if Ascii.eqb c ":"%char then
                      match parse_value fuel' s3 with
                      | None => None
                      | Some (v, s4) =>
                          match skip_ws s4 with
                          | String e s5 =>
                              if Ascii.eqb e ","%char
                              then parse_members fuel' (dict_set k v acc) s5
                              else if Ascii.eqb e "}"%char
                              then Some (PyDict (dict_set k v acc), s5)
                              else None
                          | EmptyString => None
                          end
                      end
                    else None
                | EmptyString => None
                end
            end
          else None
      | EmptyString => None
      end
  end.

(** The decoder: one value, and white space around it. *)
Definition loads (s : string) : option pyobj :=
  match parse_value (2 * String.length s + 2) s with
  | Some (v, rest) =>
      match skip_ws rest with
      | EmptyString => Some v
      | _ => None
      end
  | None => None
  end.

End Json.

(** [repr(o)], exact for strings that need no escape. *)
Fixpoint py_repr (o : pyobj) : string :=
  match o with
  | PyNone => "None"
  | PyBool true => "True"
  | PyBool false => "False"
  | PyInt n => str_of_Z n
  | PyFloat lexeme => lexeme
  | PyStr s => "'" ++ s ++ "'"
  | PyList l => "[" ++ String.concat ", " (map py_repr l) ++ "]"
  | PyDict d =>
      "{" ++ String.concat ", "
               (map (fun kv => "'" ++ fst kv ++ "': " ++ py_repr (snd kv)) d)
          ++ "}"
  end.

Definition reference_python : PythonLib :=
  {| hmac_sha256 := Sha256.hmac_sha256;
     json_loads := Json.loads;
     repr_compound := py_repr |}.

(* ------------------------------------------------------------------ *)
(** ** Sample deliveries *)

Fixpoint cmd_eqb (a b : list string) : bool :=
  match a, b with
  | [], [] => true
  | x :: a', y :: b' => String.eqb x y && cmd_eqb a' b'
  | _, _ => false
  end.

(** An [exec] given by a table of command lines; a command that is not
    in the table cannot be started. *)
Fixpoint exec_of (table : list (list string * CompletedProcess))
         (cmd : list string) : option CompletedProcess :=
  match table with
  | [] => None
  | (c, p) :: table' => if cmd_eqb c cmd then Some p else exec_of table' cmd
  end.

Definition exited (rc : Z) (out : string) : CompletedProcess :=
  {| returncode := rc; stdout := out |}.

(** A world with nothing in it but the answers of [table] and the
    comments [cs]. *)
Definition world_of (table : list (list string * CompletedProcess))
           (cs : list Comment) : World :=
  {| exec := exec_of table; rmtree_ok := true;
     tmp_next := 0; tmp_live := [];
     gh_comments := cs; gh_next_id := 100;
     gh_statuses := []; errors := []; trace := [] |}.

Definition sample_payload (action : string) : pyobj :=
  PyDict
    [("action", PyStr action);
     ("pull_request",
      PyDict [("number", PyInt 42);
              ("base", PyDict [("ref", PyStr "main")]);
              ("head", PyDict [("sha", PyStr "c0ffee")])]);
     ("repository",
      PyDict [("full_name", PyStr "octo/demo");
              ("clone_url", PyStr "https://github.com/octo/demo.git")])].

Definition sample_body : list byte := list_byte_of_string "{}".

(** A delivery of a [pull_request] event without a signature header, for
    a service without a secret. *)
Definition sample_request (action : string) : Request :=
  {| data := sample_body;
     x_hub_signature_256 := None;
     x_github_event := Some "pull_request";
     json := Ok (sample_payload action) |}.

Definition git_ok (diff_out : string)
  : list (list string * CompletedProcess) :=
  [(["git"; "clone"; "https://github.com/octo/demo.git"; "."], exited 0 EmptyString);
   (["git"; "fetch"; "origin"; "main"], exited 0 EmptyString);
   (["git"; "checkout"; "c0ffee"], exited 0 EmptyString);
   (["git"; "diff"; "--name-only"; "origin/main"; "c0ffee"],
    exited 0 diff_out)].


(* ------------------------------------------------------------------ *)
(** ** Vocabulary of the properties *)

Fixpoint mem_char (c : ascii) (s : string) : bool :=
  match s with
  | EmptyString => false
  | String c' s' => Ascii.eqb c' c || mem_char c s'
  end.

Definition is_hex_char (c : ascii) : bool :=
  let n := N_of_ascii c in
  ((48 <=? n) && (n <=? 57) || (97 <=? n) && (n <=? 102) ||
   (65 <=? n) && (n <=? 70))%N.

Fixpoint is_hex_str (s : string) : bool :=
  match s with
  | EmptyString => true
  | String c s' => is_hex_char c && is_hex_str s'
  end.


(** A relation between the world before and the world after that every
    run of [m] satisfies, whatever its outcome. *)
Definition preserves {A} (R : World -> World -> Prop) (m : M A) : Prop :=
  forall w r w', m w = (r, w') -> R w w'.


(** A comment that carries the marker of the bot. *)
Definition is_bot_comment (c : Comment) : bool :=
  contains BOT_MARKER (comment_body c).

(** The number of marker-tagged comments on the pull request. *)
Definition count_bot (cs : list Comment) : nat :=
  List.length (filter is_bot_comment cs).

(** The keys [build_comment] reads in a finding. *)
Definition finding_keys : list string :=
  ["file"; "line"; "column"; "code"; "message"].

Definition has_keys (e : Finding) : bool :=
  forallb (fun k => match assoc k e with Some _ => true | None => false end)
          finding_keys.

(** What clone and analysis may do to the world: the comments on GitHub
    stay as they are, the answers of the collaborators do not change,
    and [errors] only grows, by findings with all their keys. *)
Definition analysis_step (w w' : World) : Prop :=
  exec w' = exec w /\
  rmtree_ok w' = rmtree_ok w /\
  gh_comments w' = gh_comments w /\
  gh_next_id w' = gh_next_id w /\
  exists found : list Finding,
    errors w' = (errors w ++ found)%list /\
    Forall (fun e => has_keys e = true) found.

(** The comments that survive the deletion of the marker-tagged
    comments among [listed], each deleted by its id. *)
Definition survives (listed : list Comment) (x : Comment) : bool :=
  negb (existsb (fun c => is_bot_comment c &&
                          (comment_id x =? comment_id c)) listed).

(** The final status the reporter sets. *)
Definition final_status (success : bool) (findings : nat) : string * string :=
  if success then ("success", "All checks passed")
  else ("failure", "Found " ++ str_of_nat findings ++ " issue(s)").

(** The files a check-only run of the formatter objects to: the lines
    [Would reformat: <path>] of its report. *)
Definition reported_offenders (out : string) : list string :=
  flat_map
    (fun line =>
       if String.prefix "Would reformat: " line
       then [String.substring 16 (String.length line - 16) line]
       else [])
    (splitlines out).

(* ------------------------------------------------------------------ *)
(** ** Sample worlds *)

Definition sample_fields : PullRequestRef :=
  {| pr_repo := PyStr "octo/demo";
     pr_number := PyInt 42;
     pr_base_ref := PyStr "main";
     pr_head_sha := PyStr "c0ffee";
     pr_clone_url := PyStr "https://github.com/octo/demo.git" |}.

Definition sample_client : GitHubClient := {| repo := PyStr "octo/demo" |}.

(** The reviewer of the sample delivery, in the first workspace. *)
Definition sample_reviewer : CodeReviewer :=
  {| repo_url := PyStr "https://github.com/octo/demo.git";
     base_ref := PyStr "main";
     head_sha := PyStr "c0ffee";
     workdir := 0 |}.

Definition old_comments : list Comment :=
  [{| comment_id := 7; comment_body := "Looks good to me" |};
   {| comment_id := 8; comment_body := BOT_MARKER ++ nl ++ "stale" |};
   {| comment_id := 9; comment_body := "quoting " ++ BOT_MARKER |}].

(** Two Python files changed; the formatter objects to [a.py] alone. *)
Definition format_report : string :=
  "Would reformat: a.py" ++ nl ++
  "1 file would be reformatted, 1 file already formatted" ++ nl.

Definition world_unformatted : World :=
  world_of
    (git_ok ("a.py" ++ nl ++ "README.md" ++ nl ++ "b.py" ++ nl) ++
     [(["ruff"; "check"; "--output-format=json"; "a.py"; "b.py"],
       exited 0 "[]");
      (["ruff"; "format"; "--check"; "a.py"; "b.py"],
       exited 1 format_report);
      (["pytest"; "-q"], exited 0 EmptyString)])%list
    old_comments.

(** Everything passes. *)
Definition world_clean : World :=
  world_of
    (git_ok ("a.py" ++ nl) ++
     [(["ruff"; "check"; "--output-format=json"; "a.py"], exited 0 "[]");
      (["ruff"; "format"; "--check"; "a.py"], exited 0 EmptyString);
      (["pytest"; "-q"], exited 0 EmptyString)])%list
    old_comments.


(** The linter's output stops in the middle of the document. *)
Definition world_truncated_lint : World :=
  world_of
    (git_ok ("a.py" ++ nl) ++
     [(["ruff"; "check"; "--output-format=json"; "a.py"], exited 1 "[{");
      (["ruff"; "format"; "--check"; "a.py"], exited 0 EmptyString);
      (["pytest"; "-q"], exited 0 EmptyString)])%list
    old_comments.

(** The repository cannot be cloned. *)
Definition world_no_clone : World :=
  world_of
    [(["git"; "clone"; "https://github.com/octo/demo.git"; "."],
      exited 128 EmptyString)]
    old_comments.

(** A delivery for a service whose secret is [s3cret]. *)
Definition signed_request (header : option string) : Request :=
  {| data := sample_body;
     x_hub_signature_256 := header;
     x_github_event := Some "pull_request";
     json := Ok (sample_payload "opened") |}.


(* ------------------------------------------------------------------ *)
(** ** Health *)

(** The module-level [GITHUB_TOKEN] is [os.environ.get("GITHUB_TOKEN")]:
    [None] when the variable is unset. *)
Definition truthy_token (token : option string) : bool :=
  match token with
  | Some t => nonempty t
  | None => false
  end.

(** [health()]: the answer of [GET /health]. *)
Definition health (GITHUB_TOKEN : option string) (WEBHOOK_SECRET : string)
  : Response :=
  {| body := [("status", PyStr "ok");
              ("github_token", PyBool (truthy_token GITHUB_TOKEN));
              ("webhook_secret", PyBool (nonempty WEBHOOK_SECRET))];
     status := 200 |}.

(* ------------------------------------------------------------------ *)
(** ** More vocabulary *)

(** How many times [c] occurs in [s]. *)
Fixpoint count_char (c : ascii) (s : string) : nat :=
  match s with
  | EmptyString => O
  | String c' s' => (if Ascii.eqb c' c then 1 else 0) + count_char c s'
  end.

(** A character that is ASCII, not NUL and no line boundary. *)
Definition plain_char (c : ascii) : bool :=
  (0 <? N_of_ascii c)%N && (N_of_ascii c <? 128)%N &&
  negb (is_line_break c).

(** A path as [git diff --name-only] prints it: ASCII without NUL or a
    line boundary. *)
Fixpoint plain_name (s : string) : bool :=
  match s with
  | EmptyString => true
  | String c s' => plain_char c && plain_name s'
  end.

(** The output that lists [names], one a line. *)
Fixpoint unlines (names : list string) : string :=
  match names with
  | [] => EmptyString
  | n :: names' => n ++ nl ++ unlines names'
  end.

(** What clone and analysis leave alone: everything but the findings
    and the record of calls. *)
Definition quiet_step (w w' : World) : Prop :=
  exec w' = exec w /\
  rmtree_ok w' = rmtree_ok w /\
  tmp_next w' = tmp_next w /\
  tmp_live w' = tmp_live w /\
  gh_comments w' = gh_comments w /\
  gh_next_id w' = gh_next_id w /\
  gh_statuses w' = gh_statuses w.


(** The header of the comment for [n] findings. *)
Definition comment_header (n : nat) : string :=
  (BOT_MARKER ++ nl ++ "## 🔍 Code Review Results" ++ nl ++ nl) ++
  "❌ Found **" ++ str_of_nat n ++ "** issue(s):" ++ nl ++ nl.

(** The calls that start a process. *)
Definition is_subprocess (c : call) : bool :=
  match c with
  | Subprocess _ _ => true
  | _ => false
  end.

(** A reviewer whose three attributes are strings, as in a payload of
    GitHub. *)
Definition reviewer_of (url ref sha : string) (dir : nat) : CodeReviewer :=
  {| repo_url := PyStr url; base_ref := PyStr ref; head_sha := PyStr sha;
     workdir := dir |}.

(** The command lines of [clone_repo], in order. *)
Definition clone_commands (url ref sha : string) : list (list string) :=
  [["git"; "clone"; url; "."];
   ["git"; "fetch"; "origin"; ref];
   ["git"; "checkout"; sha]].

(** The command line of [changed_python_files]. *)
Definition diff_command (ref sha : string) : list string :=
  ["git"; "diff"; "--name-only"; "origin/" ++ ref; sha].

(** The command has started and exited with status zero. *)
Definition exits_zero (w : World) (cmd : list string) : Prop :=
  exists proc, exec w cmd = Some proc /\ returncode proc = 0.

(** The command lines of the three checks. *)
Definition lint_command (files : list string) : list string :=
  (["ruff"; "check"; "--output-format=json"] ++ files)%list.

Definition format_command (files : list string) : list string :=
  (["ruff"; "format"; "--check"] ++ files)%list.

Definition test_command : list string := ["pytest"; "-q"].

(** Texts one after the other. *)
Fixpoint join (parts : list string) : string :=
  match parts with
  | [] => EmptyString
  | p :: parts' => p ++ join parts'
  end.

(** The findings of the format check and of the test check, from the
    exit statuses of the two tools. *)
Definition format_findings (files : list string) (rc : Z) : list Finding :=
  if rc =? 0 then [] else map format_finding files.

Definition test_findings (rc : Z) : list Finding :=
  if rc =? 0 then [] else [test_finding].

(** One Python file changed; the linter is silent, the formatter
    objects, the tests pass. *)
Definition world_one_unformatted : World :=
  world_of
    (git_ok ("app.py" ++ nl) ++
     [(["ruff"; "check"; "--output-format=json"; "app.py"],
       exited 0 EmptyString);
      (["ruff"; "format"; "--check"; "app.py"], exited 1 EmptyString);
      (["pytest"; "-q"], exited 0 EmptyString)])%list
    old_comments.

(** The linter reports two issues and exits 1. *)
Definition lint_issue (file : string) (row col : Z) (code message : string)
  : pyobj :=
  PyDict [("filename", PyStr file);
          ("location", PyDict [("row", PyInt row); ("column", PyInt col)]);
          ("code", PyStr code);
          ("message", PyStr message)].

Definition lint_report : string :=
  Eval vm_compute in
    (let q := String Json.dquote EmptyString in
     let field k v := q ++ k ++ q ++ ": " ++ v in
     let str s := q ++ s ++ q in
     let issue file row col code msg :=
       "{" ++ field "filename" (str file) ++ ", " ++
       field "location"
             ("{" ++ field "row" row ++ ", " ++ field "column" col ++ "}")
       ++ ", " ++ field "code" (str code) ++ ", " ++
       field "message" (str msg) ++ "}" in
     "[" ++ issue "a.py" "3" "1" "F401" "os imported but unused" ++ ", " ++
     issue "a.py" "9" "80" "E501" "Line too long" ++ "]").

Definition world_lint_issues : World :=
  world_of
    (git_ok ("a.py" ++ nl) ++
     [(["ruff"; "check"; "--output-format=json"; "a.py"],
       exited 1 lint_report);
      (["ruff"; "format"; "--check"; "a.py"], exited 0 EmptyString);
      (["pytest"; "-q"], exited 1 "1 failed")])%list
    [].

(** The second issue of the report has a filename and nothing else. *)
Definition lint_report_incomplete : string :=
  Eval vm_compute in
    (let q := String Json.dquote EmptyString in
     let field k v := q ++ k ++ q ++ ": " ++ v in
     let str s := q ++ s ++ q in
     "[{" ++ field "filename" (str "a.py") ++ ", " ++
     field "location"
           ("{" ++ field "row" "3" ++ ", " ++ field "column" "1" ++ "}")
     ++ ", " ++ field "code" (str "F401") ++ ", " ++
     field "message" (str "unused") ++ "}, {" ++
     field "filename" (str "a.py") ++ "}]").

Definition world_incomplete_issue : World :=
  world_of
    (git_ok ("a.py" ++ nl) ++
     [(["ruff"; "check"; "--output-format=json"; "a.py"],
       exited 1 lint_report_incomplete)])%list
    [].

(** A call that stays inside the workspace [dir]: a process started
    there, the making or the removal of that directory, or a request to
    GitHub. *)
Definition confined (dir : nat) (c : call) : bool :=
  match c with
  | Mkdtemp d => Nat.eqb d dir
  | Rmtree d => Nat.eqb d dir
  | Subprocess _ cwd => Nat.eqb cwd dir
  | _ => true
  end.

(** The calls added from [w] to [w'] are all confined to [dir]. *)
Definition confined_step (dir : nat) (w w' : World) : Prop :=
  exists calls,
    trace w' = (trace w ++ calls)%list /\
    Forall (fun c => confined dir c = true) calls.

(* ------------------------------------------------------------------ *)
(** ** What the checks find *)

Section Findings.
Context `{PythonLib}.

(** The findings of the lint check on [files] in the world [w]: none
    for an empty scope; otherwise the linter is started on the files,
    and a non-empty output is a JSON document whose items give one
    finding each, in order. *)
Definition lint_found (w : World) (files : list string)
           (found : list Finding) : Prop :=
  match files with
  | [] => found = []
  | _ :: _ =>
      exists proc,
        exec w (lint_command files) = Some proc /\
        if nonempty (stdout proc) then
          exists issues items,
            json_loads (stdout proc) = Some issues /\
            py_iter issues = Ok items /\
            Forall2 (fun i e => ruff_finding i = Ok e) items found
        else found = []
  end.

(** The findings of the format check: none for an empty scope;
    otherwise those of the exit status of the formatter. *)
Definition format_found (w : World) (files : list string)
           (found : list Finding) : Prop :=
  match files with
  | [] => found = []
  | _ :: _ =>
      exists proc,
        exec w (format_command files) = Some proc /\
        found = format_findings files (returncode proc)
  end.

(** The finding of the test check, from the exit status of the test
    run. *)
Definition test_found (w : World) (found : list Finding) : Prop :=
  exists proc,
    exec w test_command = Some proc /\
    found = test_findings (returncode proc).

(** The findings of the three checks of [reviewer] in the world [w], on
    the files its diff scopes. *)
Definition check_findings (reviewer : CodeReviewer) (w : World)
           (lint fmt tests : list Finding) : Prop :=
  exists files,
    fst (changed_python_files reviewer w) = Ok files /\
    lint_found w files lint /\
    format_found w files fmt /\
    test_found w tests.
End Findings.


(* ================================================================== *)
(** * Properties *)

(* ------------------------------------------------------------------ *)
(** ** The reference library on known values *)

(** FIPS 180-4, the digest of [abc]. *)
Example sha256_abc :
  hexlify (map Sha256.byte_of_Z
               (Sha256.sha256
                  (map Sha256.Z_of_byte (list_byte_of_string "abc")))) =
  "ba7816bf8f01cfea414140de5dae2223b00361a396177a9cb410ff61f20015ad".
Proof. vm_compute. reflexivity. Qed.

(** A message longer than one block. *)
Example sha256_two_blocks :
  hexlify (map Sha256.byte_of_Z
               (Sha256.sha256 (repeat 97 70))) =
  "6bd5e5034855a11241f0dee8fc72850ffd9955b28347a86428b5fa19119f6ad0".
Proof. vm_compute. reflexivity. Qed.

Example hmac_sha256_fox :
  hexlify (Sha256.hmac_sha256
             (list_byte_of_string "key")
             (list_byte_of_string
                "The quick brown fox jumps over the lazy dog")) =
  "f7bc83f430538424b13298e6aa6fb143ef4d59a14946175997479dbc2d1a3cd8".
Proof. vm_compute. reflexivity. Qed.

Example json_loads_issue_list :
  Json.loads "[ {}, [1, -20, 3.5e-2], null, true ]" =
  Some (PyList [PyDict []; PyList [PyInt 1; PyInt (-20); PyFloat "3.5e-2"];
                PyNone; PyBool true]).
Proof. reflexivity. Qed.

Example json_loads_trailing_comma : Json.loads "[1,]" = None.
Proof. reflexivity. Qed.

Example splitlines_diff :
  splitlines ("a.py" ++ nl ++ "docs/b.txt" ++ nl ++ "c.py" ++ nl) =
  ["a.py"; "docs/b.txt"; "c.py"].
Proof. reflexivity. Qed.

Example split_two_separators :
  str_split "sha256=00=ff" eq_char = ["sha256"; "00"; "ff"].
Proof. reflexivity. Qed.

(* ------------------------------------------------------------------ *)
(** ** Strings *)

Lemma app_assoc_str (a b c : string) : (a ++ b) ++ c = a ++ (b ++ c).
Proof. induction a as [|x a IH]; simpl; [reflexivity | now rewrite IH]. Qed.

Lemma app_nil_str (a : string) : a ++ EmptyString = a.
Proof. induction a as [|x a IH]; simpl; [reflexivity | now rewrite IH]. Qed.

Lemma split_on_plain (sep : ascii) (s cur : string) :
  mem_char sep s = false -> split_on sep cur s = [cur ++ s].
Proof.
  revert cur. induction s as [|c s IH]; intros cur Hs; simpl in *.
  - now rewrite app_nil_str.
  - apply orb_false_iff in Hs. destruct Hs as [Hc Hs].
    rewrite Hc, (IH _ Hs), app_assoc_str. reflexivity.
Qed.

Lemma split_on_at_sep (sep : ascii) (a b cur : string) :
  mem_char sep a = false ->
  split_on sep cur (a ++ String sep b) = (cur ++ a) :: split_on sep EmptyString b.
Proof.
  revert cur. induction a as [|c a IH]; intros cur Ha; simpl in *.
  - now rewrite Ascii.eqb_refl, app_nil_str.
  - apply orb_false_iff in Ha. destruct Ha as [Hc Ha].
    rewrite Hc, (IH _ Ha), app_assoc_str. reflexivity.
Qed.

Lemma split_on_cons (sep : ascii) (s cur : string) :
  exists x l, split_on sep cur s = x :: l.
Proof.
  revert cur. induction s as [|c s IH]; intros cur; simpl.
  - now exists cur, [].
  - destruct (Ascii.eqb c sep); [now eexists _, _ | apply IH].
Qed.

Lemma split_on_two (sep : ascii) (s cur : string) :
  mem_char sep s = true ->
  exists x y l, split_on sep cur s = x :: y :: l.
Proof.
  revert cur. induction s as [|c s IH]; intros cur Hs; simpl in *.
  - discriminate.
  - destruct (Ascii.eqb c sep) eqn:Hc.
    + destruct (split_on_cons sep s EmptyString) as (y & l & E).
      rewrite E. now exists cur, y, l.
    + simpl in Hs. now apply IH.
Qed.

Lemma hex_digit_is_hex (n : N) : is_hex_char (hex_digit n) = true.
Proof.
  destruct n as [|p]; [reflexivity|].
  do 4 (try reflexivity; destruct p as [p|p|]); reflexivity.
Qed.

Lemma hex_char_plain (c : ascii) :
  is_hex_char c = true ->
  Ascii.eqb c eq_char = false /\ (N_of_ascii c <? 128)%N = true.
Proof.
  destruct c as [[] [] [] [] [] [] [] []]; vm_compute;
    intuition discriminate.
Qed.

Lemma hex_str_plain (s : string) :
  is_hex_str s = true ->
  mem_char eq_char s = false /\ is_ascii_str s = true.
Proof.
  induction s as [|c s IH]; simpl; intros Hs; [now split|].
  apply andb_true_iff in Hs. destruct Hs as [Hc Hs].
  destruct (hex_char_plain c Hc) as [E A], (IH Hs) as [M I].
  now rewrite E, A, M, I.
Qed.

Lemma is_hex_str_app (a b : string) :
  is_hex_str (a ++ b) = is_hex_str a && is_hex_str b.
Proof.
  induction a as [|c a IH]; simpl; [reflexivity|].
  now rewrite IH, andb_assoc.
Qed.

Lemma hexlify_is_hex (bs : list byte) : is_hex_str (hexlify bs) = true.
Proof.
  induction bs as [|b bs IH]; simpl; [reflexivity|].
  now rewrite !hex_digit_is_hex, IH.
Qed.

Lemma nonempty_true (s : string) : s <> EmptyString -> nonempty s = true.
Proof. destruct s; [congruence | reflexivity]. Qed.

(* ------------------------------------------------------------------ *)
(** ** Signature verification *)

Section VerifyProperties.
Context `{PythonLib}.

Lemma expected_digest_plain (secret : string) (payload : list byte) :
  mem_char eq_char (expected_digest secret payload) = false /\
  is_ascii_str (expected_digest secret payload) = true.
Proof. apply hex_str_plain, hexlify_is_hex. Qed.

(** What the verifier does with a header [label=sig], for a label
    without the separator, under a configured secret. *)
Lemma verify_labelled (secret : string) (payload : list byte)
      (label sig : string) :
  secret <> EmptyString ->
  mem_char eq_char label = false ->
  verify_signature secret payload (label ++ String eq_char sig) =
  match str_split sig eq_char with
  | [github_sig] =>
      compare_digest (expected_digest secret payload) github_sig
  | _ => Raise ValueError
  end.
Proof.
  intros Hs Hl. unfold verify_signature.
  rewrite (nonempty_true _ Hs). simpl.
  replace (nonempty (label ++ String eq_char sig)) with true
    by (destruct label; reflexivity).
  simpl. unfold str_split at 1. rewrite (split_on_at_sep _ _ _ _ Hl).
  simpl. fold (str_split sig eq_char).
  destruct (str_split sig eq_char) as [|x [|y l]]; reflexivity.
Qed.

(** C2. For every payload and secret the header sha256=<hex HMAC of the
    payload> verifies true; under a configured (non-empty) secret a
    header whose digest is a string of hex characters other than the
    right one verifies false; and without a secret every payload and
    every header verify true. *)
Theorem verify_signature_sound (secret : string) (payload : list byte) :
  verify_signature secret payload
                   ("sha256=" ++ expected_digest secret payload) = Ok true
  /\ (forall digest : string,
         secret <> EmptyString ->
         is_hex_str digest = true ->
         digest <> expected_digest secret payload ->
         verify_signature secret payload ("sha256=" ++ digest) = Ok false)
  /\ (forall header : string, verify_signature EmptyString payload header = Ok true).
Proof.
  destruct (expected_digest_plain secret payload) as [Hm Ha].
  split; [|split].
  - destruct secret as [|c secret]; [reflexivity|].
    change ("sha256=" ++ ?d) with ("sha256" ++ String eq_char d).
    rewrite verify_labelled by (reflexivity || discriminate).
    unfold str_split. rewrite (split_on_plain _ _ _ Hm). simpl.
    unfold compare_digest. now rewrite Ha, String.eqb_refl.
  - intros digest Hs Hd Hne.
    destruct (hex_str_plain _ Hd) as [Dm Da].
    change ("sha256=" ++ digest) with ("sha256" ++ String eq_char digest).
    rewrite verify_labelled by (reflexivity || assumption).
    unfold str_split. rewrite (split_on_plain _ _ _ Dm). simpl.
    unfold compare_digest. rewrite Ha, Da. simpl.
    f_equal. apply String.eqb_neq. congruence.
  - reflexivity.
Qed.

(** C10, as the code has it. Under a configured secret and for every
    label without an = sign, the header label=<digest> verifies true
    exactly when <digest> is the hex HMAC-SHA256 of the payload: the
    label is never looked at. *)
Theorem verify_signature_ignores_label
        (secret : string) (payload : list byte) (label digest : string) :
  secret <> EmptyString ->
  mem_char eq_char label = false ->
  (verify_signature secret payload (label ++ "=" ++ digest) = Ok true
   <-> digest = expected_digest secret payload).
Proof.
  intros Hs Hl.
  destruct (expected_digest_plain secret payload) as [Hm Ha].
  change ("=" ++ digest) with (String eq_char digest).
  rewrite verify_labelled by assumption.
  destruct (mem_char eq_char digest) eqn:Dm.
  - destruct (split_on_two eq_char digest EmptyString Dm) as (x & y & l & E).
    unfold str_split. rewrite E. split; [discriminate|].
    intros ->. congruence.
  - unfold str_split. rewrite (split_on_plain _ _ _ Dm). simpl.
    unfold compare_digest. rewrite Ha. simpl.
    destruct (is_ascii_str digest) eqn:Da.
    + split.
      * intros E. injection E as E. symmetry. now apply String.eqb_eq.
      * intros ->. now rewrite String.eqb_refl.
    + split; [discriminate|]. intros ->. congruence.
Qed.
End VerifyProperties.

(* ------------------------------------------------------------------ *)
(** ** Reasoning in the monad *)

Lemma bind_ok {A B} (m : M A) (k : A -> M B) (w w1 : World) (a : A) :
  m w = (Ok a, w1) -> bind m k w = k a w1.
Proof. unfold bind. now intros ->. Qed.

Lemma bind_raise {A B} (m : M A) (k : A -> M B) (w w1 : World) (e : exn) :
  m w = (Raise e, w1) -> bind m k w = (Raise e, w1).
Proof. unfold bind. now intros ->. Qed.

Lemma bind_inv {A B} (m : M A) (k : A -> M B) (w w' : World)
      (r : result B) :
  bind m k w = (r, w') ->
  (exists a w1, m w = (Ok a, w1) /\ k a w1 = (r, w')) \/
  (exists e, m w = (Raise e, w') /\ r = Raise e).
Proof.
  unfold bind. destruct (m w) as [[a|e] w1]; intros E.
  - left. now exists a, w1.
  - right. exists e. now inversion E.
Qed.

Lemma bind_inv_ok {A B} (m : M A) (k : A -> M B) (w w' : World) (b : B) :
  bind m k w = (Ok b, w') ->
  exists a w1, m w = (Ok a, w1) /\ k a w1 = (Ok b, w').
Proof.
  intros E. destruct (bind_inv _ _ _ _ _ E) as [?|(e & _ & ?)];
    [assumption | discriminate].
Qed.

Section Preserves.
Variable R : World -> World -> Prop.
Hypothesis R_refl : forall w, R w w.
Hypothesis R_trans : forall w1 w2 w3, R w1 w2 -> R w2 w3 -> R w1 w3.

Lemma preserves_ret {A} (a : A) : preserves R (ret a).
Proof. intros w r w' E. inversion E. apply R_refl. Qed.

Lemma preserves_raise {A} (e : exn) : preserves R (@raise A e).
Proof. intros w r w' E. inversion E. apply R_refl. Qed.

Lemma preserves_lift {A} (x : result A) : preserves R (lift x).
Proof. intros w r w' E. inversion E. apply R_refl. Qed.

Lemma preserves_get {A} (f : World -> A) : preserves R (get f).
Proof. intros w r w' E. inversion E. apply R_refl. Qed.

Lemma preserves_modify (f : World -> World) :
  (forall w, R w (f w)) -> preserves R (modify f).
Proof. intros Hf w r w' E. inversion E. apply Hf. Qed.

Lemma preserves_bind {A B} (m : M A) (k : A -> M B) :
  preserves R m -> (forall a, preserves R (k a)) -> preserves R (bind m k).
Proof.
  intros Hm Hk w r w' E.
  destruct (bind_inv _ _ _ _ _ E) as [(a & w1 & E1 & E2)|(e & E1 & _)].
  - eapply R_trans; [eapply Hm, E1 | eapply Hk, E2].
  - eapply Hm, E1.
Qed.

Lemma preserves_for_each {A} (l : list A) (body : A -> M unit) :
  (forall x, preserves R (body x)) -> preserves R (for_each l body).
Proof.
  intros Hb. induction l as [|x l IH]; simpl.
  - apply preserves_ret.
  - apply preserves_bind; [apply Hb | intros _; apply IH].
Qed.

Lemma preserves_try_except {A} (body : M A) (handler : exn -> M A) :
  preserves R body -> (forall e, preserves R (handler e)) ->
  preserves R (try_except body handler).
Proof.
  intros Hb Hh w r w' E. unfold try_except in E.
  destruct (body w) as [[a|e] w1] eqn:Eb.
  - inversion E; subst. eapply Hb, Eb.
  - eapply R_trans; [eapply Hb, Eb | eapply Hh, E].
Qed.

Lemma preserves_try_finally {A} (body : M A) (final : M unit) :
  preserves R body -> preserves R final ->
  preserves R (try_finally body final).
Proof.
  intros Hb Hf w r w' E. unfold try_finally in E.
  destruct (body w) as [rb w1] eqn:Eb.
  destruct (final w1) as [[u|e] w2] eqn:Ef; inversion E; subst;
    (eapply R_trans; [eapply Hb, Eb | eapply Hf, Ef]).
Qed.
End Preserves.

(* ------------------------------------------------------------------ *)
(** ** Dispatch *)

Section HandlerProperties.
Context `{PythonLib}.
Variable WEBHOOK_SECRET : string.

Lemma webhook_accepted (request : Request) (payload : pyobj) (w : World) :
  accepted WEBHOOK_SECRET request payload ->
  webhook WEBHOOK_SECRET request w = review payload w.
Proof.
  intros (Hv & Hj & He & action & Ha & Hact).
  unfold webhook, bind, lift. rewrite Hv, Hj, He, Ha. simpl.
  now rewrite Hact.
Qed.

End HandlerProperties.

(* ------------------------------------------------------------------ *)
(** ** The review of an accepted delivery *)

Section ReviewProperties.
Context `{PythonLib}.
Variable WEBHOOK_SECRET : string.

Lemma begin_review_eq (f : PullRequestRef) (w : World) :
  begin_review f w =
  (Ok ({| repo := pr_repo f |},
       {| repo_url := pr_clone_url f; base_ref := pr_base_ref f;
          head_sha := pr_head_sha f; workdir := tmp_next w |}),
   {| exec := exec w; rmtree_ok := rmtree_ok w;
      tmp_next := S (tmp_next w); tmp_live := tmp_next w :: tmp_live w;
      gh_comments := gh_comments w; gh_next_id := gh_next_id w;
      gh_statuses :=
        gh_statuses w ++
          [(pr_head_sha f, "pending", "Running code quality checks")];
      errors := [];
      trace :=
        (trace w ++
           [SetStatus (pr_repo f) (pr_head_sha f) "pending"
                      "Running code quality checks"]) ++
          [Mkdtemp (tmp_next w)] |}).
Proof. reflexivity. Qed.

Lemma review_started (payload : pyobj) (w w0 : World) (f : PullRequestRef)
      (gh : GitHubClient) (reviewer : CodeReviewer) :
  pr_fields payload = Ok f ->
  begin_review f w = (Ok (gh, reviewer), w0) ->
  review payload w =
  bind (guarded_review gh reviewer) (report gh reviewer (pr_number f)) w0.
Proof.
  intros Hf Hb. unfold review.
  rewrite (bind_ok _ _ w w f) by (unfold lift; now rewrite Hf).
  now rewrite (bind_ok _ _ _ _ _ Hb).
Qed.

Lemma set_status_eq (gh : GitHubClient) (sha : pyobj)
      (state description : string) (w : World) :
  set_status gh sha state description w =
  (Ok tt,
   set_statuses (gh_statuses w ++ [(sha, state, description)])
     (set_trace (trace w ++ [SetStatus (repo gh) sha state description]) w)).
Proof. reflexivity. Qed.

Lemma cleanup_eq (reviewer : CodeReviewer) (w : World) :
  cleanup reviewer w =
  (Ok tt,
   if rmtree_ok w
   then set_tmp (tmp_next w)
          (filter (fun d => negb (Nat.eqb d (workdir reviewer))) (tmp_live w))
          (set_trace (trace w ++ [Rmtree (workdir reviewer)]) w)
   else set_trace (trace w ++ [Rmtree (workdir reviewer)]) w).
Proof. unfold cleanup, bind, emit, modify. simpl. reflexivity. Qed.

Lemma not_in_filtered (d : nat) (l : list nat) :
  ~ In d (filter (fun x => negb (Nat.eqb x d)) l).
Proof.
  intros Hin. apply filter_In in Hin. destruct Hin as [_ Hd].
  now rewrite Nat.eqb_refl in Hd.
Qed.

(** C3. When clone, fetch, checkout or the analysis raises in the
    handler of an accepted delivery, the handler sets the status of the
    head commit to error with the description CI execution failed, then
    removes the workspace, and the same exception leaves the handler;
    [rmtree] raises nothing, whether or not it could remove the tree. *)
Theorem analysis_failure_is_reported
        (request : Request) (payload : pyobj) (w w0 w1 : World)
        (f : PullRequestRef)
        (gh : GitHubClient) (reviewer : CodeReviewer) (e : exn) :
  accepted WEBHOOK_SECRET request payload ->
  pr_fields payload = Ok f ->
  begin_review f w = (Ok (gh, reviewer), w0) ->
  (clone_repo reviewer ;; run_all reviewer) w0 = (Raise e, w1) ->
  exists w',
    webhook WEBHOOK_SECRET request w = (Raise e, w') /\
    trace w' =
      (trace w1 ++ [SetStatus (pr_repo f) (pr_head_sha f) "error"
                              "CI execution failed";
                    Rmtree (workdir reviewer)])%list /\
    gh_statuses w' =
      (gh_statuses w1 ++
         [(pr_head_sha f, "error", "CI execution failed")])%list /\
    gh_comments w' = gh_comments w1 /\
    (rmtree_ok w1 = true -> ~ In (workdir reviewer) (tmp_live w')) /\
    (rmtree_ok w1 = false -> tmp_live w' = tmp_live w1).
Proof.
  intros Hacc Hf Hb Hbody.
  rewrite (webhook_accepted _ _ _ _ Hacc), (review_started _ _ _ _ _ _ Hf Hb).
  rewrite begin_review_eq in Hb. injection Hb as Hgh Hrv Hw0.
  assert (Hsha : head_sha reviewer = pr_head_sha f) by now subst reviewer.
  assert (Hrepo : repo gh = pr_repo f) by now subst gh.
  unfold guarded_review, try_finally, try_except, bind at 1.
  rewrite Hbody.
  rewrite (bind_ok _ _ _ _ _ (set_status_eq _ _ _ _ _)).
  unfold raise. rewrite cleanup_eq, Hsha, Hrepo.
  eexists. split; [reflexivity|]. simpl.
  destruct (rmtree_ok w1) eqn:Hrm; simpl; rewrite <- ?app_assoc; simpl;
    repeat split; try reflexivity; try discriminate.
  intros _. apply not_in_filtered.
Qed.
End ReviewProperties.

(* ------------------------------------------------------------------ *)
(** ** The analysis runner *)

Lemma analysis_step_refl (w : World) : analysis_step w w.
Proof.
  repeat split. exists []. split; [now rewrite app_nil_r | constructor].
Qed.

Lemma analysis_step_trans (w1 w2 w3 : World) :
  analysis_step w1 w2 -> analysis_step w2 w3 -> analysis_step w1 w3.
Proof.
  intros (E1 & O1 & C1 & N1 & f1 & F1 & K1) (E2 & O2 & C2 & N2 & f2 & F2 & K2).
  repeat split; try congruence.
  exists (f1 ++ f2)%list. split.
  - now rewrite F2, F1, app_assoc.
  - now apply Forall_app.
Qed.

Lemma analysis_step_field (f : World -> World) :
  (forall w, exec (f w) = exec w) ->
  (forall w, rmtree_ok (f w) = rmtree_ok w) ->
  (forall w, gh_comments (f w) = gh_comments w) ->
  (forall w, gh_next_id (f w) = gh_next_id w) ->
  (forall w, errors (f w) = errors w) ->
  preserves analysis_step (modify f).
Proof.
  intros He Ho Hc Hn Hf. apply preserves_modify. intros w.
  repeat split; auto. exists []. split; [now rewrite app_nil_r, Hf|constructor].
Qed.

Ltac analysis_bind :=
  apply (preserves_bind _ analysis_step_trans); [|intro].

Lemma emit_step (c : call) : preserves analysis_step (emit c).
Proof. apply analysis_step_field; reflexivity. Qed.

Lemma subprocess_run_step (cmd : list pyobj) (cwd : nat) (check : bool) :
  preserves analysis_step (subprocess_run cmd cwd check).
Proof.
  unfold subprocess_run.
  analysis_bind; [apply (preserves_lift _ analysis_step_refl)|].
  analysis_bind; [apply emit_step|].
  analysis_bind; [apply (preserves_get _ analysis_step_refl)|].
  destruct a1 as [proc|]; [|apply (preserves_raise _ analysis_step_refl)].
  destruct (check && negb (returncode proc =? 0)).
  - apply (preserves_raise _ analysis_step_refl).
  - apply (preserves_ret _ analysis_step_refl).
Qed.

Lemma append_error_step (e : Finding) :
  has_keys e = true -> preserves analysis_step (append_error e).
Proof.
  intros He. apply preserves_modify. intros w.
  repeat split. exists [e]. split; [reflexivity | now constructor].
Qed.

Lemma ruff_finding_keys (i : pyobj) (e : Finding) :
  ruff_finding i = Ok e -> has_keys e = true.
Proof.
  unfold ruff_finding, and_then. intros E.
  repeat match type of E with
         | match ?x with _ => _ end = _ => destruct x; try discriminate
         end.
  injection E as <-. reflexivity.
Qed.

Section RunnerProperties.
Context `{PythonLib}.

Lemma clone_repo_step (self : CodeReviewer) :
  preserves analysis_step (clone_repo self).
Proof.
  unfold clone_repo, run.
  repeat (analysis_bind; [apply subprocess_run_step|]).
  apply (preserves_ret _ analysis_step_refl).
Qed.

Lemma changed_python_files_step (self : CodeReviewer) :
  preserves analysis_step (changed_python_files self).
Proof.
  unfold changed_python_files, run.
  analysis_bind; [apply subprocess_run_step|].
  apply (preserves_ret _ analysis_step_refl).
Qed.

Lemma run_ruff_step (self : CodeReviewer) (files : list string) :
  preserves analysis_step (run_ruff self files).
Proof.
  unfold run_ruff. destruct files as [|f files].
  - apply (preserves_ret _ analysis_step_refl).
  - analysis_bind; [apply subprocess_run_step|].
    destruct (nonempty (stdout a)).
    + analysis_bind; [apply (preserves_lift _ analysis_step_refl)|].
      analysis_bind; [apply (preserves_lift _ analysis_step_refl)|].
      apply (preserves_for_each _ analysis_step_refl analysis_step_trans).
      intros i. destruct (ruff_finding i) as [e|x] eqn:Ei.
      * intros w r w' E. unfold bind, lift in E.
        eapply append_error_step; [eapply ruff_finding_keys, Ei | exact E].
      * intros w r w' E. unfold bind, lift in E. inversion E.
        apply analysis_step_refl.
    + apply (preserves_ret _ analysis_step_refl).
Qed.

Lemma run_format_check_step (self : CodeReviewer) (files : list string) :
  preserves analysis_step (run_format_check self files).
Proof.
  unfold run_format_check. destruct files as [|f files].
  - apply (preserves_ret _ analysis_step_refl).
  - analysis_bind; [apply subprocess_run_step|].
    destruct (negb (returncode a =? 0)).
    + apply (preserves_for_each _ analysis_step_refl analysis_step_trans).
      intros x. now apply append_error_step.
    + apply (preserves_ret _ analysis_step_refl).
Qed.

Lemma run_pytest_step (self : CodeReviewer) :
  preserves analysis_step (run_pytest self).
Proof.
  unfold run_pytest.
  analysis_bind; [apply subprocess_run_step|].
  destruct (negb (returncode a =? 0)).
  - now apply append_error_step.
  - apply (preserves_ret _ analysis_step_refl).
Qed.

Lemma run_all_step (self : CodeReviewer) :
  preserves analysis_step (run_all self).
Proof.
  unfold run_all.
  analysis_bind; [apply changed_python_files_step|].
  analysis_bind; [apply run_ruff_step|].
  analysis_bind; [apply run_format_check_step|].
  analysis_bind; [apply run_pytest_step|].
  analysis_bind; [apply (preserves_get _ analysis_step_refl)|].
  apply (preserves_ret _ analysis_step_refl).
Qed.

Lemma run_all_flag (self : CodeReviewer) (w w' : World) (b : bool) :
  run_all self w = (Ok b, w') -> b = no_errors (errors w').
Proof.
  unfold run_all. intros E.
  do 4 (apply bind_inv_ok in E; destruct E as (? & ? & _ & E)).
  unfold bind, get, ret in E. now inversion E.
Qed.
End RunnerProperties.

(* ------------------------------------------------------------------ *)
(** ** The reporter *)

Lemma prefix_app (m t : string) : String.prefix m (m ++ t) = true.
Proof.
  induction m as [|c m IH]; simpl.
  - destruct t; reflexivity.
  - destruct (ascii_dec c c); [exact IH | contradiction].
Qed.

Lemma contains_prefix (m s : string) :
  String.prefix m s = true -> contains m s = true.
Proof. intros P. destruct s; cbn [contains]; now rewrite P. Qed.

Lemma filter_all {A} (f : A -> bool) (l : list A) :
  (forall x, f x = true) -> filter f l = l.
Proof.
  intros Hf. induction l as [|x l IH]; simpl; [reflexivity|].
  now rewrite Hf, IH.
Qed.

Lemma filter_twice {A} (f g : A -> bool) (l : list A) :
  filter f (filter g l) = filter (fun x => g x && f x) l.
Proof.
  induction l as [|x l IH]; simpl; [reflexivity|].
  destruct (g x); simpl; [destruct (f x)|]; now rewrite IH.
Qed.

Lemma survivors_not_bot (listed : list Comment) :
  filter is_bot_comment (filter (survives listed) listed) = [].
Proof.
  rewrite filter_twice.
  assert (G : forall l x, In x l ->
                          survives l x && is_bot_comment x = false).
  { intros l x Hin. destruct (is_bot_comment x) eqn:Hb;
      [|apply andb_false_r].
    rewrite andb_true_r. unfold survives. apply negb_false_iff.
    apply existsb_exists. exists x. split; [assumption|].
    now rewrite Hb, Z.eqb_refl. }
  generalize (G listed). generalize (survives listed). intros keep Hk.
  induction listed as [|c l IH]; simpl; [reflexivity|].
  rewrite (Hk c) by now left. apply IH. intros x Hx. apply Hk. now right.
Qed.

Lemma finding_line_ok `{PythonLib} (e : Finding) :
  has_keys e = true -> exists s, finding_line e = Ok s.
Proof.
  unfold has_keys, finding_keys, finding_line, and_then, py_getitem. simpl.
  intros Hk.
  repeat match goal with
         | |- context [assoc ?k e] =>
             destruct (assoc k e); [|simpl in Hk; discriminate]
         end.
  now eexists.
Qed.

Lemma add_lines_ok `{PythonLib} (es : list Finding) (start : string) :
  Forall (fun e => has_keys e = true) es ->
  exists t, add_lines start es = Ok (start ++ t).
Proof.
  intros Hes. revert start.
  induction Hes as [|e es He _ IH]; intros start; simpl.
  - exists EmptyString. now rewrite app_nil_str.
  - destruct (finding_line_ok e He) as [line ->]. unfold and_then.
    destruct (IH (start ++ line)) as [t ->].
    exists (line ++ t). now rewrite app_assoc_str.
Qed.

Section ReporterProperties.
Context `{PythonLib}.

Lemma build_comment_ok (reviewer : CodeReviewer) (w : World) :
  Forall (fun e => has_keys e = true) (errors w) ->
  exists comment,
    build_comment reviewer w = (Ok comment, w) /\
    contains BOT_MARKER comment = true.
Proof.
  intros Hes. unfold build_comment, bind, get.
  destruct (no_errors (errors w)).
  - eexists. split; [reflexivity|].
    apply contains_prefix. rewrite !app_assoc_str. apply prefix_app.
  - match goal with
    | |- context [add_lines ?s _] =>
        destruct (add_lines_ok (errors w) s Hes) as [t Ht]
    end.
    unfold lift. rewrite Ht. eexists. split; [reflexivity|].
    apply contains_prefix. rewrite !app_assoc_str. apply prefix_app.
Qed.

(** The loop that cleans old bot comments. *)
Lemma sweep_spec (gh : GitHubClient) (listed : list Comment) (w : World) :
  exists w',
    for_each listed
             (fun c =>
                if contains BOT_MARKER (comment_body c)
                then delete_comment gh (comment_id c)
                else ret tt) w = (Ok tt, w') /\
    gh_comments w' = filter (survives listed) (gh_comments w) /\
    trace w' =
      (trace w ++ map (DeleteComment (repo gh))
                      (map comment_id (filter is_bot_comment listed)))%list /\
    gh_next_id w' = gh_next_id w /\
    gh_statuses w' = gh_statuses w /\
    errors w' = errors w /\
    tmp_live w' = tmp_live w.
Proof.
  revert w. induction listed as [|c l IH]; intros w; simpl.
  - exists w. unfold ret. repeat split.
    + symmetry. now apply filter_all.
    + now rewrite app_nil_r.
  - fold (is_bot_comment c). unfold survives. simpl.
    destruct (is_bot_comment c) eqn:Hb; simpl.
    + destruct (IH (set_comments
                      (filter (fun x => negb (comment_id x =? comment_id c))
                              (gh_comments w))
                      (gh_next_id w)
                      (set_trace (trace w ++ [DeleteComment (repo gh)
                                                           (comment_id c)])
                                 w)))
        as (w' & E & Hc & Ht & Hn & Hs & He & Hl).
      exists w'. split; [exact E|]. simpl in *.
      repeat split; try assumption.
      * rewrite Hc, filter_twice. apply filter_ext. intros x.
        unfold survives. now rewrite negb_orb.
      * now rewrite Ht, <- app_assoc.
    + destruct (IH w) as (w' & E & Hc & Ht & Hn & Hs & He & Hl).
      exists w'. split; [exact E|]. repeat split; assumption.
Qed.
Lemma list_pr_comments_eq (gh : GitHubClient) (pr : pyobj) (w : World) :
  list_pr_comments gh pr w =
  (Ok (gh_comments w), set_trace (trace w ++ [ListComments (repo gh) pr]) w).
Proof. reflexivity. Qed.

Lemma post_pr_comment_eq (gh : GitHubClient) (pr : pyobj) (comment : string)
      (w : World) :
  post_pr_comment gh pr comment w =
  (Ok tt,
   set_comments
     (gh_comments w ++
        [{| comment_id := gh_next_id w; comment_body := comment |}])
     (gh_next_id w + 1)
     (set_trace (trace w ++ [PostComment (repo gh) pr comment]) w)).
Proof. reflexivity. Qed.

(** The reporting phase, for the flag and the findings the analysis
    left behind. *)
Lemma report_spec (gh : GitHubClient) (reviewer : CodeReviewer) (pr : pyobj)
      (b : bool) (w1 : World) :
  b = no_errors (errors w1) ->
  Forall (fun e => has_keys e = true) (errors w1) ->
  exists w' posted,
    report gh reviewer pr b w1 = (Ok (summary b), w') /\
    trace w' =
      (trace w1 ++
         ListComments (repo gh) pr ::
         map (DeleteComment (repo gh))
             (map comment_id (filter is_bot_comment (gh_comments w1))) ++
         SetStatus (repo gh) (head_sha reviewer)
                   (fst (final_status b (List.length (errors w1))))
                   (snd (final_status b (List.length (errors w1)))) ::
         posted)%list /\
    (b = true /\ posted = [] \/
     b = false /\
     exists comment,
       posted = [PostComment (repo gh) pr comment] /\
       contains BOT_MARKER comment = true) /\
    count_bot (gh_comments w') = (if b then 0 else 1)%nat /\
    errors w' = errors w1 /\
    tmp_live w' = tmp_live w1.
Proof.
  intros Hb Hk. unfold report.
  rewrite (bind_ok _ _ _ _ _ (list_pr_comments_eq _ _ _)).
  destruct (sweep_spec gh (gh_comments w1)
              (set_trace (trace w1 ++ [ListComments (repo gh) pr]) w1))
    as (w2 & E & Hc & Ht & Hn & Hs & He & Hl).
  simpl in Hc, Ht, Hn, Hs, He, Hl.
  rewrite (bind_ok _ _ _ _ _ E).
  destruct b.
  - rewrite (bind_ok _ _ _ _ _ (set_status_eq _ _ _ _ _)).
    eexists. exists []. split; [reflexivity|]. simpl.
    split; [rewrite Ht, <- !app_assoc; reflexivity|].
    split; [now left|].
    split; [|now split].
    unfold count_bot. now rewrite Hc, survivors_not_bot.
  - assert (Hk2 : Forall (fun e => has_keys e = true) (errors w2))
      by now rewrite He.
    set (w3 := set_statuses
                 (gh_statuses w2 ++
                    [(head_sha reviewer, "failure",
                      "Found " ++ str_of_nat (List.length (errors w2)) ++
                      " issue(s)")])
                 (set_trace
                    (trace w2 ++
                       [SetStatus (repo gh) (head_sha reviewer) "failure"
                          ("Found " ++ str_of_nat (List.length (errors w2))
                                    ++ " issue(s)")]) w2)).
    destruct (build_comment_ok reviewer w3 Hk2) as (comment & Eb & Hm).
    assert (Ebranch :
              bind (get errors)
                (fun es =>
                   bind (set_status gh (head_sha reviewer) "failure"
                           ("Found " ++ str_of_nat (List.length es)
                                     ++ " issue(s)"))
                     (fun _ =>
                        bind (build_comment reviewer)
                             (fun c => post_pr_comment gh pr c))) w2
              = post_pr_comment gh pr comment w3).
    { unfold bind at 1. unfold get at 1.
      rewrite (bind_ok _ _ _ _ _ (set_status_eq _ _ _ _ _)).
      fold w3. now rewrite (bind_ok _ _ _ _ _ Eb). }
    rewrite post_pr_comment_eq in Ebranch.
    rewrite (bind_ok _ _ _ _ _ Ebranch).
    eexists. exists [PostComment (repo gh) pr comment].
    split; [reflexivity|]. simpl.
    split; [rewrite Ht, He, <- !app_assoc; reflexivity|].
    split; [right; split; [reflexivity|now exists comment]|].
    split; [|now split].
    unfold count_bot. rewrite Hc, filter_app, survivors_not_bot. simpl.
    unfold is_bot_comment at 1. simpl. now rewrite Hm.
Qed.

Lemma guarded_review_ok (gh : GitHubClient) (reviewer : CodeReviewer)
      (w0 w1 : World) (b : bool) :
  guarded_review gh reviewer w0 = (Ok b, w1) ->
  exists w2,
    (clone_repo reviewer ;; run_all reviewer) w0 = (Ok b, w2) /\
    cleanup reviewer w2 = (Ok tt, w1).
Proof.
  unfold guarded_review, try_finally, try_except.
  destruct ((clone_repo reviewer ;; run_all reviewer) w0) as [[b'|e] w2].
  - rewrite cleanup_eq. intros E. inversion E. subst. now exists w2.
  - rewrite (bind_ok _ _ _ _ _ (set_status_eq _ _ _ _ _)).
    unfold raise. rewrite cleanup_eq. discriminate.
Qed.

Lemma guarded_review_step (gh : GitHubClient) (reviewer : CodeReviewer) :
  preserves analysis_step (guarded_review gh reviewer).
Proof.
  unfold guarded_review.
  apply (preserves_try_finally _ analysis_step_trans).
  - apply (preserves_try_except _ analysis_step_trans).
    + analysis_bind; [apply clone_repo_step | apply run_all_step].
    + intros e. analysis_bind.
      * unfold set_status. analysis_bind; [apply emit_step|].
        apply analysis_step_field; reflexivity.
      * apply (preserves_raise _ analysis_step_refl).
  - unfold cleanup. analysis_bind; [apply emit_step|].
    apply analysis_step_field; intros w;
      destruct (rmtree_ok w) eqn:E; simpl; rewrite ?E; reflexivity.
Qed.
End ReporterProperties.

(* ------------------------------------------------------------------ *)
(** ** The pipeline *)

Lemma no_errors_iff (es : list Finding) (b : bool) :
  b = no_errors es -> (b = true <-> es = []).
Proof. intros ->. destruct es; simpl; split; congruence. Qed.

Section PipelineProperties.
Context `{PythonLib}.
Variable WEBHOOK_SECRET : string.

Lemma review_ok_inv (payload : pyobj) (w w' : World) (resp : Response) :
  review payload w = (Ok resp, w') ->
  exists f gh reviewer w0 b w1,
    pr_fields payload = Ok f /\
    begin_review f w = (Ok (gh, reviewer), w0) /\
    guarded_review gh reviewer w0 = (Ok b, w1) /\
    report gh reviewer (pr_number f) b w1 = (Ok resp, w').
Proof.
  unfold review. intros E.
  apply bind_inv_ok in E. destruct E as (f & wa & Ef & E).
  unfold lift in Ef. injection Ef as Ef <-.
  apply bind_inv_ok in E. destruct E as ([gh reviewer] & w0 & Eb & E).
  apply bind_inv_ok in E. destruct E as (b & w1 & Eg & E).
  now exists f, gh, reviewer, w0, b, w1.
Qed.

(** The world the reporting phase starts from. *)
Lemma reviewed_state (f : PullRequestRef) (gh : GitHubClient)
      (reviewer : CodeReviewer) (w w0 w1 : World) (b : bool) :
  begin_review f w = (Ok (gh, reviewer), w0) ->
  guarded_review gh reviewer w0 = (Ok b, w1) ->
  b = no_errors (errors w1) /\
  Forall (fun e => has_keys e = true) (errors w1) /\
  gh_comments w1 = gh_comments w /\
  repo gh = pr_repo f /\
  head_sha reviewer = pr_head_sha f /\
  exists wa wb,
    run_all reviewer wa = (Ok b, wb) /\ errors w1 = errors wb.
Proof.
  intros Hb Hg.
  destruct (guarded_review_step gh reviewer _ _ _ Hg)
    as (_ & _ & Hc & _ & found & Hf & Hk).
  destruct (guarded_review_ok _ _ _ _ _ Hg) as (w2 & Hbody & Hclean).
  apply bind_inv_ok in Hbody. destruct Hbody as (u & w3 & _ & Hrun).
  pose proof (run_all_flag _ _ _ _ Hrun) as Hflag.
  rewrite cleanup_eq in Hclean. injection Hclean as Hw1.
  assert (He : errors w1 = errors w2)
    by (subst w1; destruct (rmtree_ok w2); reflexivity).
  rewrite begin_review_eq in Hb. injection Hb as <- <- <-.
  simpl in *. repeat split; try congruence.
  now exists w3, w2.
Qed.


End PipelineProperties.

(* ------------------------------------------------------------------ *)
(** ** The checks of the runner *)

Section CheckProperties.
Context `{PythonLib}.

Lemma as_args_strs (args : list string) :
  Forall (fun s => has_nul s = false) args ->
  as_args (map PyStr args) = Ok args.
Proof.
  induction 1 as [|s args Hs _ IH]; simpl; [reflexivity|].
  now rewrite Hs, IH.
Qed.

Lemma subprocess_run_unchecked (args : list string) (cwd : nat) (w : World)
      (proc : CompletedProcess) :
  Forall (fun s => has_nul s = false) args ->
  exec w args = Some proc ->
  subprocess_run (map PyStr args) cwd false w =
  (Ok proc, set_trace (trace w ++ [Subprocess args cwd]) w).
Proof.
  intros Hargs Hexec. unfold subprocess_run.
  rewrite (bind_ok _ _ w w args) by (unfold lift; now rewrite as_args_strs).
  unfold bind, emit, modify, get. simpl. now rewrite Hexec.
Qed.

Lemma subprocess_run_not_started (args : list string) (cwd : nat) (w : World)
      (check : bool) :
  Forall (fun s => has_nul s = false) args ->
  exec w args = None ->
  subprocess_run (map PyStr args) cwd check w =
  (Raise OSError, set_trace (trace w ++ [Subprocess args cwd]) w).
Proof.
  intros Hargs Hexec. unfold subprocess_run.
  rewrite (bind_ok _ _ w w args) by (unfold lift; now rewrite as_args_strs).
  unfold bind, emit, modify, get. simpl. now rewrite Hexec.
Qed.

Lemma changed_python_files_errors (reviewer : CodeReviewer) (w w1 : World)
      (r : result (list string)) :
  changed_python_files reviewer w = (r, w1) -> errors w1 = errors w.
Proof.
  set (R := fun w w' : World => errors w' = errors w).
  assert (Rrefl : forall x, R x x) by reflexivity.
  assert (Rtrans : forall x y z, R x y -> R y z -> R x z)
    by (unfold R; congruence).
  intros E. change (R w w1). revert E. generalize w r w1.
  change (preserves R (changed_python_files reviewer)).
  unfold changed_python_files, run, subprocess_run.
  repeat first
    [ apply (preserves_bind _ Rtrans); [|intro]
    | apply (preserves_lift _ Rrefl)
    | apply (preserves_get _ Rrefl)
    | apply (preserves_ret _ Rrefl)
    | apply (preserves_raise _ Rrefl)
    | apply preserves_modify; intro; reflexivity
    | match goal with
      | |- preserves _ (match ?x with _ => _ end) => destruct x
      end ].
Qed.

Lemma append_all (fs : list Finding) (w : World) :
  exists w',
    for_each fs append_error w = (Ok tt, w') /\
    errors w' = (errors w ++ fs)%list /\
    trace w' = trace w.
Proof.
  revert w. induction fs as [|e fs IH]; intros w; simpl.
  - exists w. unfold ret. now rewrite app_nil_r.
  - destruct (IH (set_errors (errors w ++ [e]) w)) as (w' & E & He & Ht).
    exists w'. split; [exact E|]. simpl in *.
    now rewrite He, <- app_assoc.
Qed.

Lemma for_each_map {A B} (f : A -> B) (l : list A) (body : B -> M unit) :
  for_each l (fun x => body (f x)) = for_each (map f l) body.
Proof. induction l as [|x l IH]; simpl; [reflexivity | now rewrite IH]. Qed.

(** C6, as the code has it. For a non-empty list of scoped files (names
    a process can be given: none holds a NUL character) the formatter is
    run once in check mode; when it exits non-zero the check adds one
    finding for every scoped file, in order, each at line 1, column 1
    with the code FORMAT, and when it exits zero it adds none. *)
Theorem format_check_flags_scoped_files
        (reviewer : CodeReviewer) (files : list string) (w : World)
        (proc : CompletedProcess) :
  files <> [] ->
  Forall (fun f => has_nul f = false) files ->
  exec w (["ruff"; "format"; "--check"] ++ files)%list = Some proc ->
  exists w',
    run_format_check reviewer files w = (Ok tt, w') /\
    trace w' =
      (trace w ++ [Subprocess (["ruff"; "format"; "--check"] ++ files)
                              (workdir reviewer)])%list /\
    errors w' =
      (errors w ++
         if returncode proc =? 0 then [] else map format_finding files)%list /\
    (forall f,
        assoc "file" (format_finding f) = Some (PyStr f) /\
        assoc "line" (format_finding f) = Some (PyInt 1) /\
        assoc "column" (format_finding f) = Some (PyInt 1) /\
        assoc "code" (format_finding f) = Some (PyStr "FORMAT")).
Proof.
  intros Hne Hnul Hexec. unfold run_format_check.
  destruct files as [|f0 files']; [congruence|].
  set (files := f0 :: files') in *.
  assert (Hargs : Forall (fun s => has_nul s = false)
                         (["ruff"; "format"; "--check"] ++ files)%list)
    by (simpl; repeat (apply Forall_cons; [reflexivity|]); exact Hnul).
  rewrite (bind_ok _ _ _ _ _
             (subprocess_run_unchecked _ (workdir reviewer) _ _ Hargs Hexec)).
  destruct (returncode proc =? 0); cbn [negb].
  - eexists. split; [reflexivity|]. simpl.
    repeat split. now rewrite app_nil_r.
  - rewrite (for_each_map format_finding files append_error).
    match goal with
    | |- context [for_each ?l append_error ?w0] =>
        destruct (append_all l w0) as (w' & E & He & Ht)
    end.
    exists w'. split; [exact E|]. simpl in He, Ht.
    repeat split; assumption.
Qed.

End CheckProperties.

(* ------------------------------------------------------------------ *)
(** ** The pipeline on the sample deliveries *)

Lemma sample_accepted :
  accepted (H := reference_python) EmptyString (sample_request "opened")
           (sample_payload "opened").
Proof.
  split; [reflexivity|]. split; [reflexivity|]. split; [reflexivity|].
  exists (PyStr "opened"). split; reflexivity.
Defined.


(** C2 at work: the right digest is accepted, another hex digest is
    refused. *)
Lemma verify_signature_sound_witness :
  verify_signature (H := reference_python) "s3cret" sample_body
    ("sha256=" ++ expected_digest (H := reference_python) "s3cret"
                                  sample_body) = Ok true /\
  verify_signature (H := reference_python) "s3cret" sample_body
    "sha256=00ff" = Ok false.
Proof.
  destruct (verify_signature_sound (H := reference_python) "s3cret"
              sample_body)
    as (Hgood & Hbad & _).
  split; [exact Hgood|].
  apply (Hbad "00ff").
  - discriminate.
  - reflexivity.
  - vm_compute. discriminate.
Defined.

(** C3 at work: the clone fails with status 128. *)
Lemma analysis_failure_is_reported_witness :
  fst (webhook (H := reference_python) EmptyString (sample_request "opened")
               world_no_clone) =
  Raise (CalledProcessError
           ["git"; "clone"; "https://github.com/octo/demo.git"; "."] 128) /\
  ~ In 0%nat
       (tmp_live (snd (webhook (H := reference_python) EmptyString
                               (sample_request "opened") world_no_clone))).
Proof.
  destruct (analysis_failure_is_reported
              (H := reference_python) EmptyString
              (sample_request "opened") (sample_payload "opened")
              world_no_clone
              (snd (begin_review sample_fields world_no_clone))
              (snd (bind (clone_repo sample_reviewer)
                         (fun _ => run_all (H := reference_python)
                                           sample_reviewer)
                         (snd (begin_review sample_fields world_no_clone))))
              sample_fields sample_client sample_reviewer
              (CalledProcessError
                 ["git"; "clone"; "https://github.com/octo/demo.git"; "."]
                 128)
              sample_accepted eq_refl eq_refl)
    as (w' & E & _ & _ & _ & Hgone & _).
  - vm_compute. reflexivity.
  - rewrite E. split; [reflexivity|].
    apply Hgone. reflexivity.
Defined.


(** C6 at work: two scoped files, the formatter exits 1. *)
Lemma format_check_flags_scoped_files_witness :
  errors (snd (run_format_check sample_reviewer ["a.py"; "b.py"]
                                world_unformatted)) =
  [format_finding "a.py"; format_finding "b.py"].
Proof.
  destruct (format_check_flags_scoped_files
              sample_reviewer ["a.py"; "b.py"] world_unformatted
              (exited 1 format_report))
    as (w' & E & _ & He & _).
  - discriminate.
  - repeat constructor.
  - reflexivity.
  - rewrite E. exact He.
Defined.



(** C10 at work: a header that claims sha1 and carries the right
    SHA-256 digest is accepted. *)
Lemma verify_signature_ignores_label_witness :
  verify_signature (H := reference_python) "s3cret" sample_body
    ("sha1" ++ "=" ++ expected_digest (H := reference_python) "s3cret"
                                      sample_body) = Ok true.
Proof.
  apply (verify_signature_ignores_label (H := reference_python) "s3cret"
           sample_body "sha1").
  - discriminate.
  - reflexivity.
  - reflexivity.
Defined.

(** C10 as stated fails for a label that contains the separator: the
    digest is the right one, and the verifier raises. *)
Lemma label_with_separator_raises :
  verify_signature (H := reference_python) "s3cret" sample_body
    ("a=b" ++ "=" ++ expected_digest (H := reference_python) "s3cret"
                                     sample_body) = Raise ValueError /\
  ~ (verify_signature (H := reference_python) "s3cret" sample_body
       ("a=b" ++ "=" ++ expected_digest (H := reference_python) "s3cret"
                                        sample_body) = Ok true
     <-> expected_digest (H := reference_python) "s3cret" sample_body =
         expected_digest (H := reference_python) "s3cret" sample_body).
Proof.
  assert (E : verify_signature (H := reference_python) "s3cret" sample_body
                ("a=b" ++ "=" ++ expected_digest (H := reference_python)
                                                 "s3cret" sample_body)
              = Raise ValueError) by (vm_compute; reflexivity).
  split; [exact E|].
  intros [_ Hback]. rewrite E in Hback. specialize (Hback eq_refl).
  discriminate.
Qed.


(** C6 as stated fails: the formatter objects to a.py alone, and the
    check reports b.py as well; no finding has a severity. *)
Lemma format_check_flags_clean_file :
  exec world_unformatted ["ruff"; "format"; "--check"; "a.py"; "b.py"] =
  Some (exited 1 format_report) /\
  reported_offenders format_report = ["a.py"] /\
  map (assoc "file")
      (errors (snd (run_format_check sample_reviewer ["a.py"; "b.py"]
                                     world_unformatted))) =
  [Some (PyStr "a.py"); Some (PyStr "b.py")] /\
  map (assoc "severity")
      (errors (snd (run_format_check sample_reviewer ["a.py"; "b.py"]
                                     world_unformatted))) =
  [None; None].
Proof. vm_compute. repeat split. Qed.

(** C5 on the code: the linter's output is cut short, [json.loads]
    raises, and the exception ends the review with the status error; no
    comment is touched. *)
Lemma truncated_lint_output_aborts :
  Json.loads "[{" = None /\
  fst (webhook (H := reference_python) EmptyString (sample_request "opened")
               world_truncated_lint) = Raise JSONDecodeError /\
  gh_statuses (snd (webhook (H := reference_python) EmptyString
                            (sample_request "opened")
                            world_truncated_lint)) =
  [(PyStr "c0ffee", "pending", "Running code quality checks");
   (PyStr "c0ffee", "error", "CI execution failed")] /\
  gh_comments (snd (webhook (H := reference_python) EmptyString
                            (sample_request "opened")
                            world_truncated_lint)) = old_comments.
Proof. vm_compute. repeat split. Qed.

(** C7 on the code: without the header the delivery is answered 401 and
    nothing is called; with a header that has no = sign, or two of them,
    the verifier raises [ValueError] and so does the handler. *)
Lemma malformed_signature_header_raises :
  webhook (H := reference_python) "s3cret" (signed_request None)
          world_clean = (Ok invalid_signature, world_clean) /\
  verify_signature (H := reference_python) "s3cret" sample_body "sha256" =
  Raise ValueError /\
  verify_signature (H := reference_python) "s3cret" sample_body
                   "sha256=00=ff" = Raise ValueError /\
  webhook (H := reference_python) "s3cret" (signed_request (Some "sha256"))
          world_clean = (Raise ValueError, world_clean).
Proof. repeat split. Qed.

(* ================================================================== *)
(** * Further properties of the service *)

(* ------------------------------------------------------------------ *)
(** ** The verifier, case by case *)

Lemma split_on_length (sep : ascii) (s cur : string) :
  List.length (split_on sep cur s) = S (count_char sep s).
Proof.
  revert cur. induction s as [|c s IH]; intros cur; simpl; [reflexivity|].
  destruct (Ascii.eqb c sep); simpl; now rewrite IH.
Qed.

Lemma compare_digest_no_value_error (a b : string) :
  compare_digest a b <> Raise ValueError.
Proof.
  unfold compare_digest.
  destruct (is_ascii_str a && is_ascii_str b); discriminate.
Qed.

Section VerifyCases.
Context `{PythonLib}.

(** X1. Under a configured secret and for a header that is not empty,
    the verifier raises ValueError exactly when the header does not
    hold exactly one = sign. *)
Theorem verify_signature_value_error
        (secret : string) (payload : list byte) (header : string) :
  secret <> EmptyString ->
  header <> EmptyString ->
  (verify_signature secret payload header = Raise ValueError <->
   count_char eq_char header <> 1%nat).
Proof.
  intros Hs Hh. unfold verify_signature.
  rewrite (nonempty_true _ Hs), (nonempty_true _ Hh). simpl.
  pose proof (split_on_length eq_char header EmptyString) as Hlen.
  unfold str_split.
  destruct (split_on eq_char EmptyString header) as [|x [|y [|z l]]];
    simpl in Hlen.
  - discriminate.
  - split; [intros _; lia | reflexivity].
  - split.
    + intros E. now apply compare_digest_no_value_error in E.
    + intros Hc. exfalso. apply Hc. lia.
  - split; [intros _; lia | reflexivity].
Qed.

(** X2. Under a configured secret, a header label=signature with no
    further = sign is compared as text: a signature with a character
    outside ASCII raises TypeError, any other is accepted exactly when
    it is the expected digest. *)
Theorem verify_signature_compares_text
        (secret : string) (payload : list byte) (label sig : string) :
  secret <> EmptyString ->
  mem_char eq_char label = false ->
  mem_char eq_char sig = false ->
  verify_signature secret payload (label ++ "=" ++ sig) =
  if is_ascii_str sig
  then Ok (String.eqb (expected_digest secret payload) sig)
  else Raise TypeError.
Proof.
  intros Hs Hl Hg.
  change ("=" ++ sig) with (String eq_char sig).
  rewrite verify_labelled by assumption.
  unfold str_split. rewrite (split_on_plain _ _ _ Hg). simpl.
  unfold compare_digest.
  destruct (expected_digest_plain secret payload) as [_ Ha].
  now rewrite Ha.
Qed.

(** X3. A delivery without the signature header, or with a header
    label=signature whose ASCII signature is not the expected digest, is
    answered 401 with the Invalid signature message when a secret is
    configured, and the world is left as it was. *)
Theorem webhook_rejects_bad_signature
        (secret : string) (request : Request) (w : World) :
  secret <> EmptyString ->
  (x_hub_signature_256 request = None \/
   exists label sig,
     x_hub_signature_256 request = Some (label ++ "=" ++ sig) /\
     mem_char eq_char label = false /\
     mem_char eq_char sig = false /\
     is_ascii_str sig = true /\
     sig <> expected_digest secret (data request)) ->
  webhook secret request w = (Ok invalid_signature, w) /\
  status invalid_signature = 401.
Proof.
  intros Hs Hcase. split; [|reflexivity].
  assert (Hv : verify_signature secret (data request)
                 (header_or (x_hub_signature_256 request) EmptyString)
               = Ok false).
  { destruct Hcase as [-> | (label & sig & -> & Hl & Hg & Ha & Hne)].
    - simpl. unfold verify_signature. now rewrite (nonempty_true _ Hs).
    - cbn [header_or].
      change ("=" ++ sig) with (String eq_char sig).
      rewrite verify_labelled by assumption.
      unfold str_split. rewrite (split_on_plain _ _ _ Hg). simpl.
      unfold compare_digest.
      destruct (expected_digest_plain secret (data request)) as [_ Hd].
      rewrite Hd, Ha. simpl. f_equal. apply String.eqb_neq. congruence. }
  unfold webhook, bind, lift. now rewrite Hv.
Qed.
End VerifyCases.

(** X1 at work. *)
Lemma verify_signature_value_error_witness :
  verify_signature (H := reference_python) "s3cret" sample_body "a=b=c" =
  Raise ValueError.
Proof.
  apply (verify_signature_value_error (H := reference_python)).
  - discriminate.
  - discriminate.
  - vm_compute. discriminate.
Defined.

(** X2 at work: an accented character in the signature. *)
Lemma verify_signature_compares_text_witness :
  verify_signature (H := reference_python) "s3cret" sample_body
                   ("sha256" ++ "=" ++ "é") = Raise TypeError.
Proof.
  apply (verify_signature_compares_text (H := reference_python)
           "s3cret" sample_body "sha256" "é").
  - discriminate.
  - reflexivity.
  - reflexivity.
Defined.

(** X3 at work. *)
Lemma webhook_rejects_bad_signature_witness :
  webhook (H := reference_python) "s3cret"
          (signed_request (Some ("sha256" ++ "=" ++ "00ff"))) world_clean =
  (Ok invalid_signature, world_clean).
Proof.
  apply (webhook_rejects_bad_signature (H := reference_python) "s3cret").
  - discriminate.
  - right. exists "sha256", "00ff". split; [reflexivity|].
    split; [reflexivity|]. split; [reflexivity|]. split; [reflexivity|].
    vm_compute. discriminate.
Defined.

(* ------------------------------------------------------------------ *)
(** ** Health *)

(** X4. The health answer is 200, and what it tells of the secret is
    whether signatures are checked: it reports webhook_secret false
    exactly when the verifier accepts every delivery, and it is the same
    for any two non-empty secrets and any two non-empty tokens. *)
Theorem health_reveals_only_presence `{PythonLib}
        (token : option string) (secret : string) :
  status (health token secret) = 200 /\
  (assoc "webhook_secret" (body (health token secret)) = Some (PyBool false)
   <-> forall payload header,
         verify_signature secret payload header = Ok true) /\
  (forall token' secret',
      truthy_token token' = truthy_token token ->
      nonempty secret' = nonempty secret ->
      health token' secret' = health token secret).
Proof.
  split; [reflexivity|]. split.
  - simpl. split.
    + intros E. injection E as E. intros payload header.
      unfold verify_signature. now rewrite E.
    + intros Hall. specialize (Hall [] EmptyString).
      unfold verify_signature in Hall.
      destruct (nonempty secret); [discriminate|reflexivity].
  - intros token' secret' Ht Hn. unfold health. now rewrite Ht, Hn.
Qed.

(** X4 at work. *)
Lemma health_reveals_only_presence_witness :
  health (Some "ghp_one") "s3cret" = health (Some "ghp_two") "hunter2".
Proof.
  apply (health_reveals_only_presence (H := reference_python)
           (Some "ghp_two") "hunter2").
  - reflexivity.
  - reflexivity.
Defined.

(* ------------------------------------------------------------------ *)
(** ** What clone and analysis leave alone *)

Lemma quiet_step_refl (w : World) : quiet_step w w.
Proof. repeat split. Qed.

Lemma quiet_step_trans (w1 w2 w3 : World) :
  quiet_step w1 w2 -> quiet_step w2 w3 -> quiet_step w1 w3.
Proof. unfold quiet_step. intuition congruence. Qed.

Ltac quiet :=
  repeat first
    [ apply (preserves_bind _ quiet_step_trans); [|intro]
    | apply (preserves_for_each _ quiet_step_refl quiet_step_trans); intro
    | apply (preserves_lift _ quiet_step_refl)
    | apply (preserves_get _ quiet_step_refl)
    | apply (preserves_ret _ quiet_step_refl)
    | apply (preserves_raise _ quiet_step_refl)
    | apply preserves_modify; intro; repeat split
    | match goal with
      | |- preserves _ (match ?x with _ => _ end) => destruct x
      end ].

Section QuietAnalysis.
Context `{PythonLib}.

Lemma analysis_quiet (reviewer : CodeReviewer) :
  preserves quiet_step
            (bind (clone_repo reviewer) (fun _ => run_all reviewer)).
Proof.
  unfold clone_repo, run_all, changed_python_files, run_ruff,
    run_format_check, run_pytest, run, subprocess_run, append_error, emit.
  quiet.
Qed.

(** The two ways out of the guarded block. *)
Lemma guarded_review_cases (gh : GitHubClient) (reviewer : CodeReviewer)
      (w0 w1 : World) (r : result bool) :
  guarded_review gh reviewer w0 = (r, w1) ->
  exists w2,
    quiet_step w0 w2 /\
    errors w1 = errors w2 /\
    gh_comments w1 = gh_comments w0 /\
    gh_next_id w1 = gh_next_id w0 /\
    tmp_next w1 = tmp_next w0 /\
    tmp_live w1 =
      (if rmtree_ok w0
       then filter (fun d => negb (Nat.eqb d (workdir reviewer)))
                   (tmp_live w0)
       else tmp_live w0) /\
    ((exists b,
         bind (clone_repo reviewer) (fun _ => run_all reviewer) w0
         = (Ok b, w2) /\
         r = Ok b /\
         gh_statuses w1 = gh_statuses w0 /\
         trace w1 = (trace w2 ++ [Rmtree (workdir reviewer)])%list) \/
     (exists e,
         bind (clone_repo reviewer) (fun _ => run_all reviewer) w0
         = (Raise e, w2) /\
         r = Raise e /\
         gh_statuses w1 =
           (gh_statuses w0 ++
              [(head_sha reviewer, "error", "CI execution failed")])%list /\
         trace w1 =
           (trace w2 ++
              [SetStatus (repo gh) (head_sha reviewer) "error"
                         "CI execution failed";
               Rmtree (workdir reviewer)])%list)).
Proof.
  unfold guarded_review, try_finally, try_except.
  destruct (bind (clone_repo reviewer) (fun _ => run_all reviewer) w0)
    as [[b|e] w2] eqn:Ebody;
    pose proof (analysis_quiet reviewer _ _ _ Ebody) as Hq;
    destruct Hq as (He & Hr & Hn & Hl & Hc & Hi & Hs).
  - rewrite cleanup_eq. intros E. injection E as <- <-.
    exists w2. split; [repeat split; assumption|].
    simpl. rewrite <- Hr, <- Hl.
    destruct (rmtree_ok w2); simpl;
      (repeat split; try assumption; left; exists b; now repeat split).
  - rewrite (bind_ok _ _ _ _ _ (set_status_eq _ _ _ _ _)).
    unfold raise. rewrite cleanup_eq. intros E. injection E as <- <-.
    exists w2. split; [repeat split; assumption|].
    simpl. rewrite <- Hr, <- Hl, <- Hs.
    destruct (rmtree_ok w2); simpl; rewrite <- ?app_assoc; simpl;
      (repeat split; try assumption; right; exists e; now repeat split).
Qed.
End QuietAnalysis.

(* ------------------------------------------------------------------ *)
(** ** Every way through the handler *)

Section HandlerCases.
Context `{PythonLib}.
Variable WEBHOOK_SECRET : string.

Lemma build_comment_reads_errors (reviewer : CodeReviewer) (wa wb : World) :
  errors wa = errors wb ->
  fst (build_comment reviewer wa) = fst (build_comment reviewer wb).
Proof.
  intros E. unfold build_comment, bind, get, ret, lift. rewrite E.
  destruct (no_errors (errors wb)); reflexivity.
Qed.

(** The reporting phase, field by field. *)
Lemma report_fields (gh : GitHubClient) (reviewer : CodeReviewer)
      (pr : pyobj) (b : bool) (w1 : World) :
  b = no_errors (errors w1) ->
  Forall (fun e => has_keys e = true) (errors w1) ->
  exists w' comment,
    report gh reviewer pr b w1 = (Ok (summary b), w') /\
    fst (build_comment reviewer w1) = Ok comment /\
    gh_comments w' =
      (filter (survives (gh_comments w1)) (gh_comments w1) ++
         if b then []
         else [{| comment_id := gh_next_id w1; comment_body := comment |}])%list
    /\
    gh_statuses w' =
      (gh_statuses w1 ++
         [(head_sha reviewer,
           fst (final_status b (List.length (errors w1))),
           snd (final_status b (List.length (errors w1))))])%list /\
    errors w' = errors w1 /\
    tmp_live w' = tmp_live w1.
Proof.
  intros Hb Hk.
  destruct (build_comment_ok reviewer w1 Hk) as (comment & Ec & _).
  unfold report.
  rewrite (bind_ok _ _ _ _ _ (list_pr_comments_eq _ _ _)).
  destruct (sweep_spec gh (gh_comments w1)
              (set_trace (trace w1 ++ [ListComments (repo gh) pr]) w1))
    as (w2 & E & Hc & Ht & Hn & Hs & He & Hl).
  simpl in Hc, Ht, Hn, Hs, He, Hl.
  rewrite (bind_ok _ _ _ _ _ E).
  destruct b.
  - rewrite (bind_ok _ _ _ _ _ (set_status_eq _ _ _ _ _)).
    eexists. exists comment. split; [reflexivity|]. simpl.
    rewrite Ec, Hc, Hs, app_nil_r. now repeat split.
  - set (w3 := set_statuses
                 (gh_statuses w2 ++
                    [(head_sha reviewer, "failure",
                      "Found " ++ str_of_nat (List.length (errors w2)) ++
                      " issue(s)")])
                 (set_trace
                    (trace w2 ++
                       [SetStatus (repo gh) (head_sha reviewer) "failure"
                          ("Found " ++ str_of_nat (List.length (errors w2))
                                    ++ " issue(s)")]) w2)).
    assert (E3 : build_comment reviewer w3 = (Ok comment, w3)).
    { assert (Hk3 : Forall (fun e => has_keys e = true) (errors w3))
        by (simpl; now rewrite He).
      destruct (build_comment_ok reviewer w3 Hk3) as (c3 & E3 & _).
      pose proof (build_comment_reads_errors reviewer w3 w1) as Hsame.
      rewrite E3, Ec in Hsame. simpl in Hsame.
      rewrite He in Hsame. specialize (Hsame eq_refl).
      injection Hsame as ->. exact E3. }
    assert (Ebranch :
              bind (get errors)
                (fun es =>
                   bind (set_status gh (head_sha reviewer) "failure"
                           ("Found " ++ str_of_nat (List.length es)
                                     ++ " issue(s)"))
                     (fun _ =>
                        bind (build_comment reviewer)
                             (fun c => post_pr_comment gh pr c))) w2
              = post_pr_comment gh pr comment w3).
    { unfold bind at 1. unfold get at 1.
      rewrite (bind_ok _ _ _ _ _ (set_status_eq _ _ _ _ _)).
      fold w3. now rewrite (bind_ok _ _ _ _ _ E3). }
    rewrite post_pr_comment_eq in Ebranch.
    rewrite (bind_ok _ _ _ _ _ Ebranch).
    eexists. exists comment. split; [reflexivity|]. simpl.
    rewrite Ec, Hc, Hs, Hn, He. now repeat split.
Qed.

(** A run of the handler either changes nothing, or is the review of an
    accepted delivery, which ends in the guarded block or in the
    reporting phase. *)
Lemma webhook_cases (request : Request) (w w' : World)
      (r : result Response) :
  webhook WEBHOOK_SECRET request w = (r, w') ->
  (w' = w /\
   forall resp, r = Ok resp -> resp = invalid_signature \/ resp = ignored) \/
  (exists payload f gh reviewer w0 r1 w1,
      accepted WEBHOOK_SECRET request payload /\
      pr_fields payload = Ok f /\
      begin_review f w = (Ok (gh, reviewer), w0) /\
      guarded_review gh reviewer w0 = (r1, w1) /\
      ((exists e, r1 = Raise e /\ r = Raise e /\ w' = w1) \/
       (exists b, r1 = Ok b /\
                  report gh reviewer (pr_number f) b w1 = (r, w')))).
Proof.
  unfold webhook, bind at 1, lift at 1.
  destruct (verify_signature WEBHOOK_SECRET (data request)
              (header_or (x_hub_signature_256 request) EmptyString))
    as [[|]|e] eqn:Hv; simpl.
  - unfold bind at 1, lift at 1.
    destruct (json request) as [payload|e] eqn:Hj;
      [|intros E; injection E as <- <-; left;
        split; [reflexivity | discriminate]].
    destruct (not_pull_request (x_github_event request)) eqn:He.
    + unfold ret. intros E. injection E as <- <-. left.
      split; [reflexivity|]. intros resp E. injection E as <-. now right.
    + unfold bind at 1, lift at 1.
      destruct (py_getitem payload "action") as [action|e] eqn:Ha.
      * destruct (py_eq_str action "opened" ||
                  py_eq_str action "synchronize") eqn:Hact; simpl.
        -- assert (Hacc : accepted WEBHOOK_SECRET request payload).
           { split; [exact Hv|]. split; [exact Hj|]. split.
             - unfold not_pull_request in He.
               destruct (x_github_event request) as [ev|]; [|discriminate].
               apply negb_false_iff, String.eqb_eq in He. now subst.
             - now exists action. }
           unfold review, bind at 1, lift at 1.
           destruct (pr_fields payload) as [f|e] eqn:Hf.
           ++ rewrite (bind_ok _ _ _ _ _ (begin_review_eq f w)).
              intros E. right.
              destruct (guarded_review
                          {| repo := pr_repo f |}
                          {| repo_url := pr_clone_url f;
                             base_ref := pr_base_ref f;
                             head_sha := pr_head_sha f;
                             workdir := tmp_next w |}
                          (snd (begin_review f w)))
                as [r1 w1] eqn:Hg.
              exists payload, f. eexists. eexists.
              exists (snd (begin_review f w)).
              exists r1, w1.
              split; [exact Hacc|]. split; [exact Hf|].
              split; [now rewrite begin_review_eq|]. split; [exact Hg|].
              rewrite begin_review_eq in Hg. simpl in Hg.
              unfold bind in E. rewrite Hg in E.
              destruct r1 as [b|e].
              ** right. exists b. now split.
              ** left. exists e. injection E as <- <-. now repeat split.
           ++ intros E. injection E as <- <-. left.
              split; [reflexivity | discriminate].
        -- unfold ret. intros E. injection E as <- <-. left.
           split; [reflexivity|]. intros resp E. injection E as <-.
           now right.
      * intros E. injection E as <- <-. left.
        split; [reflexivity | discriminate].
  - unfold ret. intros E. injection E as <- <-. left.
    split; [reflexivity|]. intros resp E. injection E as <-. now left.
  - intros E. injection E as <- <-. left.
    split; [reflexivity | discriminate].
Qed.
Lemma filter_remove_fresh (d : nat) (l : list nat) :
  ~ In d l -> filter (fun x => negb (Nat.eqb x d)) (d :: l) = l.
Proof.
  intros Hd. simpl. rewrite Nat.eqb_refl. simpl.
  induction l as [|x l IH]; simpl; [reflexivity|].
  destruct (Nat.eqb x d) eqn:Ex; simpl.
  - apply Nat.eqb_eq in Ex. subst. exfalso. apply Hd. now left.
  - rewrite IH; [reflexivity|]. intros Hin. apply Hd. now right.
Qed.

(** X5. The handler's answers. Whenever the handler answers, the answer is
    401 Invalid signature or 200 Ignored with the world as it was, or
    the 200 summary of an accepted delivery. *)
Theorem webhook_answers (request : Request) (w w' : World) (resp : Response) :
  webhook WEBHOOK_SECRET request w = (Ok resp, w') ->
  (resp = invalid_signature /\ status resp = 401 /\ w' = w) \/
  (resp = ignored /\ status resp = 200 /\ w' = w) \/
  (exists b payload, resp = summary b /\ status resp = 200 /\
                     accepted WEBHOOK_SECRET request payload).
Proof.
  intros E. destruct (webhook_cases _ _ _ _ E) as [[-> Hr]|Hrev].
  - destruct (Hr resp eq_refl) as [-> | ->]; [left | right; left];
      now repeat split.
  - destruct Hrev as (payload & f & gh & rv & w0 & r1 & w1 & Hacc & Hf & Hb & Hg & Hout).
    destruct Hout as [(e & _ & Hr & _)|(b & -> & Hrep)]; [discriminate|].
    destruct (reviewed_state _ _ _ _ _ _ _ Hb Hg) as (Hflag & Hk & _).
    destruct (report_fields gh rv (pr_number f) b w1 Hflag Hk)
      as (w'' & c & Er & _).
    rewrite Er in Hrep. injection Hrep as <- <-.
    right. right. exists b, payload.
    split; [reflexivity|]. split; [reflexivity | exact Hacc].
Qed.

(** X6. A pull_request delivery that verifies, whose body decodes, and
    whose payload lacks the action, or whose action is accepted and
    whose payload lacks a field of the pull request, ends in that
    exception before anything is done: no status is set, no workspace is
    made. *)
Theorem webhook_payload_error
        (request : Request) (payload : pyobj) (w : World) (e : exn) :
  verify_signature WEBHOOK_SECRET (data request)
                   (header_or (x_hub_signature_256 request) EmptyString)
  = Ok true ->
  x_github_event request = Some "pull_request" ->
  json request = Ok payload ->
  (py_getitem payload "action" = Raise e \/
   accepted WEBHOOK_SECRET request payload /\ pr_fields payload = Raise e) ->
  webhook WEBHOOK_SECRET request w = (Raise e, w).
Proof.
  intros Hv He Hj [Ha|[Hacc Hf]].
  - unfold webhook, bind, lift. rewrite Hv, Hj, He, Ha. reflexivity.
  - rewrite (webhook_accepted _ _ _ _ Hacc).
    unfold review, bind, lift. now rewrite Hf.
Qed.

(** X23. A body that does not decode. For a delivery that verifies, when
    reading [request.json] raises (415 for a content type that is not
    JSON, 400 for a body that is no JSON document), that exception
    leaves the handler whatever the event is, the event not having been
    looked at yet, and nothing is done: no status is set, no workspace
    is made, no call goes out. *)
Theorem webhook_undecodable_body (request : Request) (w : World) (e : exn) :
  verify_signature WEBHOOK_SECRET (data request)
                   (header_or (x_hub_signature_256 request) EmptyString)
  = Ok true ->
  json request = Raise e ->
  webhook WEBHOOK_SECRET request w = (Raise e, w).
Proof.
  intros Hv Hj. unfold webhook, bind, lift. now rewrite Hv, Hj.
Qed.


(** X8. No workspace is left behind. When [rmtree] works and the directory
    [mkdtemp] is about to hand out is not in use, the workspaces after
    any delivery, whatever its outcome, are those there were before. *)
Theorem webhook_leaves_no_workspace
        (request : Request) (w w' : World) (r : result Response) :
  rmtree_ok w = true ->
  ~ In (tmp_next w) (tmp_live w) ->
  webhook WEBHOOK_SECRET request w = (r, w') ->
  tmp_live w' = tmp_live w.
Proof.
  intros Hrm Hfresh E.
  destruct (webhook_cases _ _ _ _ E) as [[-> _]|Hrev]; [reflexivity|].
  destruct Hrev as (payload & f & gh & rv & w0 & r1 & w1 & Hacc & Hf & Hb & Hg & Hout).
  assert (Hlive : tmp_live w1 = tmp_live w).
  { destruct (guarded_review_cases _ _ _ _ _ Hg)
      as (w2 & _ & _ & _ & _ & _ & Hl & _).
    rewrite begin_review_eq in Hb. injection Hb as <- <- <-.
    simpl in Hl. rewrite Hrm in Hl. rewrite Hl.
    now apply filter_remove_fresh. }
  destruct Hout as [(e & _ & _ & ->)|(b & -> & Hrep)]; [exact Hlive|].
  destruct (reviewed_state _ _ _ _ _ _ _ Hb Hg) as (Hflag & Hk & _).
  destruct (report_fields gh rv (pr_number f) b w1 Hflag Hk)
    as (w'' & c & Er & _ & _ & _ & _ & Hl).
  rewrite Er in Hrep. injection Hrep as <- <-. congruence.
Qed.

End HandlerCases.

(* ------------------------------------------------------------------ *)
(** ** Comments of other authors *)

Lemma nodup_map_inj {A B} (f : A -> B) (l : list A) (a b : A) :
  NoDup (map f l) -> In a l -> In b l -> f a = f b -> a = b.
Proof.
  induction l as [|x l IH]; simpl; intros Hnd Ha Hb Hf; [contradiction|].
  inversion Hnd as [|y m Hnot Hnd']; subst.
  destruct Ha as [->|Ha], Hb as [->|Hb]; try reflexivity.
  - exfalso. apply Hnot. rewrite Hf. now apply in_map.
  - exfalso. apply Hnot. rewrite <- Hf. now apply in_map.
  - now apply IH.
Qed.

Lemma survives_when_ids_differ (listed : list Comment) (x : Comment) :
  NoDup (map comment_id listed) ->
  In x listed ->
  survives listed x = negb (is_bot_comment x).
Proof.
  intros Hnd Hx. unfold survives. f_equal.
  destruct (is_bot_comment x) eqn:Hb.
  - apply existsb_exists. exists x. split; [assumption|].
    now rewrite Hb, Z.eqb_refl.
  - destruct (existsb _ listed) eqn:Hex; [|reflexivity].
    apply existsb_exists in Hex. destruct Hex as (c & Hc & Hcx).
    apply andb_true_iff in Hcx. destruct Hcx as [Hcb Hid].
    apply Z.eqb_eq in Hid.
    assert (x = c) by (eapply nodup_map_inj; eassumption).
    subst. congruence.
Qed.

Section OtherComments.
Context `{PythonLib}.
Variable WEBHOOK_SECRET : string.

(** X10. When the comments of the pull request have different ids, a
    delivery, whatever its outcome, leaves every comment without the
    marker in place and in order. *)
Theorem webhook_keeps_unmarked_comments
        (request : Request) (w w' : World) (r : result Response) :
  NoDup (map comment_id (gh_comments w)) ->
  webhook WEBHOOK_SECRET request w = (r, w') ->
  filter (fun c => negb (is_bot_comment c)) (gh_comments w') =
  filter (fun c => negb (is_bot_comment c)) (gh_comments w).
Proof.
  intros Hnd E.
  destruct (webhook_cases _ _ _ _ _ E) as [[-> _]|Hrev]; [reflexivity|].
  destruct Hrev as (payload & f & gh & rv & w0 & r1 & w1 & Hacc & Hf & Hb & Hg & Hout).
  destruct Hout as [(e & _ & _ & ->)|(b & -> & Hrep)].
  - destruct (guarded_review_cases _ _ _ _ _ Hg) as (w2 & _ & _ & Hc & _).
    rewrite begin_review_eq in Hb. injection Hb as <- <- <-.
    simpl in Hc. now rewrite Hc.
  - destruct (reviewed_state _ _ _ _ _ _ _ Hb Hg) as (Hflag & Hk & Hc & _).
    destruct (report_fields gh rv (pr_number f) b w1 Hflag Hk)
      as (w'' & comment & Er & Ec & Hcs & _).
    rewrite Er in Hrep. injection Hrep as <- <-.
    destruct (build_comment_ok rv w1 Hk) as (c' & Ec' & Hm).
    rewrite Ec' in Ec. simpl in Ec. injection Ec as ->.
    rewrite Hcs, Hc, filter_app, filter_twice.
    assert (Htail :
              filter (fun c => negb (is_bot_comment c))
                     (if b then []
                      else [{| comment_id := gh_next_id w1;
                               comment_body := comment |}]) = []).
    { destruct b; [reflexivity|]. simpl. unfold is_bot_comment. simpl.
      now rewrite Hm. }
    rewrite Htail, app_nil_r.
    apply filter_ext_in. intros x Hx.
    rewrite (survives_when_ids_differ _ _ Hnd Hx).
    now destruct (is_bot_comment x).
Qed.
End OtherComments.

(* ------------------------------------------------------------------ *)
(** ** The handler on the sample deliveries, again *)

Lemma webhook_answers_witness :
  exists b,
    fst (webhook (H := reference_python) EmptyString
                 (sample_request "opened") world_unformatted) =
    Ok (summary b).
Proof.
  destruct (webhook_answers (H := reference_python) EmptyString
              (sample_request "opened") world_unformatted
              (snd (webhook (H := reference_python) EmptyString
                            (sample_request "opened") world_unformatted))
              (summary false))
    as [(Hr & _)|[(Hr & _)|(b & payload & Hr & _)]].
  - vm_compute. reflexivity.
  - discriminate.
  - discriminate.
  - exists b. rewrite <- Hr. vm_compute. reflexivity.
Defined.

(** A payload without the pull request. *)
Lemma webhook_payload_error_witness :
  webhook (H := reference_python) EmptyString
          {| data := sample_body;
             x_hub_signature_256 := None;
             x_github_event := Some "pull_request";
             json := Ok (PyDict [("action", PyStr "opened")]) |}
          world_clean =
  (Raise (KeyError "pull_request"), world_clean).
Proof.
  apply (webhook_payload_error (H := reference_python) EmptyString _
           (PyDict [("action", PyStr "opened")])).
  - reflexivity.
  - reflexivity.
  - reflexivity.
  - right. split; [|reflexivity].
    split; [reflexivity|]. split; [reflexivity|]. split; [reflexivity|].
    exists (PyStr "opened"). split; reflexivity.
Defined.

(** A pull_request delivery whose body is cut short. *)
Lemma webhook_undecodable_body_witness :
  webhook (H := reference_python) EmptyString
          {| data := list_byte_of_string "{";
             x_hub_signature_256 := None;
             x_github_event := Some "pull_request";
             json := Raise BadRequest |}
          world_clean =
  (Raise BadRequest, world_clean).
Proof.
  apply (webhook_undecodable_body (H := reference_python) EmptyString).
  - reflexivity.
  - reflexivity.
Defined.


Lemma webhook_leaves_no_workspace_witness :
  tmp_live (snd (webhook (H := reference_python) EmptyString
                         (sample_request "opened") world_no_clone)) = [].
Proof.
  apply (webhook_leaves_no_workspace (H := reference_python) EmptyString
           (sample_request "opened") world_no_clone _
           (fst (webhook (H := reference_python) EmptyString
                         (sample_request "opened") world_no_clone))).
  - reflexivity.
  - simpl. tauto.
  - vm_compute. reflexivity.
Defined.


Lemma webhook_keeps_unmarked_comments_witness :
  filter (fun c => negb (is_bot_comment c))
         (gh_comments
            (snd (webhook (H := reference_python) EmptyString
                          (sample_request "opened") world_unformatted))) =
  [{| comment_id := 7; comment_body := "Looks good to me" |}].
Proof.
  apply (webhook_keeps_unmarked_comments
           (H := reference_python) EmptyString
           (sample_request "opened") world_unformatted _
           (fst (webhook (H := reference_python) EmptyString
                         (sample_request "opened") world_unformatted))).
  - repeat constructor; simpl; intuition discriminate.
  - vm_compute. reflexivity.
Defined.

(* ------------------------------------------------------------------ *)
(** ** Clone, fetch, checkout *)

Lemma run_ok (args : list string) (cwd : nat) (w : World)
      (proc : CompletedProcess) :
  Forall (fun s => has_nul s = false) args ->
  exec w args = Some proc ->
  returncode proc = 0 ->
  run (map PyStr args) cwd w =
  (Ok proc, set_trace (trace w ++ [Subprocess args cwd]) w).
Proof.
  intros Hargs Hexec Hrc. unfold run, subprocess_run.
  rewrite (bind_ok _ _ w w args) by (unfold lift; now rewrite as_args_strs).
  unfold bind, emit, modify, get. simpl. now rewrite Hexec, Hrc.
Qed.

Lemma run_fails (args : list string) (cwd : nat) (w : World)
      (proc : CompletedProcess) :
  Forall (fun s => has_nul s = false) args ->
  exec w args = Some proc ->
  returncode proc <> 0 ->
  run (map PyStr args) cwd w =
  (Raise (CalledProcessError args (returncode proc)),
   set_trace (trace w ++ [Subprocess args cwd]) w).
Proof.
  intros Hargs Hexec Hrc. unfold run, subprocess_run.
  rewrite (bind_ok _ _ w w args) by (unfold lift; now rewrite as_args_strs).
  unfold bind, emit, modify, get. simpl. rewrite Hexec.
  apply Z.eqb_neq in Hrc. now rewrite Hrc.
Qed.

Lemma run_not_started (args : list string) (cwd : nat) (w : World) :
  Forall (fun s => has_nul s = false) args ->
  exec w args = None ->
  run (map PyStr args) cwd w =
  (Raise OSError, set_trace (trace w ++ [Subprocess args cwd]) w).
Proof. intros. now apply subprocess_run_not_started. Qed.

(** The three outcomes of a checked command. *)
Lemma run_outcome (args : list string) (cwd : nat) (w : World) :
  Forall (fun s => has_nul s = false) args ->
  exists r,
    run (map PyStr args) cwd w =
    (r, set_trace (trace w ++ [Subprocess args cwd]) w) /\
    ((exists proc, r = Ok proc) <-> exits_zero w args).
Proof.
  intros Hargs. unfold exits_zero.
  destruct (exec w args) as [proc|] eqn:Hexec.
  - destruct (Z.eq_dec (returncode proc) 0) as [Hrc|Hrc].
    + exists (Ok proc). split; [apply run_ok; assumption|].
      split; [intros _; now exists proc | intros _; now exists proc].
    + exists (Raise (CalledProcessError args (returncode proc))).
      split; [apply run_fails; assumption|].
      split; [intros [p Hp]; discriminate|].
      intros (p & Hp & Hz). congruence.
  - exists (Raise OSError). split; [apply run_not_started; assumption|].
    split; [intros [p Hp]; discriminate|].
    intros (p & Hp & _). discriminate.
Qed.

Section CloneProperties.
Context `{PythonLib}.

(** X11. The clone is made exactly when git clone, git fetch of the base
    branch and git checkout of the head commit all exit with status
    zero. *)
Theorem clone_repo_succeeds_iff (url ref sha : string) (dir : nat)
        (w : World) :
  has_nul url = false -> has_nul ref = false -> has_nul sha = false ->
  (fst (clone_repo (reviewer_of url ref sha dir) w) = Ok tt <->
   Forall (exits_zero w) (clone_commands url ref sha)).
Proof.
  intros Hu Hr Hs.
  assert (H1 : Forall (fun s => has_nul s = false) ["git"; "clone"; url; "."])
    by (repeat constructor; assumption).
  assert (H2 : Forall (fun s => has_nul s = false)
                      ["git"; "fetch"; "origin"; ref])
    by (repeat constructor; assumption).
  assert (H3 : Forall (fun s => has_nul s = false) ["git"; "checkout"; sha])
    by (repeat constructor; assumption).
  unfold clone_repo, reviewer_of, clone_commands. cbn [repo_url base_ref
    head_sha workdir].
  destruct (run_outcome _ dir w H1) as (r1 & E1 & I1).
  set (w1 := set_trace (trace w ++ [Subprocess ["git"; "clone"; url; "."] dir])
                       w) in *.
  destruct (run_outcome _ dir w1 H2) as (r2 & E2 & I2).
  set (w2 := set_trace
               (trace w1 ++ [Subprocess ["git"; "fetch"; "origin"; ref] dir])
               w1) in *.
  destruct (run_outcome _ dir w2 H3) as (r3 & E3 & I3).
  simpl map in E1, E2, E3.
  assert (X2 : exits_zero w1 ["git"; "fetch"; "origin"; ref] <->
               exits_zero w ["git"; "fetch"; "origin"; ref]) by reflexivity.
  assert (X3 : exits_zero w2 ["git"; "checkout"; sha] <->
               exits_zero w ["git"; "checkout"; sha]) by reflexivity.
  unfold bind. rewrite E1.
  destruct r1 as [p1|e1].
  - rewrite E2. destruct r2 as [p2|e2].
    + rewrite E3. destruct r3 as [p3|e3]; simpl.
      * split; [intros _|reflexivity].
        repeat constructor.
        -- apply I1. now exists p1.
        -- apply X2, I2. now exists p2.
        -- apply X3, I3. now exists p3.
      * split; [discriminate|]. intros Hall.
        inversion Hall as [|? ? _ Hall2]; subst.
        inversion Hall2 as [|? ? _ Hall3]; subst.
        inversion Hall3 as [|? ? Hz _]; subst.
        apply X3, I3 in Hz. destruct Hz. discriminate.
    + simpl. split; [discriminate|]. intros Hall.
      inversion Hall as [|? ? _ Hall2]; subst.
      inversion Hall2 as [|? ? Hz _]; subst.
      apply X2, I2 in Hz. destruct Hz. discriminate.
  - simpl. split; [discriminate|]. intros Hall.
    inversion Hall as [|? ? Hz _]; subst.
    apply I1 in Hz. destruct Hz. discriminate.
Qed.

(** X12. When git clone exits with a status other than zero, [clone_repo]
    raises CalledProcessError with that command and status, and neither
    fetch nor checkout is started. *)
Theorem clone_repo_stops_at_failed_clone
        (url ref sha : string) (dir : nat) (w : World)
        (proc : CompletedProcess) :
  has_nul url = false ->
  exec w ["git"; "clone"; url; "."] = Some proc ->
  returncode proc <> 0 ->
  exists w',
    clone_repo (reviewer_of url ref sha dir) w =
    (Raise (CalledProcessError ["git"; "clone"; url; "."]
                               (returncode proc)), w') /\
    trace w' = (trace w ++ [Subprocess ["git"; "clone"; url; "."] dir])%list.
Proof.
  intros Hu Hexec Hrc.
  assert (H1 : Forall (fun s => has_nul s = false) ["git"; "clone"; url; "."])
    by (repeat constructor; assumption).
  unfold clone_repo, reviewer_of. cbn [repo_url workdir].
  pose proof (run_fails _ dir w proc H1 Hexec Hrc) as E. simpl map in E.
  rewrite (bind_raise _ _ _ _ _ E).
  eexists. split; reflexivity.
Qed.

(** X13. A clone URL that is not a string raises TypeError before any
    process is started: the world is as it was. *)
Theorem clone_repo_rejects_non_string_url
        (reviewer : CodeReviewer) (w : World) :
  (forall s, repo_url reviewer <> PyStr s) ->
  clone_repo reviewer w = (Raise TypeError, w).
Proof.
  intros Hurl. unfold clone_repo, run, subprocess_run, bind, lift. simpl.
  destruct (repo_url reviewer) as [| | | |s| |]; try reflexivity.
  exfalso. now apply (Hurl s).
Qed.
End CloneProperties.

Lemma clone_repo_succeeds_iff_witness :
  fst (clone_repo (reviewer_of "https://github.com/octo/demo.git" "main"
                               "c0ffee" 0) world_clean) = Ok tt.
Proof.
  apply clone_repo_succeeds_iff; try reflexivity.
  repeat constructor; eexists; (split; reflexivity).
Defined.

Lemma clone_repo_stops_at_failed_clone_witness :
  fst (clone_repo (reviewer_of "https://github.com/octo/demo.git" "main"
                               "c0ffee" 0) world_no_clone) =
  Raise (CalledProcessError
           ["git"; "clone"; "https://github.com/octo/demo.git"; "."] 128).
Proof.
  destruct (clone_repo_stops_at_failed_clone
              "https://github.com/octo/demo.git" "main" "c0ffee" 0
              world_no_clone (exited 128 EmptyString))
    as (w' & E & _).
  - reflexivity.
  - reflexivity.
  - discriminate.
  - rewrite E. reflexivity.
Defined.

Lemma clone_repo_rejects_non_string_url_witness :
  clone_repo {| repo_url := PyNone; base_ref := PyStr "main";
                head_sha := PyStr "c0ffee"; workdir := 0 |} world_clean =
  (Raise TypeError, world_clean).
Proof.
  apply clone_repo_rejects_non_string_url. intros s. discriminate.
Defined.

(* ------------------------------------------------------------------ *)
(** ** Diff scoping *)

Lemma break_len_plain (c : ascii) (s : string) :
  plain_char c = true -> break_len (String c s) = 0%nat.
Proof.
  destruct c as [[] [] [] [] [] [] [] []]; intros Hc;
    try discriminate Hc; destruct s as [|c2 [|c3 s3]]; reflexivity.
Qed.

Lemma break_len_nl (s : string) : break_len (nl ++ s) = 1%nat.
Proof. destruct s as [|c2 [|c3 s3]]; reflexivity. Qed.

Lemma lines_from_name (name cur rest : string) :
  plain_name name = true ->
  lines_from 0 cur (name ++ nl ++ rest) =
  (cur ++ name) :: lines_from 0 EmptyString rest.
Proof.
  revert cur. induction name as [|c name IH]; intros cur Hn.
  - rewrite app_nil_str.
    change (EmptyString ++ nl ++ rest) with (nl ++ rest).
    pose proof (break_len_nl rest) as Hb.
    unfold nl in *. simpl append in *. cbn [lines_from]. now rewrite Hb.
  - simpl in Hn. apply andb_true_iff in Hn. destruct Hn as [Hc Hn].
    change (String c name ++ nl ++ rest)
      with (String c (name ++ nl ++ rest)).
    cbn [lines_from]. rewrite (break_len_plain _ _ Hc).
    rewrite (IH _ Hn), app_assoc_str. reflexivity.
Qed.

Lemma splitlines_unlines (names : list string) :
  Forall (fun n => plain_name n = true) names ->
  splitlines (unlines names) = names.
Proof.
  unfold splitlines. induction 1 as [|n names Hn _ IH]; cbn [unlines].
  - reflexivity.
  - now rewrite (lines_from_name _ _ _ Hn), IH.
Qed.

Lemma has_nul_app (a b : string) :
  has_nul (a ++ b) = has_nul a || has_nul b.
Proof.
  induction a as [|c a IH]; simpl; [reflexivity|].
  now rewrite IH, orb_assoc.
Qed.

Lemma prefix_exists (a b : string) :
  String.prefix a b = true -> exists t, b = a ++ t.
Proof.
  revert b. induction a as [|c a IH]; intros b Hp.
  - now exists b.
  - destruct b as [|d b]; simpl in Hp; [discriminate|].
    destruct (ascii_dec c d) as [->|]; [|discriminate].
    destruct (IH _ Hp) as [t ->]. now exists t.
Qed.

Lemma rev_string_app (a b : string) :
  rev_string (a ++ b) = rev_string b ++ rev_string a.
Proof.
  induction a as [|c a IH]; simpl.
  - now rewrite app_nil_str.
  - now rewrite IH, app_assoc_str.
Qed.

Lemma rev_string_involutive (a : string) : rev_string (rev_string a) = a.
Proof.
  induction a as [|c a IH]; simpl; [reflexivity|].
  now rewrite rev_string_app, IH.
Qed.

Lemma endswith_suffix (s suffix : string) :
  endswith s suffix = true -> exists stem, s = stem ++ suffix.
Proof.
  unfold endswith. intros Hp.
  destruct (prefix_exists _ _ Hp) as [t Ht].
  exists (rev_string t).
  rewrite <- (rev_string_involutive s), Ht, rev_string_app.
  now rewrite rev_string_involutive.
Qed.

Section ScopingProperties.
Context `{PythonLib}.

(** X14. Diff scoping. When git diff exits zero and prints the changed paths
    one a line, the scoped files are exactly the paths that end in .py,
    in the order printed. *)
Theorem changed_python_files_scopes
        (url ref sha : string) (dir : nat) (w : World)
        (proc : CompletedProcess) (names : list string) :
  has_nul ref = false ->
  has_nul sha = false ->
  exec w (diff_command ref sha) = Some proc ->
  returncode proc = 0 ->
  stdout proc = unlines names ->
  Forall (fun n => plain_name n = true) names ->
  exists w',
    changed_python_files (reviewer_of url ref sha dir) w =
    (Ok (filter (fun f => endswith f ".py") names), w') /\
    trace w' = (trace w ++ [Subprocess (diff_command ref sha) dir])%list.
Proof.
  intros Hr Hs Hexec Hrc Hout Hnames.
  assert (Hargs : Forall (fun s => has_nul s = false) (diff_command ref sha)).
  { unfold diff_command. repeat constructor; assumption. }
  pose proof (run_ok _ dir w proc Hargs Hexec Hrc) as E.
  unfold changed_python_files, reviewer_of.
  cbn [base_ref head_sha workdir py_format].
  unfold diff_command in E. simpl map in E.
  rewrite (bind_ok _ _ _ _ _ E). unfold ret.
  rewrite Hout, (splitlines_unlines _ Hnames).
  eexists. split; reflexivity.
Qed.

(** X15. Whatever git prints, every scoped file ends in .py. *)
Theorem changed_python_files_only_python
        (reviewer : CodeReviewer) (w w' : World) (files : list string) :
  changed_python_files reviewer w = (Ok files, w') ->
  Forall (fun f => exists stem, f = stem ++ ".py") files.
Proof.
  unfold changed_python_files. intros E.
  apply bind_inv_ok in E. destruct E as (proc & w1 & _ & E).
  unfold ret in E. injection E as <- _.
  apply Forall_forall. intros f Hf.
  apply filter_In in Hf. destruct Hf as [_ Hf].
  now apply endswith_suffix.
Qed.
End ScopingProperties.

Lemma changed_python_files_scopes_witness :
  fst (changed_python_files (H := reference_python)
         (reviewer_of "https://github.com/octo/demo.git" "main" "c0ffee" 0)
         world_unformatted) = Ok ["a.py"; "b.py"].
Proof.
  destruct (changed_python_files_scopes
              (H := reference_python)
              "https://github.com/octo/demo.git" "main" "c0ffee" 0
              world_unformatted
              (exited 0 ("a.py" ++ nl ++ "README.md" ++ nl ++ "b.py" ++ nl))
              ["a.py"; "README.md"; "b.py"])
    as (w' & E & _).
  - reflexivity.
  - reflexivity.
  - reflexivity.
  - reflexivity.
  - reflexivity.
  - repeat constructor.
  - rewrite E. reflexivity.
Defined.

Lemma changed_python_files_only_python_witness :
  Forall (fun f => exists stem, f = stem ++ ".py") ["a.py"; "b.py"].
Proof.
  apply (changed_python_files_only_python
           (H := reference_python) sample_reviewer world_unformatted
           (snd (changed_python_files (H := reference_python)
                   sample_reviewer world_unformatted))).
  vm_compute. reflexivity.
Defined.

(* ------------------------------------------------------------------ *)
(** ** The three checks, step by step *)

Lemma for_each_app {A} (a b : list A) (body : A -> M unit) (w : World) :
  for_each (a ++ b) body w =
  bind (for_each a body) (fun _ => for_each b body) w.
Proof.
  revert w. induction a as [|x a IH]; intros w; simpl.
  - reflexivity.
  - unfold bind. destruct (body x w) as [[u|e] w1]; [|reflexivity].
    rewrite IH. reflexivity.
Qed.


Section CheckSteps.
Context `{PythonLib}.

Lemma clone_repo_quiet (reviewer : CodeReviewer) :
  preserves quiet_step (clone_repo reviewer).
Proof. unfold clone_repo, run, subprocess_run, emit. quiet. Qed.

Lemma changed_python_files_quiet (reviewer : CodeReviewer) :
  preserves quiet_step (changed_python_files reviewer).
Proof. unfold changed_python_files, run, subprocess_run, emit. quiet. Qed.

Lemma run_ruff_quiet (reviewer : CodeReviewer) (files : list string) :
  preserves quiet_step (run_ruff reviewer files).
Proof. unfold run_ruff, subprocess_run, append_error, emit. quiet. Qed.

Lemma run_format_check_quiet (reviewer : CodeReviewer)
      (files : list string) :
  preserves quiet_step (run_format_check reviewer files).
Proof. unfold run_format_check, subprocess_run, append_error, emit. quiet. Qed.

Lemma run_pytest_quiet (reviewer : CodeReviewer) :
  preserves quiet_step (run_pytest reviewer).
Proof. unfold run_pytest, subprocess_run, append_error, emit. quiet. Qed.

(** The loop of [run_ruff] over issues that all have their keys. *)
Lemma ruff_loop (items : list pyobj) (es : list Finding) (w : World) :
  Forall2 (fun i e => ruff_finding i = Ok e) items es ->
  exists w',
    for_each items
             (fun i => bind (lift (ruff_finding i))
                            (fun e => append_error e)) w = (Ok tt, w') /\
    errors w' = (errors w ++ es)%list /\
    trace w' = trace w.
Proof.
  intros Hall. revert w. induction Hall as [|i e items es Hi _ IH];
    intros w; simpl.
  - exists w. unfold ret. now rewrite app_nil_r.
  - unfold bind at 1. unfold bind at 1. unfold lift. rewrite Hi.
    unfold append_error at 1, modify.
    destruct (IH (set_errors (errors w ++ [e]) w)) as (w' & E & He & Ht).
    exists w'. split; [exact E|]. simpl in He, Ht.
    now rewrite He, <- app_assoc.
Qed.

Lemma ruff_command_args (files : list string) :
  Forall (fun f => has_nul f = false) files ->
  Forall (fun s => has_nul s = false) (lint_command files).
Proof.
  intros Hf. unfold lint_command. simpl.
  repeat (apply Forall_cons; [reflexivity|]). exact Hf.
Qed.

Lemma format_command_args (files : list string) :
  Forall (fun f => has_nul f = false) files ->
  Forall (fun s => has_nul s = false) (format_command files).
Proof.
  intros Hf. unfold format_command. simpl.
  repeat (apply Forall_cons; [reflexivity|]). exact Hf.
Qed.

(** The lint check up to the decoded document. *)
Lemma run_ruff_decoded (reviewer : CodeReviewer) (files : list string)
      (w : World) (proc : CompletedProcess) (issues : list pyobj) :
  files <> [] ->
  Forall (fun f => has_nul f = false) files ->
  exec w (lint_command files) = Some proc ->
  stdout proc <> EmptyString ->
  json_loads (stdout proc) = Some (PyList issues) ->
  run_ruff reviewer files w =
  for_each issues
           (fun i => bind (lift (ruff_finding i)) (fun e => append_error e))
           (set_trace
              (trace w ++ [Subprocess (lint_command files)
                                      (workdir reviewer)]) w).
Proof.
  intros Hne Hnul Hexec Hout Hjson.
  unfold run_ruff. destruct files as [|f0 files']; [congruence|].
  pose proof (subprocess_run_unchecked _ (workdir reviewer) _ _
                (ruff_command_args _ Hnul) Hexec) as E.
  unfold lint_command in *.
  rewrite (bind_ok _ _ _ _ _ E).
  rewrite (nonempty_true _ Hout), Hjson.
  unfold bind at 1, lift at 1. unfold bind at 1, lift at 1. simpl py_iter.
  cbv iota. reflexivity.
Qed.

Lemma run_format_check_spec (reviewer : CodeReviewer) (files : list string)
      (w : World) (proc : CompletedProcess) :
  files <> [] ->
  Forall (fun f => has_nul f = false) files ->
  exec w (format_command files) = Some proc ->
  exists w',
    run_format_check reviewer files w = (Ok tt, w') /\
    errors w' = (errors w ++ format_findings files (returncode proc))%list /\
    trace w' =
      (trace w ++ [Subprocess (format_command files) (workdir reviewer)])%list.
Proof.
  intros Hne Hnul Hexec. unfold run_format_check, format_findings.
  destruct files as [|f0 files']; [congruence|].
  set (files := f0 :: files') in *.
  pose proof (subprocess_run_unchecked _ (workdir reviewer) _ _
                (format_command_args _ Hnul) Hexec) as E.
  unfold format_command in *.
  rewrite (bind_ok _ _ _ _ _ E).
  destruct (returncode proc =? 0); cbn [negb].
  - eexists. split; [reflexivity|]. simpl. now rewrite app_nil_r.
  - rewrite (for_each_map format_finding files append_error).
    match goal with
    | |- context [for_each ?l append_error ?w0] =>
        destruct (append_all l w0) as (w' & E' & He & Ht)
    end.
    exists w'. split; [exact E'|]. simpl in He, Ht. now split.
Qed.

Lemma run_pytest_spec (reviewer : CodeReviewer) (w : World)
      (proc : CompletedProcess) :
  exec w test_command = Some proc ->
  exists w',
    run_pytest reviewer w = (Ok tt, w') /\
    errors w' = (errors w ++ test_findings (returncode proc))%list /\
    trace w' = (trace w ++ [Subprocess test_command (workdir reviewer)])%list.
Proof.
  intros Hexec. unfold run_pytest, test_findings.
  assert (Hargs : Forall (fun s => has_nul s = false) test_command)
    by (repeat constructor).
  pose proof (subprocess_run_unchecked _ (workdir reviewer) _ _ Hargs Hexec)
    as E.
  unfold test_command in *. simpl map in E.
  rewrite (bind_ok _ _ _ _ _ E).
  destruct (returncode proc =? 0); cbn [negb].
  - eexists. split; [reflexivity|]. simpl. now rewrite app_nil_r.
  - eexists. split; [reflexivity|]. simpl. now split.
Qed.

(** X16. The lint check. For a non-empty list of scoped files, when the
    linter prints a JSON list of issues that all have a filename, a
    location with row and column, a code and a message, the check adds
    one finding an issue, in order, whatever the exit status of the
    linter. *)
Theorem run_ruff_reports_every_issue
        (reviewer : CodeReviewer) (files : list string) (w : World)
        (proc : CompletedProcess) (issues : list pyobj)
        (es : list Finding) :
  files <> [] ->
  Forall (fun f => has_nul f = false) files ->
  exec w (lint_command files) = Some proc ->
  stdout proc <> EmptyString ->
  json_loads (stdout proc) = Some (PyList issues) ->
  Forall2 (fun i e => ruff_finding i = Ok e) issues es ->
  exists w',
    run_ruff reviewer files w = (Ok tt, w') /\
    errors w' = (errors w ++ es)%list /\
    trace w' =
      (trace w ++ [Subprocess (lint_command files) (workdir reviewer)])%list.
Proof.
  intros Hne Hnul Hexec Hout Hjson Hall.
  rewrite (run_ruff_decoded _ _ _ _ _ Hne Hnul Hexec Hout Hjson).
  destruct (ruff_loop issues es
              (set_trace
                 (trace w ++ [Subprocess (lint_command files)
                                         (workdir reviewer)]) w) Hall)
    as (w' & E & He & Ht).
  exists w'. split; [exact E|]. now split.
Qed.

(** X17. A silent linter. When the linter prints nothing, the lint check adds
    no finding and the JSON decoder is not asked, whatever the exit
    status. *)
Theorem run_ruff_ignores_silent_linter
        (reviewer : CodeReviewer) (files : list string) (w : World)
        (proc : CompletedProcess) :
  files <> [] ->
  Forall (fun f => has_nul f = false) files ->
  exec w (lint_command files) = Some proc ->
  stdout proc = EmptyString ->
  exists w',
    run_ruff reviewer files w = (Ok tt, w') /\
    errors w' = errors w /\
    trace w' =
      (trace w ++ [Subprocess (lint_command files) (workdir reviewer)])%list.
Proof.
  intros Hne Hnul Hexec Hout.
  unfold run_ruff. destruct files as [|f0 files']; [congruence|].
  pose proof (subprocess_run_unchecked _ (workdir reviewer) _ _
                (ruff_command_args _ Hnul) Hexec) as E.
  unfold lint_command in *.
  rewrite (bind_ok _ _ _ _ _ E), Hout. simpl.
  eexists. split; [reflexivity|]. now split.
Qed.

(** X18. An issue without one of its keys. The findings of the issues before
    it are in the list when the exception leaves the check. *)
Theorem run_ruff_keeps_findings_before_bad_issue
        (reviewer : CodeReviewer) (files : list string) (w : World)
        (proc : CompletedProcess) (good rest : list pyobj) (bad : pyobj)
        (es : list Finding) (e : exn) :
  files <> [] ->
  Forall (fun f => has_nul f = false) files ->
  exec w (lint_command files) = Some proc ->
  stdout proc <> EmptyString ->
  json_loads (stdout proc) = Some (PyList (good ++ bad :: rest)) ->
  Forall2 (fun i x => ruff_finding i = Ok x) good es ->
  ruff_finding bad = Raise e ->
  exists w',
    run_ruff reviewer files w = (Raise e, w') /\
    errors w' = (errors w ++ es)%list.
Proof.
  intros Hne Hnul Hexec Hout Hjson Hall Hbad.
  rewrite (run_ruff_decoded _ _ _ _ _ Hne Hnul Hexec Hout Hjson).
  rewrite for_each_app.
  destruct (ruff_loop good es
              (set_trace
                 (trace w ++ [Subprocess (lint_command files)
                                         (workdir reviewer)]) w) Hall)
    as (w1 & E & He & Ht).
  rewrite (bind_ok _ _ _ _ _ E). simpl.
  unfold bind at 1. unfold bind at 1. unfold lift. rewrite Hbad.
  exists w1. split; [reflexivity | exact He].
Qed.

(** X19. Every check runs. Once the lint check has returned for a non-empty
    list of scoped files, the formatter and the test suite are both
    run, whatever was found before; the findings list is extended by
    the format findings and then the test finding, and the run succeeds
    exactly when the list is empty. *)
Theorem run_all_runs_every_check
        (reviewer : CodeReviewer) (files : list string) (w w1 w2 : World)
        (pf pt : CompletedProcess) :
  changed_python_files reviewer w = (Ok files, w1) ->
  files <> [] ->
  Forall (fun f => has_nul f = false) files ->
  run_ruff reviewer files w1 = (Ok tt, w2) ->
  exec w (format_command files) = Some pf ->
  exec w test_command = Some pt ->
  exists w',
    run_all reviewer w = (Ok (no_errors (errors w')), w') /\
    errors w' =
      (errors w2 ++ format_findings files (returncode pf) ++
         test_findings (returncode pt))%list /\
    trace w' =
      (trace w2 ++ [Subprocess (format_command files) (workdir reviewer);
                    Subprocess test_command (workdir reviewer)])%list.
Proof.
  intros Hfiles Hne Hnul Hlint Hf Ht.
  destruct (changed_python_files_quiet reviewer _ _ _ Hfiles) as (X1 & _).
  destruct (run_ruff_quiet reviewer files _ _ _ Hlint) as (X2 & _).
  assert (Hf2 : exec w2 (format_command files) = Some pf) by congruence.
  destruct (run_format_check_spec reviewer files w2 pf Hne Hnul Hf2)
    as (w3 & E3 & He3 & Ht3).
  destruct (run_format_check_quiet reviewer files _ _ _ E3) as (X3 & _).
  assert (Ht3' : exec w3 test_command = Some pt) by congruence.
  destruct (run_pytest_spec reviewer w3 pt Ht3') as (w4 & E4 & He4 & Ht4).
  exists w4. unfold run_all.
  rewrite (bind_ok _ _ _ _ _ Hfiles), (bind_ok _ _ _ _ _ Hlint).
  rewrite (bind_ok _ _ _ _ _ E3), (bind_ok _ _ _ _ _ E4).
  unfold bind, get, ret. split; [reflexivity|].
  rewrite He4, He3, Ht4, Ht3, <- !app_assoc. now split.
Qed.
End CheckSteps.

Lemma run_ruff_reports_every_issue_witness :
  errors (snd (run_ruff (H := reference_python) sample_reviewer ["a.py"]
                        world_lint_issues)) =
  [[("file", PyStr "a.py"); ("line", PyInt 3); ("column", PyInt 1);
    ("code", PyStr "F401"); ("message", PyStr "os imported but unused")];
   [("file", PyStr "a.py"); ("line", PyInt 9); ("column", PyInt 80);
    ("code", PyStr "E501"); ("message", PyStr "Line too long")]].
Proof.
  destruct (run_ruff_reports_every_issue
              (H := reference_python) sample_reviewer ["a.py"]
              world_lint_issues (exited 1 lint_report)
              [lint_issue "a.py" 3 1 "F401" "os imported but unused";
               lint_issue "a.py" 9 80 "E501" "Line too long"]
              [[("file", PyStr "a.py"); ("line", PyInt 3);
                ("column", PyInt 1); ("code", PyStr "F401");
                ("message", PyStr "os imported but unused")];
               [("file", PyStr "a.py"); ("line", PyInt 9);
                ("column", PyInt 80); ("code", PyStr "E501");
                ("message", PyStr "Line too long")]])
    as (w' & E & He & _).
  - discriminate.
  - repeat constructor.
  - reflexivity.
  - discriminate.
  - vm_compute. reflexivity.
  - repeat constructor.
  - rewrite E. exact He.
Defined.

Lemma run_ruff_ignores_silent_linter_witness :
  errors (snd (run_ruff (H := reference_python) sample_reviewer ["app.py"]
                        world_one_unformatted)) = [].
Proof.
  destruct (run_ruff_ignores_silent_linter
              (H := reference_python) sample_reviewer ["app.py"]
              world_one_unformatted (exited 0 EmptyString))
    as (w' & E & He & _).
  - discriminate.
  - repeat constructor.
  - reflexivity.
  - reflexivity.
  - rewrite E. exact He.
Defined.

(** The second issue has no location. *)
Lemma run_ruff_keeps_findings_before_bad_issue_witness :
  exists w',
    run_ruff (H := reference_python) sample_reviewer ["a.py"]
             world_incomplete_issue =
    (Raise (KeyError "location"), w') /\
    List.length (errors w') = 1%nat.
Proof.
  destruct (run_ruff_keeps_findings_before_bad_issue
              (H := reference_python)
              sample_reviewer ["a.py"] world_incomplete_issue
              (exited 1 lint_report_incomplete)
              [lint_issue "a.py" 3 1 "F401" "unused"] []
              (PyDict [("filename", PyStr "a.py")])
              [[("file", PyStr "a.py"); ("line", PyInt 3);
                ("column", PyInt 1); ("code", PyStr "F401");
                ("message", PyStr "unused")]]
              (KeyError "location"))
    as (w' & E & He).
  - discriminate.
  - repeat constructor.
  - reflexivity.
  - discriminate.
  - vm_compute. reflexivity.
  - repeat constructor.
  - reflexivity.
  - exists w'. split; [exact E|]. rewrite He. reflexivity.
Defined.

Lemma run_all_runs_every_check_witness :
  List.length
    (errors (snd (run_all (H := reference_python) sample_reviewer
                          world_lint_issues))) = 3%nat.
Proof.
  destruct (run_all_runs_every_check
              (H := reference_python) sample_reviewer ["a.py"]
              world_lint_issues
              (snd (changed_python_files (H := reference_python)
                      sample_reviewer world_lint_issues))
              (snd (run_ruff (H := reference_python) sample_reviewer ["a.py"]
                      (snd (changed_python_files (H := reference_python)
                              sample_reviewer world_lint_issues))))
              (exited 0 EmptyString) (exited 1 "1 failed"))
    as (w' & E & He & _).
  - vm_compute. reflexivity.
  - discriminate.
  - repeat constructor.
  - vm_compute. reflexivity.
  - reflexivity.
  - reflexivity.
  - rewrite E. cbn [snd]. rewrite He. vm_compute. reflexivity.
Defined.

(* ------------------------------------------------------------------ *)
(** ** The comment *)

Lemma finding_lines_exist `{PythonLib} (es : list Finding) :
  Forall (fun e => has_keys e = true) es ->
  exists lines, Forall2 (fun e l => finding_line e = Ok l) es lines.
Proof.
  induction 1 as [|e es He _ [lines IH]].
  - exists []. constructor.
  - destruct (finding_line_ok e He) as [l Hl].
    exists (l :: lines). now constructor.
Qed.

Lemma add_lines_join `{PythonLib} (es : list Finding) (lines : list string)
      (start : string) :
  Forall2 (fun e l => finding_line e = Ok l) es lines ->
  add_lines start es = Ok (start ++ join lines).
Proof.
  intros Hall. revert start.
  induction Hall as [|e l es lines He _ IH]; intros start; simpl.
  - now rewrite app_nil_str.
  - rewrite He. unfold and_then. now rewrite IH, app_assoc_str.
Qed.

(** X20. The comment for a non-empty list of findings that have their keys
    is the marker, the title, the number of findings, and one line a
    finding in the order of the list; it is never the All checks passed
    text, and building it changes nothing. *)
Theorem build_comment_lists_findings `{PythonLib}
        (reviewer : CodeReviewer) (w : World) :
  errors w <> [] ->
  Forall (fun e => has_keys e = true) (errors w) ->
  exists lines,
    Forall2 (fun e l => finding_line e = Ok l) (errors w) lines /\
    build_comment reviewer w =
    (Ok (comment_header (List.length (errors w)) ++ join lines), w).
Proof.
  intros Hne Hk.
  destruct (finding_lines_exist _ Hk) as [lines Hl].
  exists lines. split; [exact Hl|].
  unfold build_comment, bind, get, lift.
  destruct (errors w) as [|e es] eqn:Ee; [congruence|].
  cbn [no_errors]. rewrite (add_lines_join _ _ _ Hl). reflexivity.
Qed.

Lemma build_comment_lists_findings_witness :
  fst (build_comment (H := reference_python) sample_reviewer
         (set_errors [format_finding "a.py"; test_finding] world_clean)) =
  Ok (comment_header 2 ++
      "- `a.py` **1:1** `FORMAT` — File is not properly formatted" ++ nl ++
      "- `tests/` **1:1** `TEST` — Tests failed" ++ nl).
Proof.
  destruct (build_comment_lists_findings
              (H := reference_python) sample_reviewer
              (set_errors [format_finding "a.py"; test_finding] world_clean))
    as (lines & Hl & E).
  - discriminate.
  - repeat constructor.
  - rewrite E. cbn [fst]. f_equal. f_equal.
    simpl in Hl.
    inversion Hl as [|? l1 ? ls1 H1 Hl1]; subst.
    inversion Hl1 as [|? l2 ? ls2 H2 Hl2]; subst.
    inversion Hl2; subst.
    vm_compute in H1. vm_compute in H2.
    injection H1 as <-. injection H2 as <-. reflexivity.
Defined.

(* ------------------------------------------------------------------ *)
(** ** One unformatted file, from the delivery to the comment *)

Section EndToEnd.
Context `{PythonLib}.
Variable WEBHOOK_SECRET : string.





End EndToEnd.


(* ------------------------------------------------------------------ *)
(** ** Where the calls of a review go *)

Lemma confined_step_refl (dir : nat) (w : World) : confined_step dir w w.
Proof. exists []. split; [now rewrite app_nil_r | constructor]. Qed.

Lemma confined_step_trans (dir : nat) (w1 w2 w3 : World) :
  confined_step dir w1 w2 -> confined_step dir w2 w3 ->
  confined_step dir w1 w3.
Proof.
  intros (t1 & E1 & F1) (t2 & E2 & F2). exists (t1 ++ t2)%list. split.
  - now rewrite E2, E1, app_assoc.
  - now apply Forall_app.
Qed.

Lemma emit_confined (dir : nat) (c : call) :
  confined dir c = true -> preserves (confined_step dir) (emit c).
Proof.
  intros Hc. apply preserves_modify. intros w.
  exists [c]. split; [reflexivity | now constructor].
Qed.

Lemma modify_confined (dir : nat) (f : World -> World) :
  (forall w, trace (f w) = trace w) ->
  preserves (confined_step dir) (modify f).
Proof.
  intros Hf. apply preserves_modify. intros w.
  exists []. split; [now rewrite Hf, app_nil_r | constructor].
Qed.

Ltac confine :=
  repeat first
    [ apply (preserves_bind _ (confined_step_trans _)); [|intro]
    | apply (preserves_for_each _ (confined_step_refl _)
                                (confined_step_trans _)); intro
    | apply (preserves_lift _ (confined_step_refl _))
    | apply (preserves_get _ (confined_step_refl _))
    | apply (preserves_ret _ (confined_step_refl _))
    | apply (preserves_raise _ (confined_step_refl _))
    | apply emit_confined; simpl; apply Nat.eqb_refl
    | apply modify_confined; intro; reflexivity
    | match goal with
      | |- preserves _ (match ?x with _ => _ end) => destruct x
      end ].

Section Confinement.
Context `{PythonLib}.
Variable WEBHOOK_SECRET : string.

Lemma analysis_confined (reviewer : CodeReviewer) :
  preserves (confined_step (workdir reviewer))
            (bind (clone_repo reviewer) (fun _ => run_all reviewer)).
Proof.
  unfold clone_repo, run_all, changed_python_files, run_ruff,
    run_format_check, run_pytest, run, subprocess_run, append_error.
  confine.
Qed.

(** X22. The calls of a review. For an accepted delivery with its fields,
    whatever the outcome, the handler first sets the pending status and
    makes the workspace; every process it then starts runs in that
    workspace, no other directory is made or removed, and the workspace
    is removed before the handler reports or fails. *)
Theorem review_calls_stay_in_workspace
        (request : Request) (payload : pyobj) (w w' : World)
        (f : PullRequestRef) (r : result Response) :
  accepted WEBHOOK_SECRET request payload ->
  pr_fields payload = Ok f ->
  webhook WEBHOOK_SECRET request w = (r, w') ->
  exists calls,
    trace w' =
      (trace w ++
         SetStatus (pr_repo f) (pr_head_sha f) "pending"
                   "Running code quality checks" ::
         Mkdtemp (tmp_next w) :: calls)%list /\
    Forall (fun c => confined (tmp_next w) c = true) calls /\
    exists before after,
      calls = (before ++ Rmtree (tmp_next w) :: after)%list /\
      Forall (fun c => is_subprocess c = false) after.
Proof.
  intros Hacc Hf E.
  assert (Hstart : exists gh rv w0,
             begin_review f w = (Ok (gh, rv), w0) /\
             workdir rv = tmp_next w /\
             repo gh = pr_repo f /\
             head_sha rv = pr_head_sha f /\
             trace w0 =
               (trace w ++
                  [SetStatus (pr_repo f) (pr_head_sha f) "pending"
                             "Running code quality checks";
                   Mkdtemp (tmp_next w)])%list).
  { do 3 eexists. rewrite begin_review_eq.
    split; [reflexivity|]. simpl. rewrite <- app_assoc. now repeat split. }
  destruct Hstart as (gh & rv & w0 & Hb & Hdir & Hrepo & Hsha & Ht0).
  rewrite (webhook_accepted _ _ _ _ Hacc) in E.
  rewrite (review_started _ _ _ _ _ _ Hf Hb) in E.
  apply bind_inv in E.
  destruct E as [(b & w1 & Hg & Hrep)|(e & Hg & ->)].
  - destruct (reviewed_state _ _ _ _ _ _ _ Hb Hg) as (Hflag & Hk & _).
    destruct (guarded_review_cases _ _ _ _ _ Hg)
      as (w2 & _ & _ & _ & _ & _ & _ &
          [(b' & Ebody & _ & _ & Ht1)|(e & _ & Hr & _)]);
      [|discriminate].
    destruct (analysis_confined rv _ _ _ Ebody) as (t & Ht2 & Hconf).
    destruct (report_spec gh rv (pr_number f) b w1 Hflag Hk)
      as (w'' & posted & Er & Ht & Hp & _).
    rewrite Er in Hrep. injection Hrep as <- <-.
    rewrite Hdir in *.
    match type of Ht with
    | _ = (_ ++ ?tail)%list =>
        exists (t ++ Rmtree (tmp_next w) :: tail)%list
    end.
    assert (Hgh : forall l, Forall (fun c => confined (tmp_next w) c = true)
                           (map (DeleteComment (repo gh)) l) /\
                            Forall (fun c => is_subprocess c = false)
                           (map (DeleteComment (repo gh)) l)).
    { induction l; simpl; split; constructor; try reflexivity;
        now destruct IHl. }
    assert (Hposted : Forall (fun c => confined (tmp_next w) c = true) posted
                      /\ Forall (fun c => is_subprocess c = false) posted).
    { destruct Hp as [[_ ->]|(_ & c & -> & _)]; split; repeat constructor. }
    split; [|split].
    + rewrite Ht, Ht1, Ht2, Ht0, <- !app_assoc. reflexivity.
    + apply Forall_app. split; [exact Hconf|].
      constructor; [simpl; apply Nat.eqb_refl|].
      constructor; [reflexivity|].
      apply Forall_app. split; [apply Hgh|].
      constructor; [reflexivity | apply Hposted].
    + eexists. eexists. split; [reflexivity|].
      constructor; [reflexivity|].
      apply Forall_app. split; [apply Hgh|].
      constructor; [reflexivity | apply Hposted].
  - destruct (guarded_review_cases _ _ _ _ _ Hg)
      as (w2 & _ & _ & _ & _ & _ & _ &
          [(b' & _ & Hr & _)|(e' & Ebody & _ & _ & Ht1)]);
      [discriminate|].
    destruct (analysis_confined rv _ _ _ Ebody) as (t & Ht2 & Hconf).
    rewrite Hdir, Hrepo, Hsha in *.
    exists (t ++ [SetStatus (pr_repo f) (pr_head_sha f) "error"
                            "CI execution failed";
                  Rmtree (tmp_next w)])%list.
    split; [|split].
    + rewrite Ht1, Ht2, Ht0, <- !app_assoc. reflexivity.
    + apply Forall_app. split; [exact Hconf|].
      constructor; [reflexivity|].
      constructor; [simpl; apply Nat.eqb_refl | constructor].
    + exists (t ++ [SetStatus (pr_repo f) (pr_head_sha f) "error"
                              "CI execution failed"])%list, [].
      split; [now rewrite <- app_assoc | constructor].
Qed.
End Confinement.

Lemma review_calls_stay_in_workspace_witness :
  exists calls,
    trace (snd (webhook (H := reference_python) EmptyString
                        (sample_request "opened") world_no_clone)) =
    (SetStatus (PyStr "octo/demo") (PyStr "c0ffee") "pending"
               "Running code quality checks" :: Mkdtemp 0 :: calls) /\
    Forall (fun c => confined 0 c = true) calls.
Proof.
  destruct (review_calls_stay_in_workspace
              (H := reference_python) EmptyString
              (sample_request "opened") (sample_payload "opened")
              world_no_clone
              (snd (webhook (H := reference_python) EmptyString
                            (sample_request "opened") world_no_clone))
              sample_fields
              (fst (webhook (H := reference_python) EmptyString
                            (sample_request "opened") world_no_clone))
              sample_accepted eq_refl)
    as (calls & Ht & Hc & _).
  - vm_compute. reflexivity.
  - exists calls. split; [exact Ht | exact Hc].
Defined.

(* ------------------------------------------------------------------ *)
(** ** The flag of a review and the findings of its checks *)

Lemma as_args_inv (args a : list string) :
  as_args (map PyStr args) = Ok a ->
  a = args /\ Forall (fun s => has_nul s = false) args.
Proof.
  revert a. induction args as [|s args IH]; simpl; intros a E.
  - injection E as <-. now split.
  - destruct (has_nul s) eqn:Hs; [discriminate|].
    destruct (as_args (map PyStr args)) as [a'|e]; simpl in E;
      [|discriminate].
    injection E as <-. destruct (IH a' eq_refl) as [-> Hf].
    split; [reflexivity | now constructor].
Qed.

(** A process started without [check] that returns: its arguments hold
    no NUL, the command has started, and the call is recorded. *)
Lemma subprocess_run_unchecked_inv (args : list string) (cwd : nat)
      (w w' : World) (proc : CompletedProcess) :
  subprocess_run (map PyStr args) cwd false w = (Ok proc, w') ->
  Forall (fun s => has_nul s = false) args /\
  exec w args = Some proc /\
  w' = set_trace (trace w ++ [Subprocess args cwd]) w.
Proof.
  unfold subprocess_run. intros E.
  apply bind_inv_ok in E. destruct E as (a & w1 & Ea & E).
  unfold lift in Ea. injection Ea as Ea <-.
  destruct (as_args_inv _ _ Ea) as [-> Hf].
  unfold bind, emit, modify, get in E. simpl in E.
  destruct (exec w args) as [p|]; [|discriminate].
  unfold ret in E. injection E as <- <-. now repeat split.
Qed.

(** The loop of [run_ruff] when it returns: every item gave its
    finding. *)
Lemma ruff_loop_inv (items : list pyobj) (w w' : World) :
  for_each items
           (fun i => bind (lift (ruff_finding i)) (fun e => append_error e)) w
  = (Ok tt, w') ->
  exists es,
    Forall2 (fun i e => ruff_finding i = Ok e) items es /\
    errors w' = (errors w ++ es)%list.
Proof.
  revert w. induction items as [|i items IH]; simpl; intros w E.
  - unfold ret in E. injection E as <-. exists []. split; [constructor|].
    now rewrite app_nil_r.
  - apply bind_inv_ok in E. destruct E as (u & w1 & Ei & E).
    unfold bind, lift in Ei.
    destruct (ruff_finding i) as [e|x] eqn:Hi; [|discriminate].
    unfold append_error, modify in Ei. injection Ei as _ <-.
    destruct (IH _ E) as (es & Hall & He).
    exists (e :: es). split; [now constructor|].
    simpl in He. now rewrite He, <- app_assoc.
Qed.

Section CheckFindings.
Context `{PythonLib}.

Lemma run_ruff_inv (reviewer : CodeReviewer) (files : list string)
      (w w' : World) :
  run_ruff reviewer files w = (Ok tt, w') ->
  exists found,
    lint_found w files found /\ errors w' = (errors w ++ found)%list.
Proof.
  unfold run_ruff, lint_found. destruct files as [|f0 files'].
  - unfold ret. intros E. injection E as <-. exists [].
    split; [reflexivity | now rewrite app_nil_r].
  - intros E. apply bind_inv_ok in E. destruct E as (proc & w1 & Es & E).
    apply (subprocess_run_unchecked_inv (lint_command (f0 :: files')))
      in Es.
    destruct Es as (_ & Hexec & ->).
    destruct (nonempty (stdout proc)) eqn:Hout.
    + apply bind_inv_ok in E. destruct E as (issues & wa & Ej & E).
      unfold lift in Ej. injection Ej as Ej <-.
      destruct (json_loads (stdout proc)) as [v|] eqn:Hjson;
        [|discriminate].
      injection Ej as ->.
      apply bind_inv_ok in E. destruct E as (items & wb & Ei & E).
      unfold lift in Ei. injection Ei as Ei <-.
      destruct (ruff_loop_inv _ _ _ E) as (es & Hall & He).
      exists es. split; [|exact He].
      exists proc. split; [exact Hexec|]. rewrite Hout.
      now exists issues, items.
    + unfold ret in E. injection E as <-. exists [].
      split; [|simpl; now rewrite app_nil_r].
      exists proc. split; [exact Hexec|]. now rewrite Hout.
Qed.

Lemma run_format_check_inv (reviewer : CodeReviewer) (files : list string)
      (w w' : World) :
  run_format_check reviewer files w = (Ok tt, w') ->
  exists found,
    format_found w files found /\ errors w' = (errors w ++ found)%list.
Proof.
  destruct files as [|f0 files'] eqn:Hfiles.
  - unfold run_format_check, ret. intros E. injection E as <-. exists [].
    split; [reflexivity | now rewrite app_nil_r].
  - rewrite <- Hfiles. intros E.
    assert (Hne : files <> []) by (rewrite Hfiles; discriminate).
    assert (Es : exists proc w1,
               subprocess_run (map PyStr (format_command files))
                              (workdir reviewer) false w = (Ok proc, w1)).
    { unfold run_format_check in E. rewrite Hfiles in E.
      apply bind_inv_ok in E. destruct E as (proc & w1 & Es & _).
      rewrite Hfiles. now exists proc, w1. }
    destruct Es as (proc & w1 & Es).
    apply subprocess_run_unchecked_inv in Es.
    destruct Es as (Hnul & Hexec & _).
    assert (Hnul' : Forall (fun f => has_nul f = false) files).
    { unfold format_command in Hnul. simpl in Hnul.
      now do 3 (apply Forall_inv_tail in Hnul). }
    destruct (run_format_check_spec reviewer files w proc Hne Hnul' Hexec)
      as (w'' & E' & He & _).
    rewrite E in E'. injection E' as <-.
    exists (format_findings files (returncode proc)).
    split; [|exact He].
    unfold format_found. rewrite Hfiles. rewrite <- Hfiles.
    now exists proc.
Qed.

Lemma run_pytest_inv (reviewer : CodeReviewer) (w w' : World) :
  run_pytest reviewer w = (Ok tt, w') ->
  exists found,
    test_found w found /\ errors w' = (errors w ++ found)%list.
Proof.
  intros E.
  assert (Es : exists proc w1,
             subprocess_run (map PyStr test_command)
                            (workdir reviewer) false w = (Ok proc, w1)).
  { unfold run_pytest in E.
    apply bind_inv_ok in E. destruct E as (proc & w1 & Es & _).
    now exists proc, w1. }
  destruct Es as (proc & w1 & Es).
  apply subprocess_run_unchecked_inv in Es.
  destruct Es as (_ & Hexec & _).
  destruct (run_pytest_spec reviewer w proc Hexec) as (w'' & E' & He & _).
  rewrite E in E'. injection E' as <-.
  exists (test_findings (returncode proc)). split; [|exact He].
  now exists proc.
Qed.

(** What the checks find depends on the world through its processes
    alone. *)
Lemma lint_found_exec (w w' : World) (files : list string)
      (found : list Finding) :
  exec w' = exec w -> lint_found w' files found -> lint_found w files found.
Proof. unfold lint_found. now intros ->. Qed.

Lemma format_found_exec (w w' : World) (files : list string)
      (found : list Finding) :
  exec w' = exec w ->
  format_found w' files found -> format_found w files found.
Proof. unfold format_found. now intros ->. Qed.

Lemma test_found_exec (w w' : World) (found : list Finding) :
  exec w' = exec w -> test_found w' found -> test_found w found.
Proof. unfold test_found. now intros ->. Qed.

Lemma changed_python_files_exec (reviewer : CodeReviewer) (w w' : World) :
  exec w' = exec w ->
  fst (changed_python_files reviewer w') =
  fst (changed_python_files reviewer w).
Proof.
  intros He.
  unfold changed_python_files, run, subprocess_run, bind, lift, emit,
    modify, get, raise, ret.
  destruct (as_args _) as [args|e]; [|reflexivity].
  cbn [exec set_trace]. rewrite He.
  destruct (exec w args) as [proc|]; [|reflexivity].
  now destruct (true && negb (returncode proc =? 0)).
Qed.

Lemma check_findings_exec (reviewer : CodeReviewer) (w w' : World)
      (lint fmt tests : list Finding) :
  exec w' = exec w ->
  check_findings reviewer w' lint fmt tests ->
  check_findings reviewer w lint fmt tests.
Proof.
  intros He (files & Hf & Hl & Hm & Ht). exists files.
  rewrite <- (changed_python_files_exec reviewer w w' He).
  split; [exact Hf|]. split; [now apply (lint_found_exec w w')|].
  split; [now apply (format_found_exec w w') |
          now apply (test_found_exec w w')].
Qed.

Lemma clone_repo_errors (reviewer : CodeReviewer) (w w1 : World)
      (r : result unit) :
  clone_repo reviewer w = (r, w1) -> errors w1 = errors w.
Proof.
  set (R := fun w w' : World => errors w' = errors w).
  assert (Rrefl : forall x, R x x) by reflexivity.
  assert (Rtrans : forall x y z, R x y -> R y z -> R x z)
    by (unfold R; congruence).
  intros E. change (R w w1). revert E. generalize w r w1.
  change (preserves R (clone_repo reviewer)).
  unfold clone_repo, run, subprocess_run.
  repeat first
    [ apply (preserves_bind _ Rtrans); [|intro]
    | apply (preserves_lift _ Rrefl)
    | apply (preserves_get _ Rrefl)
    | apply (preserves_ret _ Rrefl)
    | apply (preserves_raise _ Rrefl)
    | apply preserves_modify; intro; reflexivity
    | match goal with
      | |- preserves _ (match ?x with _ => _ end) => destruct x
      end ].
Qed.

(** An analysis run that completes: the list it leaves is the one it
    started with, followed by the findings of the three checks. *)
Lemma run_all_inv (reviewer : CodeReviewer) (w w' : World) (b : bool) :
  run_all reviewer w = (Ok b, w') ->
  exists lint fmt tests,
    check_findings reviewer w lint fmt tests /\
    errors w' = (errors w ++ lint ++ fmt ++ tests)%list /\
    b = no_errors (errors w').
Proof.
  intros E. pose proof (run_all_flag _ _ _ _ E) as Hflag.
  unfold run_all in E.
  apply bind_inv_ok in E. destruct E as (files & w1 & E1 & E).
  apply bind_inv_ok in E. destruct E as ([] & w2 & E2 & E).
  apply bind_inv_ok in E. destruct E as ([] & w3 & E3 & E).
  apply bind_inv_ok in E. destruct E as ([] & w4 & E4 & E).
  unfold bind, get, ret in E. injection E as _ <-.
  destruct (changed_python_files_quiet reviewer _ _ _ E1) as (X1 & _).
  destruct (run_ruff_quiet reviewer files _ _ _ E2) as (X2 & _).
  destruct (run_format_check_quiet reviewer files _ _ _ E3) as (X3 & _).
  pose proof (changed_python_files_errors _ _ _ _ E1) as He1.
  destruct (run_ruff_inv _ _ _ _ E2) as (lint & Hl & He2).
  destruct (run_format_check_inv _ _ _ _ E3) as (fmt & Hm & He3).
  destruct (run_pytest_inv _ _ _ E4) as (tests & Ht & He4).
  exists lint, fmt, tests. split; [|split; [|exact Hflag]].
  - exists files. split; [now rewrite E1|].
    split; [apply (lint_found_exec w w1); assumption|].
    split.
    + apply (format_found_exec w w2); [congruence | assumption].
    + apply (test_found_exec w w3); [congruence | assumption].
  - rewrite He4, He3, He2, He1. now rewrite <- !app_assoc.
Qed.

Lemma no_findings_iff (start lint fmt tests : list Finding) :
  (start ++ lint ++ fmt ++ tests)%list = [] <->
  start = [] /\ lint = [] /\ fmt = [] /\ tests = [].
Proof.
  split.
  - intros E. apply app_eq_nil in E. destruct E as [-> E].
    apply app_eq_nil in E. destruct E as [-> E].
    apply app_eq_nil in E. destruct E as [-> ->]. now repeat split.
  - now intros (-> & -> & -> & ->).
Qed.

Variable WEBHOOK_SECRET : string.

(** C9. An analysis run that completes leaves the findings list it
    started with followed by the findings of the lint check, of the
    format check and of the test check, each as its tool gave them, and
    returns true exactly when that list is empty: a finding of any of
    the three checks makes the flag false.  The handler of an accepted
    delivery that answers at all answers 200 with the body success: b,
    where b is the flag of the run on the reviewer of that delivery: the
    findings list starts empty, ends as the findings of the three
    checks, and b is true exactly when it is empty. *)
Theorem success_iff_no_findings :
  (forall (reviewer : CodeReviewer) (w w' : World) (b : bool),
      run_all reviewer w = (Ok b, w') ->
      exists lint fmt tests,
        check_findings reviewer w lint fmt tests /\
        errors w' = (errors w ++ lint ++ fmt ++ tests)%list /\
        (b = true <-> errors w' = []) /\
        (b = true <->
         errors w = [] /\ lint = [] /\ fmt = [] /\ tests = [])) /\
  (forall (request : Request) (payload : pyobj) (w w' : World)
          (resp : Response),
      accepted WEBHOOK_SECRET request payload ->
      webhook WEBHOOK_SECRET request w = (Ok resp, w') ->
      exists b f gh reviewer w0 lint fmt tests,
        resp = summary b /\
        status resp = 200 /\
        body resp = [("success", PyBool b)] /\
        pr_fields payload = Ok f /\
        begin_review f w = (Ok (gh, reviewer), w0) /\
        check_findings reviewer w lint fmt tests /\
        errors w' = (lint ++ fmt ++ tests)%list /\
        (b = true <-> errors w' = []) /\
        (b = true <-> lint = [] /\ fmt = [] /\ tests = [])).
Proof.
  split.
  - intros reviewer w w' b E.
    destruct (run_all_inv _ _ _ _ E) as (lint & fmt & tests & Hc & He & Hb).
    exists lint, fmt, tests.
    split; [exact Hc|]. split; [exact He|].
    pose proof (no_errors_iff _ _ Hb) as Hiff.
    split; [exact Hiff|].
    rewrite Hiff, He. apply no_findings_iff.
  - intros request payload w w' resp Hacc E.
    rewrite (webhook_accepted _ _ _ _ Hacc) in E.
    apply review_ok_inv in E.
    destruct E as (f & gh & reviewer & w0 & b & w1 & Hf & Hb & Hg & Er).
    destruct (reviewed_state _ _ _ _ _ _ _ Hb Hg) as (Hflag & Hk & _).
    destruct (report_spec gh reviewer (pr_number f) b w1 Hflag Hk)
      as (w'' & posted & Er' & _ & _ & _ & He & _).
    rewrite Er in Er'. injection Er' as -> ->.
    destruct (guarded_review_ok _ _ _ _ _ Hg) as (w2 & Hbody & Hclean).
    apply bind_inv_ok in Hbody. destruct Hbody as ([] & w3 & Hclone & Hrun).
    rewrite cleanup_eq in Hclean. injection Hclean as Hw1.
    assert (He12 : errors w1 = errors w2)
      by (subst w1; destruct (rmtree_ok w2); reflexivity).
    destruct (clone_repo_quiet reviewer _ _ _ Hclone) as (X3 & _).
    pose proof (clone_repo_errors _ _ _ _ Hclone) as He3.
    assert (X0 : exec w0 = exec w /\ errors w0 = []).
    { rewrite begin_review_eq in Hb. injection Hb as _ _ <-. now split. }
    destruct X0 as [X0 He0].
    destruct (run_all_inv _ _ _ _ Hrun)
      as (lint & fmt & tests & Hc & Hes & _).
    rewrite He3, He0 in Hes. simpl in Hes.
    assert (Hfinal : errors w'' = (lint ++ fmt ++ tests)%list)
      by congruence.
    exists b, f, gh, reviewer, w0, lint, fmt, tests.
    split; [reflexivity|]. split; [reflexivity|]. split; [reflexivity|].
    split; [exact Hf|]. split; [exact Hb|].
    split; [apply (check_findings_exec reviewer w w3);
            [congruence | exact Hc]|].
    split; [exact Hfinal|].
    assert (Hiff : b = true <-> errors w'' = []).
    { rewrite He. now apply no_errors_iff. }
    split; [exact Hiff|].
    rewrite Hiff, Hfinal.
    pose proof (no_findings_iff [] lint fmt tests) as Hn. simpl in Hn.
    rewrite Hn. intuition.
Qed.
End CheckFindings.

(** C9 at work: the linter reports two issues and the tests fail; the
    answer is success: false, with the three findings in the list. *)
Lemma success_iff_no_findings_witness :
  exists lint fmt tests,
    fst (webhook (H := reference_python) EmptyString (sample_request "opened")
                 world_lint_issues) = Ok (summary false) /\
    check_findings (H := reference_python) sample_reviewer world_lint_issues
                   lint fmt tests /\
    errors (snd (webhook (H := reference_python) EmptyString
                         (sample_request "opened") world_lint_issues)) =
    (lint ++ fmt ++ tests)%list /\
    List.length lint = 2%nat /\ fmt = [] /\ tests = [test_finding].
Proof.
  destruct (proj2 (success_iff_no_findings (H := reference_python) EmptyString)
              (sample_request "opened") (sample_payload "opened")
              world_lint_issues
              (snd (webhook (H := reference_python) EmptyString
                            (sample_request "opened") world_lint_issues))
              (summary false) sample_accepted)
    as (b & f & gh & reviewer & w0 & lint & fmt & tests &
        Hresp & _ & _ & Hf & Hb & Hc & He & _).
  - vm_compute. reflexivity.
  - injection Hf as <-. injection Hb as _ <- _.
    exists lint, fmt, tests.
    split; [vm_compute; reflexivity|]. split; [exact Hc|].
    split; [exact He|].
    destruct Hc as (files & Hfiles & Hl & Hm & Ht).
    vm_compute in Hfiles. injection Hfiles as <-.
    destruct Hl as (pl & Hpl & Hl). vm_compute in Hpl.
    injection Hpl as <-.
    destruct Hl as (issues & items & Hj & Hi & Hall).
    vm_compute in Hj. injection Hj as <-.
    vm_compute in Hi. injection Hi as <-.
    destruct Hm as (pf & Hpf & ->). vm_compute in Hpf. injection Hpf as <-.
    destruct Ht as (pt & Hpt & ->). vm_compute in Hpt. injection Hpt as <-.
    split; [|split; reflexivity].
    now rewrite <- (Forall2_length Hall).
Defined.
